(** * em-admin: M-Bus frame codec and protocol engine

    A shallow embedding of [em-admin.c] (infrared M-Bus administration of
    Engelmann/Lorenz water meters) together with the properties of its
    frame codec, record decoder and protocol operations.

    Conventions of the embedding:
    - an [unsigned char] is a [byte]; [u8] reads it as a number and
      [to_u8] is the conversion back, which wraps modulo 256;
    - a C array is a [list byte] whose length is the capacity of the
      array; an index is a [Z], since the source computes indices such as
      [ll - 1] that can leave the array;
    - a computation is a [run]: it returns ([Done]), leaves the defined
      behaviour of C by touching memory outside an array ([Undefined]), or
      never returns ([Diverges]);
    - the serial line is a [port] that records what was written and holds
      what the meter will answer;
    - [log_line] output is kept as structured values ([long_header],
      [rec_line], [month_line]); the text itself is not modelled, only
      where it is written: the characters that the [sprintf] calls of
      [em_read_info] put into its line buffer are counted ([put]), and a
      line that does not fit the buffer is [Undefined]. *)

From Stdlib Require Import ZArith List Lia Bool.
From Stdlib Require Import Strings.Byte.
From stdpp Require Import base tactics option list list_numbers.
From stdpp Require Import strings.
Import ListNotations.

Open Scope Z_scope.

(** ** Bytes *)

Definition u8 (b : byte) : Z := Z.of_N (Byte.to_N b).

Definition to_u8 (z : Z) : byte :=
  match Byte.of_N (Z.to_N (z mod 256)) with
  | Some b => b
  | None => x00
  end.

(** ** Outcomes of a C computation *)

Inductive run (A : Type) : Type :=
| Done (a : A)
| Undefined
| Diverges.

Arguments Done {A} a.
Arguments Undefined {A}.
Arguments Diverges {A}.

#[global] Instance run_ret : MRet run := fun A a => Done a.

#[global] Instance run_bind : MBind run := fun A B f m =>
  match m with
  | Done a => f a
  | Undefined => Undefined
  | Diverges => Diverges
  end.

(** [data[i]] *)
Definition rd (data : list byte) (i : Z) : run byte :=
  if i <? 0 then Undefined
  else match data !! Z.to_nat i with
       | Some b => Done b
       | None => Undefined
       end.

(** [data[i] = b] *)
Definition wr (data : list byte) (i : Z) (b : byte) : run (list byte) :=
  if (0 <=? i) && (i <? Z.of_nat (length data))
  then Done (<[Z.to_nat i := b]> data)
  else Undefined.

(** ** Constants of the source *)

Definition MBUS_FRAME_ACK : Z := 0xE5.
Definition MBUS_FRAME_SHORT_START : Z := 0x10.
Definition MBUS_FRAME_LONG_START : Z := 0x68.
Definition MBUS_FRAME_STOP : Z := 0x16.
Definition MBUS_C_SND_UD : Z := 0x53.
Definition MBUS_C_REQ_UD2 : Z := 0x7b.
Definition MBUS_CI_DATA_SEND : Z := 0x51.
Definition MBUS_CI_RSPUD12 : Z := 0x72.
Definition MBUS_FRAME_SHORT_HDR_LEN : Z := 1 + 1 + 1.
Definition MBUS_FRAME_LONG_HDR_LEN : Z := 4 + 1 + 1 + 1.
Definition MBUS_FRAME_FTR_LEN : Z := 1 + 1.
Definition MBUS_RSPUD12_HDR_LEN : Z := 4 + 2 + 1 + 1 + 1 + 1 + 2.

(** Widths of [unsigned int] and [size_t] on the LP64 targets the program
    is built for. *)
Definition UINT_MAX : Z := 2 ^ 32 - 1.
Definition SIZE_MAX : Z := 2 ^ 64 - 1.

(** [errno.h] values on Linux. *)
Definition EIO : Z := 5.
Definition EPROTO : Z := 71.

(** ** Checksum *)

(** The body of the [for] loop of [mbus_cslong], run [n] times from
    index [i]. *)
Fixpoint cslong_loop (n : nat) (frame : list byte) (i : Z) (cs : byte) : run byte :=
  match n with
  | O => Done cs
  | S n' =>
      b ← rd frame i;
      cslong_loop n' frame (i + 1) (to_u8 (u8 cs + u8 b))
  end.

(** [mbus_cslong]: the loop counter [i] is an [unsigned int], the bound
    [len - 2] is computed in [size_t].  When the bound fits an
    [unsigned int] the loop runs for [i = 4 .. bound - 1].  When it does
    not, [i < bound] holds for every value [i] can take: the loop walks on
    until it reads past the array, or for ever if the array is large enough
    for [i] to wrap around. *)
Definition mbus_cslong (frame : list byte) (len : Z) : run byte :=
  let bound := (len - 2) mod (SIZE_MAX + 1) in
  if bound <=? UINT_MAX
  then cslong_loop (Z.to_nat (bound - 4)) frame 4 x00
  else if Z.of_nat (length frame) <=? UINT_MAX then Undefined else Diverges.

(** The same loop one iteration at a time, the counter wrapping as an
    [unsigned int] does; [None] when [fuel] iterations do not leave the
    loop.  [mbus_cslong_steps] relates the two. *)
Fixpoint cslong_steps (fuel : nat) (frame : list byte) (bound i : Z) (cs : byte)
  : option (run byte) :=
  match fuel with
  | O => None
  | S fuel' =>
      if i <? bound then
        match rd frame i with
        | Done b =>
            cslong_steps fuel' frame bound ((i + 1) mod (UINT_MAX + 1))
                         (to_u8 (u8 cs + u8 b))
        | _ => Some Undefined
        end
      else Some (Done cs)
  end.

(** The sum of the bytes found at the offsets [offs]. *)
Definition sum_at (frame : list byte) (offs : list Z) : Z :=
  foldr (fun i acc => u8 (nth (Z.to_nat i) frame x00) + acc) 0 offs.

(** ** Long frames

    [mbus_checklong] reports the branch it leaves through with a
    [log_line]; the embedding keeps that line as the [long_error] of a
    rejection, and the values logged on success as a [long_header]. *)

Inductive long_error : Type :=
| LongTooSmall          (* "M-Bus long frame: Too small" *)
| LongBadStart          (* "M-Bus long frame: Invalid start header" *)
| LongLengthMismatch    (* "M-Bus long frame: Mismatching length info" *)
| LongExceedsBuffer     (* "M-Bus long frame: Frame length %d exceeds buffer size %d" *)
| LongBadStop           (* "M-Bus long frame: Invalid stop header" *)
| LongBadChecksum.      (* "M-Bus long frame: Invalid checksum" *)

(** The fields logged when the control info is [MBUS_CI_RSPUD12]. *)
Record rspud12 : Type := {
  rsp_secadr : byte * byte * byte * byte;   (* data[10], data[9], data[8], data[7] *)
  rsp_manufacturer : byte * byte;           (* data[12], data[11] *)
  rsp_letters : Z * Z * Z;
  rsp_version : byte;                       (* data[13] *)
  rsp_medium : byte;                        (* data[14] *)
  rsp_accesscount : byte;                   (* data[15] *)
  rsp_state : byte;                         (* data[16] *)
  rsp_signature : byte * byte               (* data[18], data[17] *)
}.

Record long_header : Type := {
  mbus_c : byte;      (* data[4] *)
  mbus_adr : byte;    (* data[5] *)
  mbus_ci : byte;     (* data[6] *)
  mbus_rsp : option rspud12
}.

Inductive long_check : Type :=
| LongRejected (e : long_error)
| LongAccepted (ll : Z) (h : long_header).

(** The [int] that [mbus_checklong] returns. *)
Definition long_ret (v : long_check) : Z :=
  match v with
  | LongRejected _ => 0
  | LongAccepted ll _ => ll
  end.

Definition read_rspud12 (data : list byte) : run rspud12 :=
  d10 ← rd data 10; d9 ← rd data 9; d8 ← rd data 8; d7 ← rd data 7;
  d12 ← rd data 12; d11 ← rd data 11;
  d13 ← rd data 13; d14 ← rd data 14; d15 ← rd data 15; d16 ← rd data 16;
  d18 ← rd data 18; d17 ← rd data 17;
  Done {| rsp_secadr := (d10, d9, d8, d7);
          rsp_manufacturer := (d12, d11);
          rsp_letters :=
            (64 + Z.shiftr (Z.land (u8 d12) 0x7c) 2,
             64 + Z.shiftr (Z.land (Z.lor (Z.shiftl (u8 d12) 8) (u8 d11)) 0x3e0) 5,
             64 + Z.land (u8 d11) 0x1f);
          rsp_version := d13;
          rsp_medium := d14;
          rsp_accesscount := d15;
          rsp_state := d16;
          rsp_signature := (d18, d17) |}.

(** [mbus_checklong].  [ll] is an [unsigned char]: the sum
    [data[1] + 4 + MBUS_FRAME_FTR_LEN] is cut to 8 bits when it is stored. *)
Definition mbus_checklong (data : list byte) (len : Z) : run long_check :=
  if len <? MBUS_FRAME_LONG_HDR_LEN + MBUS_FRAME_FTR_LEN
  then Done (LongRejected LongTooSmall)
  else
    d0 ← rd data 0;
    bad_start ← (if negb (u8 d0 =? MBUS_FRAME_LONG_START) then Done true
                 else d3 ← rd data 3; Done (negb (u8 d3 =? MBUS_FRAME_LONG_START)));
    if bad_start : bool then Done (LongRejected LongBadStart)
    else
      d1 ← rd data 1;
      d2 ← rd data 2;
      if negb (u8 d1 =? u8 d2) then Done (LongRejected LongLengthMismatch)
      else
        let ll := u8 (to_u8 (u8 d1 + 4 + MBUS_FRAME_FTR_LEN)) in
        if ll >? len then Done (LongRejected LongExceedsBuffer)
        else
          stop ← rd data (ll - 1);
          if negb (u8 stop =? MBUS_FRAME_STOP) then Done (LongRejected LongBadStop)
          else
            cs ← mbus_cslong data ll;
            chk ← rd data (ll - MBUS_FRAME_FTR_LEN);
            if negb (u8 cs =? u8 chk) then Done (LongRejected LongBadChecksum)
            else
              c ← rd data 4;
              a ← rd data 5;
              ci ← rd data 6;
              rsp ← (if u8 ci =? MBUS_CI_RSPUD12
                     then r ← read_rspud12 data; Done (Some r)
                     else Done None);
              Done (LongAccepted ll
                      {| mbus_c := c; mbus_adr := a; mbus_ci := ci; mbus_rsp := rsp |}).

(** ** Short frames *)

Inductive short_error : Type :=
| ShortTooSmall       (* "M-Bus short frame: Too small" *)
| ShortBadStart       (* "M-Bus short frame: Invalid start header" *)
| ShortBadStop        (* "M-Bus short frame: Invalid stop header" *)
| ShortBadChecksum.   (* "M-Bus short frame: Invalid checksum" *)

Inductive short_check : Type :=
| ShortRejected (e : short_error)
| ShortAccepted (c a : byte).

Definition short_ret (v : short_check) : Z :=
  match v with
  | ShortRejected _ => 0
  | ShortAccepted _ _ => MBUS_FRAME_SHORT_HDR_LEN + MBUS_FRAME_FTR_LEN
  end.

Definition mbus_checkshort (data : list byte) (len : Z) : run short_check :=
  if len <? MBUS_FRAME_SHORT_HDR_LEN + MBUS_FRAME_FTR_LEN
  then Done (ShortRejected ShortTooSmall)
  else
    d0 ← rd data 0;
    if negb (u8 d0 =? MBUS_FRAME_SHORT_START) then Done (ShortRejected ShortBadStart)
    else
      stop ← rd data (MBUS_FRAME_SHORT_HDR_LEN + MBUS_FRAME_FTR_LEN - 1);
      if negb (u8 stop =? MBUS_FRAME_STOP) then Done (ShortRejected ShortBadStop)
      else
        d1 ← rd data 1;
        d2 ← rd data 2;
        chk ← rd data MBUS_FRAME_SHORT_HDR_LEN;
        if negb (u8 (to_u8 (u8 d1 + u8 d2)) =? u8 chk)
        then Done (ShortRejected ShortBadChecksum)
        else Done (ShortAccepted d1 d2).

(** ** The serial line

    [written] is every buffer handed to [write], oldest first.  [incoming]
    is what the meter sends: one burst of bytes for each window in which
    [serial_read] waits. *)

Record port : Type := {
  written : list (list byte);
  incoming : list (list byte)
}.

(** [serial_write]: the [len] bytes of [data] go out on the line. *)
Definition serial_write (t : port) (data : list byte) (len : Z) : run port :=
  if (0 <=? len) && (len <=? Z.of_nat (length data))
  then Done {| written := written t ++ [take (Z.to_nat len) data];
               incoming := incoming t |}
  else Undefined.

(** [serial_read]: at most [maxbytes] bytes of the next burst are stored at
    the start of [data]; [-EIO] when none came.  The result is the return
    value, the array and the line. *)
Definition serial_read (t : port) (data : list byte) (maxbytes : Z)
  : run (Z * list byte * port) :=
  match incoming t with
  | [] => Done (- EIO, data, t)
  | burst :: later =>
      let got := take (Z.to_nat maxbytes) burst in
      let left := drop (Z.to_nat maxbytes) burst in
      let t' := {| written := written t;
                   incoming := match left with [] => later | _ => left :: later end |} in
      match got with
      | [] => Done (- EIO, data, t')
      | _ =>
          if Z.of_nat (length got) <=? Z.of_nat (length data)
          then Done (Z.of_nat (length got), got ++ drop (length got) data, t')
          else Undefined
      end
  end.

(** ** Frame exchange *)

(** The first part of [mbus_io]: the checksum byte of [out] is filled in
    and the frame is checked with the validator of its shape.  The result
    is [out] as it is left, with [true] when the frame is to be sent and
    [false] for [return -EPROTO]. *)
Definition mbus_io_prepare (out : list byte) (outlen : Z) : run (bool * list byte) :=
  is_short ← (if outlen =? MBUS_FRAME_SHORT_HDR_LEN + MBUS_FRAME_FTR_LEN
              then o0 ← rd out 0; Done (u8 o0 =? MBUS_FRAME_SHORT_START)
              else Done false);
  if is_short : bool then
    o1 ← rd out 1;
    o2 ← rd out 2;
    out' ← wr out (outlen - MBUS_FRAME_FTR_LEN) (to_u8 (u8 o1 + u8 o2));
    v ← mbus_checkshort out' outlen;
    if short_ret v =? 0 then Done (false, out') else Done (true, out')
  else
    is_long ← (if MBUS_FRAME_LONG_HDR_LEN + MBUS_FRAME_FTR_LEN <=? outlen
               then o0 ← rd out 0; Done (u8 o0 =? MBUS_FRAME_LONG_START)
               else Done false);
    if is_long : bool then
      cs ← mbus_cslong out outlen;
      out' ← wr out (outlen - MBUS_FRAME_FTR_LEN) cs;
      v ← mbus_checklong out' outlen;
      if long_ret v =? 0 then Done (false, out') else Done (true, out')
    else Done (false, out).

Record io_result : Type := {
  io_ret : Z;             (* the [ssize_t] returned *)
  io_out : list byte;     (* [out] after the call *)
  io_in : list byte;      (* [in] after the call *)
  io_port : port
}.

(** [mbus_io] *)
Definition mbus_io (t : port) (out : list byte) (outlen : Z)
    (in_ : list byte) (inlen : Z) : run io_result :=
  '(ok, out') ← mbus_io_prepare out outlen;
  if ok : bool then
    t1 ← serial_write t out' outlen;
    '(n, in', t2) ← serial_read t1 in_ inlen;
    Done {| io_ret := n; io_out := out'; io_in := in'; io_port := t2 |}
  else
    Done {| io_ret := - EPROTO; io_out := out'; io_in := in_; io_port := t |}.

(** [mbus_io_acked].  [in0] is the content of the local array [in[8]]
    before anything is stored in it. *)
Definition mbus_io_acked (t : port) (out : list byte) (outlen : Z)
    (in0 : list byte) : run (Z * port) :=
  r ← mbus_io t out outlen in0 8;
  if io_ret r <? 0 then Done (- io_ret r, io_port r)
  else
    bad ← (if io_ret r <? 1 then Done true
           else i0 ← rd (io_in r) 0; Done (negb (u8 i0 =? MBUS_FRAME_ACK)));
    if bad : bool then Done (EPROTO, io_port r) else Done (0, io_port r).

(** ** Operations *)

Definition EM_SET_KEYDAY_MONTH : Z := 10.
Definition EM_SET_KEYDAY_DAY : Z := 3.

Definition keyday_frame : list byte :=
  [ to_u8 MBUS_FRAME_LONG_START; to_u8 8; to_u8 8; to_u8 MBUS_FRAME_LONG_START;
    to_u8 MBUS_C_SND_UD; to_u8 254; to_u8 MBUS_CI_DATA_SEND;
    x02; xec;
    x00;
    to_u8 (Z.lor EM_SET_KEYDAY_DAY 0xe0);
    to_u8 (Z.lor EM_SET_KEYDAY_MONTH 0xf0);
    x00;
    to_u8 MBUS_FRAME_STOP ].

(** [em_set_keyday] *)
Definition em_set_keyday (t : port) (in0 : list byte) : run (Z * port) :=
  mbus_io_acked t keyday_frame (Z.of_nat (length keyday_frame)) in0.

Definition aes_frame : list byte :=
  [ to_u8 MBUS_FRAME_LONG_START; to_u8 28; to_u8 28; to_u8 MBUS_FRAME_LONG_START;
    to_u8 MBUS_C_SND_UD; to_u8 254; to_u8 MBUS_CI_DATA_SEND;
    x0f; x83;
    x00; x00; x60;
    x00; x00; x00; x00;
    x89; x4f; x9f; x34; xcd; xd1; x93; x41;
    xab; xdc; xff; x5b; xea; x66; x10; xbc;
    x00;
    to_u8 MBUS_FRAME_STOP ].

(** [em_set_aes]: the function returns 7 right after [frame_out] is set
    up; the call of [mbus_io_acked] below that [return] is never reached. *)
Definition em_set_aes (t : port) : run (Z * port) :=
  let frame_out := aes_frame in
  Done (7, t).

(** ** Record decoding in [em_read_info] *)

Inductive rec_value : Type :=
| ValDateTime (year month day hour minute : Z)
| ValInt (v : Z)
| ValDate (year month day : Z)
| ValNone.

(** One line ["%02d: %s"] of the record log. *)
Record rec_line : Type := {
  rec_i : Z;
  rec_dif : byte;
  rec_dife : option byte;
  rec_vif : byte;
  rec_vife : option byte;
  rec_sn : Z;
  rec_raw : list byte;
  rec_val : rec_value
}.

Definition ldb : list Z := [0; 1; 2; 3; 4; 4; 6; 8].

(** The line buffer [char buf[64]] of the decoding loop.
    [b += sprintf (buf + b, ...)] with a text of [n] characters writes the
    characters and the 0 byte that ends them from [buf + b] on: they must
    lie within the 64 bytes.  The result is the new [b]. *)
Definition put (b n : Z) : run Z :=
  if b + n + 1 <=? 64 then Done (b + n) else Undefined.

(** The number of decimal digits of a number that is not negative, and
    the number of characters that ["%d"] ([w = 1]), ["%02d"] ([w = 2]) and
    ["%04d"] ([w = 4]) write for it. *)
Fixpoint dec_digits (fuel : nat) (v : Z) : Z :=
  match fuel with
  | O => 1
  | S fuel' => if v <? 10 then 1 else 1 + dec_digits fuel' (v / 10)
  end.

Definition width_d (w v : Z) : Z := Z.max w (dec_digits 20 v).

(** The RAW loop: [frame_in[d + j]] for [j < l], each written as
    ["%02x "].  The result is the bytes and the new [b]. *)
Fixpoint rd_raw (l : nat) (frame_in : list byte) (d b : Z)
  : run (list byte * Z) :=
  match l with
  | O => Done ([], b)
  | S l' =>
      x ← rd frame_in d;
      b1 ← put b 3;
      '(xs, b2) ← rd_raw l' frame_in (d + 1) b1;
      Done (x :: xs, b2)
  end.

(** The arguments of the date and time conversion
    [" VAL: %04d-%02d-%02d %02d:%02d"] for the data at [d]. *)
Definition datetime_value (frame_in : list byte) (d : Z) : run rec_value :=
  b2 ← rd frame_in (d + 2);
  b3 ← rd frame_in (d + 3);
  b1 ← rd frame_in (d + 1);
  b0 ← rd frame_in d;
  Done (ValDateTime
          (2000 + Z.lor (Z.shiftr (u8 b2) 5)
                        (Z.shiftr (Z.land (u8 b3) 0xf0) 1))
          (Z.land (u8 b3) 0xf)
          (Z.land (u8 b2) 0x1f)
          (u8 b1)
          (u8 b0)).

(** The number of characters that the conversion of a value writes. *)
Definition value_width (val : rec_value) : Z :=
  match val with
  | ValDateTime year month day hour minute =>
      (* " VAL: %04d-%02d-%02d %02d:%02d" *)
      6 + width_d 4 year + 1 + width_d 2 month + 1 + width_d 2 day
      + 1 + width_d 2 hour + 1 + width_d 2 minute
  | ValInt v =>
      (* " VAL: %ld" *)
      6 + width_d 1 v
  | ValDate year month day =>
      (* "       VAL: %04d-%02d-%02d" *)
      12 + width_d 4 year + 1 + width_d 2 month + 1 + width_d 2 day
  | ValNone => 0
  end.

Inductive rec_step : Type :=
| RecBreak                              (* [if (df > 7) break;] *)
| RecLogged (line : rec_line) (p' : Z). (* the line logged and [d + l] *)

(** The body of the decoding loop up to [p = d + l].  [b1], [b2], ... are
    the values that [b] takes: each [sprintf] writes into [buf] from
    [buf + b] on. *)
Definition record_step (frame_in : list byte) (p i : Z) : run rec_step :=
  dif ← rd frame_in p;
  let hasdife := Z.shiftr (Z.land (u8 dif) 0x80) 7 in
  v0 ← rd frame_in (p + 1 + hasdife);
  let hasvife := Z.shiftr (Z.land (u8 v0) 0x80) 7 in
  let d := p + 1 + hasdife + 1 + hasvife in
  b1 ← put 0 7;                               (* "DIF: %02x" *)
  dife ← rd frame_in (p + 1);
  b2 ← put b1 3;                              (* "-%02x" or "   " *)
  vif ← rd frame_in (p + hasdife + 1);
  b3 ← put b2 8;                              (* " VIF: %02x" *)
  vife ← rd frame_in (p + 1 + hasdife + 1);
  b4 ← put b3 3;                              (* "-%02x" or "   " *)
  let df := Z.land (u8 dif) 0xf in
  if df >? 7 then Done RecBreak
  else
    let l := nth (Z.to_nat df) ldb 0 in
    let sn0 := Z.shiftr (Z.land (u8 dif) 0x40) 6 in
    let sn := if hasdife =? 0 then sn0
              else Z.lor sn0 (Z.shiftl (Z.land (u8 dife) 0xf) 1) in
    b5 ← put b4 (5 + width_d 1 sn);           (* " SN: %d" *)
    b6 ← put b5 6;                            (* " RAW: " *)
    '(raw, b7) ← rd_raw (Z.to_nat l) frame_in d b6;
    val ← (if (df =? 4) && (u8 vif =? 0x6d) then
             datetime_value frame_in d
           else if df =? 4 then
             b3 ← rd frame_in (d + 3);
             b2 ← rd frame_in (d + 2);
             b1 ← rd frame_in (d + 1);
             b0 ← rd frame_in (d + 0);
             Done (ValInt (Z.lor (Z.lor (Z.lor (Z.shiftl (u8 b3) 24)
                                               (Z.shiftl (u8 b2) 16))
                                        (Z.shiftl (u8 b1) 8))
                                 (u8 b0)))
           else if (df =? 2) && (u8 vif =? 0x6c) then
             b0 ← rd frame_in d;
             b1 ← rd frame_in (d + 1);
             Done (ValDate
                     (2000 + Z.lor (Z.shiftr (u8 b0) 5)
                                   (Z.shiftr (Z.land (u8 b1) 0xf0) 1))
                     (Z.land (u8 b1) 0xf)
                     (Z.land (u8 b0) 0x1f))
           else Done ValNone);
    b8 ← put b7 (value_width val);            (* " VAL: ..." *)
    Done (RecLogged
            {| rec_i := i;
               rec_dif := dif;
               rec_dife := if hasdife =? 0 then None else Some dife;
               rec_vif := vif;
               rec_vife := if hasvife =? 0 then None else Some vife;
               rec_sn := sn;
               rec_raw := raw;
               rec_val := val |}
            (d + l)).

(** The decoding loop, from cursor [p] and line number [i]; the result is
    the lines logged until the loop is left.  [fuel] bounds the number of
    iterations; [records_loop_fuel] shows that 256 is never used up. *)
Fixpoint records_loop (fuel : nat) (frame_in : list byte) (p i : Z)
  : run (list rec_line) :=
  match fuel with
  | O => Diverges
  | S fuel' =>
      s ← record_step frame_in p i;
      match s with
      | RecBreak => Done []
      | RecLogged line p' =>
          l1 ← rd frame_in 1;
          if p' >? u8 l1 then Done [line]
          else
            rest ← records_loop fuel' frame_in p' (i + 1);
            Done (line :: rest)
      end
  end.

Definition info_frame : list byte :=
  [ to_u8 MBUS_FRAME_SHORT_START; to_u8 MBUS_C_REQ_UD2; to_u8 254; x00;
    to_u8 MBUS_FRAME_STOP ].

(** [em_read_info].  [frame_in0] is the content of the local array
    [frame_in[256]] before the reply is stored in it.  The result is the
    return value, the record lines logged and the line. *)
Definition em_read_info (t : port) (frame_in0 : list byte)
  : run (Z * list rec_line * port) :=
  r ← mbus_io t info_frame (Z.of_nat (length info_frame)) frame_in0 256;
  if io_ret r <? 0 then Done (- io_ret r, [], io_port r)
  else
    v ← mbus_checklong (io_in r) (io_ret r);
    if long_ret v <? 71 then Done (EPROTO, [], io_port r)
    else
      lines ← records_loop 256 (io_in r)
                (MBUS_FRAME_LONG_HDR_LEN + MBUS_RSPUD12_HDR_LEN) 0;
      Done (0, lines, io_port r).

(** ** Monthly totals in [em_read_months] *)

(** The reading is computed in [int].  Shifting a byte into the sign bit
    is given the result GCC documents for it: the low 32 bits of the value,
    read in two's complement. *)
Definition int32 (z : Z) : Z := (z + 2 ^ 31) mod 2 ^ 32 - 2 ^ 31.

(** One line ["EM_METER_READING_%04d-%02d-%02d: %d"]. *)
Record month_line : Type := {
  m_year : Z;
  m_month : Z;
  m_day : Z;
  m_reading : Z
}.

Definition month_record (frame_in : list byte) (i : Z) : run month_line :=
  let off := MBUS_FRAME_LONG_HDR_LEN + MBUS_RSPUD12_HDR_LEN + i * 6 in
  b1 ← rd frame_in (off + 1);
  b0 ← rd frame_in off;
  b5 ← rd frame_in (off + 5);
  b4 ← rd frame_in (off + 4);
  b3 ← rd frame_in (off + 3);
  b2 ← rd frame_in (off + 2);
  Done {| m_year := 2000 + Z.shiftr (Z.land (u8 b1) 0xfe) 1;
          m_month := Z.shiftr (Z.land (Z.lor (Z.shiftl (u8 b1) 8) (u8 b0)) 0x1e0) 5;
          m_day := Z.land (u8 b0) 0x1f;
          m_reading := int32 (Z.lor (Z.lor (Z.lor (Z.shiftl (u8 b5) 24)
                                                   (Z.shiftl (u8 b4) 16))
                                            (Z.shiftl (u8 b3) 8))
                                     (u8 b2)) |}.

(** The inner loop [for (i = 0; i < 15; i++)], with [n] iterations left. *)
Fixpoint month_records (n : nat) (frame_in : list byte) (i : Z)
  : run (list month_line) :=
  match n with
  | O => Done []
  | S n' =>
      line ← month_record frame_in i;
      rest ← month_records n' frame_in (i + 1);
      Done (line :: rest)
  end.

Definition months_frame : list byte :=
  [ to_u8 MBUS_FRAME_LONG_START; to_u8 8; to_u8 8; to_u8 MBUS_FRAME_LONG_START;
    to_u8 MBUS_C_SND_UD; to_u8 254; to_u8 MBUS_CI_DATA_SEND;
    x0f; x02;
    x00; x00; x60;
    x00;
    to_u8 MBUS_FRAME_STOP ].

(** The outer loop [for (i = 0; i <= 1; i++)], with [n] passes left.
    [frame_out] and [frame_in] live across the passes; [acc] collects the
    lines of the passes done. *)
Fixpoint read_months_loop (n : nat) (i : Z) (t : port)
    (frame_out frame_in : list byte) (acc : list (list month_line))
  : run (Z * list (list month_line) * port) :=
  match n with
  | O => Done (0, acc, t)
  | S n' =>
      frame_out1 ← (if i =? 1 then wr frame_out (MBUS_FRAME_LONG_HDR_LEN + 1) x03
                    else Done frame_out);
      r ← mbus_io t frame_out1 (Z.of_nat (length months_frame)) frame_in 256;
      if io_ret r <? 0 then Done (- io_ret r, acc, io_port r)
      else
        v ← mbus_checklong (io_in r) (io_ret r);
        if long_ret v <? 111 then Done (EPROTO, acc, io_port r)
        else
          lines ← month_records 15 (io_in r) 0;
          read_months_loop n' (i + 1) (io_port r) (io_out r) (io_in r) (acc ++ [lines])
  end.

(** [em_read_months].  [frame_in0] is the content of the local array
    [frame_in[256]] before the first reply is stored in it. *)
Definition em_read_months (t : port) (frame_in0 : list byte)
  : run (Z * list (list month_line) * port) :=
  read_months_loop 2 0 t months_frame frame_in0 [].

(** ** Building a long frame

    The source has no function that builds a frame: each operation writes
    its [frame_out] as an array initialiser.  [long_frame_cs] is the layout
    these initialisers share, for any [c], [a], [ci] and payload: start,
    the length [L = 3 + length payload] twice, start, [C], [A], [CI], the
    payload, the checksum byte, stop.  [long_frame] leaves the checksum
    byte 0 for [mbus_io] to fill in ([frame_out_layout]). *)
Definition long_frame_cs (c a ci : byte) (payload : list byte) (cs : byte)
  : list byte :=
  [ to_u8 MBUS_FRAME_LONG_START;
    to_u8 (3 + Z.of_nat (length payload));
    to_u8 (3 + Z.of_nat (length payload));
    to_u8 MBUS_FRAME_LONG_START;
    c; a; ci ] ++ payload ++ [ cs; to_u8 MBUS_FRAME_STOP ].

Definition long_frame (c a ci : byte) (payload : list byte) : list byte :=
  long_frame_cs c a ci payload x00.

(** The payload of an accepted long frame of [ll] bytes: what lies between
    the control info and the checksum. *)
Definition long_payload (data : list byte) (ll : Z) : list byte :=
  take (Z.to_nat (ll - MBUS_FRAME_LONG_HDR_LEN - MBUS_FRAME_FTR_LEN))
       (drop (Z.to_nat MBUS_FRAME_LONG_HDR_LEN) data).

(** ** A monthly record read from its six bytes

    The record as a function of the six bytes it occupies, and the six
    bytes of record [i] in a reply: those from offset [19 + 6 * i] on. *)
Definition month_of_chunk (chunk : list byte) : month_line :=
  let b k := u8 (nth k chunk x00) in
  {| m_year := 2000 + Z.shiftr (Z.land (b 1%nat) 0xfe) 1;
     m_month := Z.shiftr (Z.land (Z.lor (Z.shiftl (b 1%nat) 8) (b 0%nat)) 0x1e0) 5;
     m_day := Z.land (b 0%nat) 0x1f;
     m_reading := int32 (Z.lor (Z.lor (Z.lor (Z.shiftl (b 5%nat) 24)
                                              (Z.shiftl (b 4%nat) 16))
                                       (Z.shiftl (b 3%nat) 8))
                                (b 2%nat)) |}.

Definition month_chunk (frame_in : list byte) (i : Z) : list byte :=
  take 6 (drop (Z.to_nat (19 + 6 * i)) frame_in).

(** ** Reaching a record

    [decodes frame_in p i lines q j]: the decoding loop entered with cursor
    [p] and line number [i] logs [lines] and comes back to the top of the
    loop with cursor [q] and line number [j]. *)
Inductive decodes (frame_in : list byte) : Z -> Z -> list rec_line -> Z -> Z -> Prop :=
| decodes_here p i : decodes frame_in p i [] p i
| decodes_step p i line p' l1 lines q j :
    record_step frame_in p i = Done (RecLogged line p') ->
    rd frame_in 1 = Done l1 ->
    p' <= u8 l1 ->
    decodes frame_in p' (i + 1) lines q j ->
    decodes frame_in p i (line :: lines) q j.

(** ** Frames used as examples *)

(** [keyday_frame] as [mbus_io] sends it, checksum filled in. *)
Definition keyday_sent : list byte := <[12%nat := x6d]> keyday_frame.


(** The record [04 13 78 56 34 12]: data format 4, a number. *)
Definition volume_record : list byte := [x04; x13; x78; x56; x34; x12].


(** A reply of 111 bytes to the monthly request with every record zero:
    C = 0x08, A = 0, CI = 0x72, checksum 0x7a. *)
Definition zero_months_reply : list byte :=
  [x68; x69; x69; x68; x08; x00; x72] ++ repeat x00 102 ++ [x7a; x16].

(** A reply of 71 bytes to the info request: C = 0x08, A = 0, CI = 0x72,
    the 12 bytes of the header, the record [01 13 2A], then the DIF 0x0F,
    whose data format is 15; checksum 0xc7. *)
Definition unsupported_info_reply : list byte :=
  [x68; x41; x41; x68; x08; x00; x72] ++ repeat x00 12
  ++ [x01; x13; x2a; x0f] ++ repeat x00 46 ++ [xc7; x16].

(** [info_frame] as [mbus_io] sends it, checksum filled in. *)
Definition info_sent : list byte := [x10; x7b; xfe; x79; x16].

(** The long frame [C = 0x53, A = 254, CI = 0x51] around [n] zero bytes. *)
Definition zero_frame (n : nat) : list byte := long_frame x53 xfe x51 (repeat x00 n).

(** ** What the validator logs of the header

    [rsp_logged data h]: the header part of [h] is what
    [mbus_checklong] reads from [data] for the control info of [h]. *)
Definition rsp_logged (data : list byte) (h : long_header) : Prop :=
  if u8 (mbus_ci h) =? MBUS_CI_RSPUD12
  then exists r, read_rspud12 data = Done r /\ mbus_rsp h = Some r
  else mbus_rsp h = None.

(** ** [bitprint] and C strings *)

(** An [int] handed to an [unsigned long] parameter. *)
Definition ulong_of_int (z : Z) : Z := int32 z mod 2 ^ 64.

(** The body of the loop of [bitprint], with [n] iterations left.
    [1 << (len - i - 1)] is computed in [int] and then converted to
    [unsigned long] for the [&]: a shift by 32 or more is undefined, and
    a shift by 31, into the sign bit, has the result GCC documents for
    it. *)
Fixpoint bitprint_loop (n : nat) (data : list byte) (val len i : Z)
  : run (list byte) :=
  match n with
  | O => Done data
  | S n' =>
      let k := len - i - 1 in
      if 32 <=? k then Undefined
      else
        data' ← wr data i (if Z.land val (ulong_of_int (Z.shiftl 1 k)) =? 0
                           then x30 else x31);
        bitprint_loop n' data' val len (i + 1)
  end.

(** [bitprint]: the result is [data] after the call. *)
Definition bitprint (data : list byte) (val len : Z) : run (list byte) :=
  data' ← bitprint_loop (Z.to_nat len) data val len 0;
  wr data' len x00.

(** The string a ["%s"] prints: the bytes before the first 0. *)
Fixpoint c_string (data : list byte) : run (list byte) :=
  match data with
  | [] => Undefined
  | b :: rest =>
      if u8 b =? 0 then Done []
      else s ← c_string rest; Done (b :: s)
  end.

(** ** Device settings *)

Definition EM_ENA_RADIO_AVAIL : Z := Z.shiftl 1 0.
Definition EM_ENA_RADIO_ON : Z := Z.shiftl 1 1.
Definition EM_ENA_AES : Z := Z.shiftl 1 2.
Definition EM_ENA_STARTVOL : Z := Z.shiftl 1 3.
Definition EM_ENA_STARTDATE : Z := Z.shiftl 1 4.

(** What [em_dump_settings] logs. *)
Record settings_log : Type := {
  log_flags : byte;            (* "EM_FLAGS: 0x%02x" *)
  log_omsmode : byte;          (* "EM_OMSMODE: %d" *)
  log_frametype : byte;        (* "EM_FRAMETYPE: %d" *)
  log_interval : Z;            (* "EM_INTERVAL: %d s" *)
  log_months : list byte;      (* "EM_MONTHS: 0b%s (Dec .. Jan)" *)
  log_weekoms : list byte;     (* "EM_WEEKOMS: 0b%s (31 .. 1)" *)
  log_dayows : list byte;      (* "EM_DAYOWS: 0b%s (Sun .. Mon)" *)
  log_hours : list byte;       (* "EM_HOURS: 0b%s (23 .. 00)" *)
  log_onday : Z * Z * Z;       (* "EM_ONDAY: %04d-%02d-%02d (%s)" *)
  log_onday_active : bool;
  log_onvol : Z;               (* "EM_ONVOL: %d l (%s)" *)
  log_onvol_active : bool;
  log_opyears : byte           (* "EM_OPYEARS: %d" *)
}.

(** [em_dump_settings (frame + off)].  [buf] is the content of the local
    array [buf[32 + 1]] before the first [bitprint]. *)
Definition em_dump_settings (frame : list byte) (off : Z) (buf : list byte)
  : run settings_log :=
  d0 ← rd frame (off + 0);
  d1 ← rd frame (off + 1);
  d2 ← rd frame (off + 2);
  d4 ← rd frame (off + 4);
  d3 ← rd frame (off + 3);
  d6 ← rd frame (off + 6);
  d5 ← rd frame (off + 5);
  buf1 ← bitprint buf (ulong_of_int (Z.lor (Z.shiftl (u8 d6) 8) (u8 d5))) 12;
  months ← c_string buf1;
  d10 ← rd frame (off + 10);
  d9 ← rd frame (off + 9);
  d8 ← rd frame (off + 8);
  d7 ← rd frame (off + 7);
  buf2 ← bitprint buf1
           (ulong_of_int (Z.lor (Z.lor (Z.lor (Z.shiftl (u8 d10) 24)
                                              (Z.shiftl (u8 d9) 16))
                                       (Z.shiftl (u8 d8) 8))
                                (u8 d7))) 31;
  weekoms ← c_string buf2;
  d11 ← rd frame (off + 11);
  buf3 ← bitprint buf2 (ulong_of_int (u8 d11)) 7;
  dayows ← c_string buf3;
  d14 ← rd frame (off + 14);
  d13 ← rd frame (off + 13);
  d12 ← rd frame (off + 12);
  buf4 ← bitprint buf3
           (ulong_of_int (Z.lor (Z.lor (Z.shiftl (u8 d14) 16)
                                       (Z.shiftl (u8 d13) 8))
                                (u8 d12))) 24;
  hours ← c_string buf4;
  d16 ← rd frame (off + 16);
  d15 ← rd frame (off + 15);
  d18 ← rd frame (off + 18);
  d17 ← rd frame (off + 17);
  d19 ← rd frame (off + 19);
  Done {| log_flags := d0;
          log_omsmode := d1;
          log_frametype := d2;
          log_interval := Z.lor (Z.shiftl (u8 d4) 8) (u8 d3);
          log_months := months;
          log_weekoms := weekoms;
          log_dayows := dayows;
          log_hours := hours;
          log_onday :=
            (2000 + Z.shiftr (Z.land (u8 d16) 0xfe) 1,
             Z.shiftr (Z.land (Z.lor (Z.shiftl (u8 d16) 8) (u8 d15)) 0x1e0) 5,
             Z.land (u8 d15) 0x1f);
          log_onday_active := negb (Z.land (u8 d0) EM_ENA_STARTDATE =? 0);
          log_onvol := Z.lor (Z.shiftl (u8 d18) 8) (u8 d17);
          log_onvol_active := negb (Z.land (u8 d0) EM_ENA_STARTVOL =? 0);
          log_opyears := d19 |}.

(** The [EM_SET_...] macros, which the source asks its user to change. *)
Record em_config : Type := {
  EM_SET_FLAGS : Z;
  EM_SET_INTERVAL : Z;
  EM_SET_MONTHS : Z;
  EM_SET_WEEKOMS : Z;
  EM_SET_DAYOWS : Z;
  EM_SET_HOURS : Z;
  EM_SET_ONDAY_YEAR : Z;
  EM_SET_ONDAY_MONTH : Z;
  EM_SET_ONDAY_DAY : Z;
  EM_SET_ONVOL : Z;
  EM_SET_OPYEARS : Z;
  EM_SET_OMSMODE : Z;
  EM_SET_FRAMETYPE : Z
}.

(** The values the source comes with. *)
Definition source_config : em_config :=
  {| EM_SET_FLAGS := Z.lor (Z.lor EM_ENA_RADIO_AVAIL EM_ENA_RADIO_ON) EM_ENA_AES;
     EM_SET_INTERVAL := 7 * 60;
     EM_SET_MONTHS := 0xfff;
     EM_SET_WEEKOMS := 0x7fffffff;
     EM_SET_DAYOWS := 0x7f;
     EM_SET_HOURS := 0xffffff;
     EM_SET_ONDAY_YEAR := 2024;
     EM_SET_ONDAY_MONTH := 1;
     EM_SET_ONDAY_DAY := 1;
     EM_SET_ONVOL := 1000;
     EM_SET_OPYEARS := 10;
     EM_SET_OMSMODE := 3;
     EM_SET_FRAMETYPE := 18 |}.

(** The packed start date of [frame_out] in [em_set_params]. *)
Definition onday_word (cfg : em_config) : Z :=
  Z.lor (Z.lor (Z.shiftl (EM_SET_ONDAY_YEAR cfg - 2000) 9)
               (Z.shiftl (EM_SET_ONDAY_MONTH cfg) 5))
        (EM_SET_ONDAY_DAY cfg).

(** [frame_out] of [em_set_params]. *)
Definition params_frame (cfg : em_config) : list byte :=
  [ to_u8 MBUS_FRAME_LONG_START; to_u8 36; to_u8 36; to_u8 MBUS_FRAME_LONG_START;
    to_u8 MBUS_C_SND_UD; to_u8 254; to_u8 MBUS_CI_DATA_SEND;
    x0f; x81;
    x00; x00; x60;
    x00; x00; x00; x00;
    to_u8 (EM_SET_FLAGS cfg);
    to_u8 (EM_SET_OMSMODE cfg);
    to_u8 (EM_SET_FRAMETYPE cfg);
    to_u8 (Z.land (Z.shiftr (EM_SET_INTERVAL cfg) 0) 0xFF);
    to_u8 (Z.land (Z.shiftr (EM_SET_INTERVAL cfg) 8) 0xFF);
    to_u8 (Z.land (Z.shiftr (EM_SET_MONTHS cfg) 0) 0xFF);
    to_u8 (Z.land (Z.shiftr (EM_SET_MONTHS cfg) 8) 0xFF);
    to_u8 (Z.land (Z.shiftr (EM_SET_WEEKOMS cfg) 0) 0xFF);
    to_u8 (Z.land (Z.shiftr (EM_SET_WEEKOMS cfg) 8) 0xFF);
    to_u8 (Z.land (Z.shiftr (EM_SET_WEEKOMS cfg) 16) 0xFF);
    to_u8 (Z.land (Z.shiftr (EM_SET_WEEKOMS cfg) 24) 0xFF);
    to_u8 (EM_SET_DAYOWS cfg);
    to_u8 (Z.land (Z.shiftr (EM_SET_HOURS cfg) 0) 0xFF);
    to_u8 (Z.land (Z.shiftr (EM_SET_HOURS cfg) 8) 0xFF);
    to_u8 (Z.land (Z.shiftr (EM_SET_HOURS cfg) 16) 0xFF);
    to_u8 (Z.land (Z.shiftr (onday_word cfg) 0) 0xFF);
    to_u8 (Z.land (Z.shiftr (onday_word cfg) 8) 0xFF);
    to_u8 (Z.land (Z.shiftr (EM_SET_ONVOL cfg) 0) 0xFF);
    to_u8 (Z.land (Z.shiftr (EM_SET_ONVOL cfg) 8) 0xFF);
    to_u8 (EM_SET_OPYEARS cfg);
    x00; x00; x00; x00;
    x00;
    to_u8 MBUS_FRAME_STOP ].

(** [em_set_params].  [buf0] and [in0] are the contents of the local
    arrays of [em_dump_settings] and [mbus_io_acked] before they are
    written.  The result is the return value, the settings logged and the
    line. *)
Definition em_set_params (cfg : em_config) (t : port) (buf0 in0 : list byte)
  : run (Z * settings_log * port) :=
  dump ← em_dump_settings (params_frame cfg) (MBUS_FRAME_LONG_HDR_LEN + 9) buf0;
  '(ret, t') ← mbus_io_acked t (params_frame cfg)
                 (Z.of_nat (length (params_frame cfg))) in0;
  Done (ret, dump, t').

Definition get_params_frame : list byte :=
  [ to_u8 MBUS_FRAME_LONG_START; to_u8 8; to_u8 8; to_u8 MBUS_FRAME_LONG_START;
    to_u8 MBUS_C_SND_UD; to_u8 254; to_u8 MBUS_CI_DATA_SEND;
    x0f; x04;
    x00; x00; x60;
    x15;
    to_u8 MBUS_FRAME_STOP ].

(** [em_get_params].  [frame_in0] and [buf0] are the contents of
    [frame_in[64]] and of the [buf] of [em_dump_settings] before they are
    written. *)
Definition em_get_params (t : port) (frame_in0 buf0 : list byte)
  : run (Z * option settings_log * port) :=
  r ← mbus_io t get_params_frame (Z.of_nat (length get_params_frame)) frame_in0 64;
  if io_ret r <? 0 then Done (- io_ret r, None, io_port r)
  else
    v ← mbus_checklong (io_in r) (io_ret r);
    if long_ret v <? 45 then Done (EPROTO, None, io_port r)
    else
      dump ← em_dump_settings (io_in r)
               (MBUS_FRAME_LONG_HDR_LEN + MBUS_RSPUD12_HDR_LEN) buf0;
      Done (0, Some dump, io_port r).

(** ** High resolution reading *)

Definition highres_frame : list byte :=
  [ to_u8 MBUS_FRAME_LONG_START; to_u8 8; to_u8 8; to_u8 MBUS_FRAME_LONG_START;
    to_u8 MBUS_C_SND_UD; to_u8 254; to_u8 MBUS_CI_DATA_SEND;
    x0f; x01;
    x00; x00; x60;
    x12;
    to_u8 MBUS_FRAME_STOP ].

(** The number that ["%ld"] shows when it is given an [int].  The
    conversion reads a [long]; the [int] is passed in a 64-bit register
    whose low half holds it and whose high half the 32-bit operations that
    computed it have left zero, so what is shown is the [int] read as an
    unsigned 32-bit number. *)
Definition ld_of_int (z : Z) : Z := z mod 2 ^ 32.

(** [em_read_highres].  The result is the return value, the reading
    logged by ["EM_HIGHRES_READING: %ld ml"] and the line. *)
Definition em_read_highres (t : port) (frame_in0 : list byte)
  : run (Z * option Z * port) :=
  r ← mbus_io t highres_frame (Z.of_nat (length highres_frame)) frame_in0 64;
  if io_ret r <? 0 then Done (- io_ret r, None, io_port r)
  else
    v ← mbus_checklong (io_in r) (io_ret r);
    if long_ret v <? 25 then Done (EPROTO, None, io_port r)
    else
      let off := MBUS_FRAME_LONG_HDR_LEN + MBUS_RSPUD12_HDR_LEN in
      b3 ← rd (io_in r) (off + 3);
      b2 ← rd (io_in r) (off + 2);
      b1 ← rd (io_in r) (off + 1);
      b0 ← rd (io_in r) off;
      Done (0,
            Some (ld_of_int (int32 (Z.lor (Z.lor (Z.lor (Z.shiftl (u8 b3) 24)
                                                        (Z.shiftl (u8 b2) 16))
                                                 (Z.shiftl (u8 b1) 8))
                                          (u8 b0)))),
            io_port r).

(** ** Setting the time *)

(** The fields of [struct tm] that the source reads. *)
Record tm : Type := {
  tm_min : Z;
  tm_hour : Z;
  tm_mday : Z;
  tm_mon : Z;
  tm_year : Z;
  tm_isdst : Z
}.

(** The four bytes of the time in [frame_out] of [em_set_time]. *)
Definition time_bytes (timeinfo : tm) : list byte :=
  [ to_u8 (tm_min timeinfo);
    to_u8 (tm_hour timeinfo);
    to_u8 (Z.lor (Z.shiftl (Z.land (tm_year timeinfo + 1900 - 2000) 0x07) 5)
                 (tm_mday timeinfo));
    to_u8 (Z.lor (Z.shiftl (Z.land (tm_year timeinfo + 1900 - 2000) 0x78) 1)
                 (tm_mon timeinfo + 1)) ].

Definition time_frame (timeinfo : tm) : list byte :=
  [ to_u8 MBUS_FRAME_LONG_START; to_u8 10; to_u8 10; to_u8 MBUS_FRAME_LONG_START;
    to_u8 MBUS_C_SND_UD; to_u8 254; to_u8 MBUS_CI_DATA_SEND;
    x04; xed; x00 ]
  ++ time_bytes timeinfo
  ++ [ x00; to_u8 MBUS_FRAME_STOP ].

(** The time [em_set_time] sends: the local time, taken an hour earlier
    when it is daylight saving time.  [rawtime] is what [time] gives and
    [localtime] the conversion of the C library. *)
Definition device_time (localtime : Z -> tm) (rawtime : Z) : tm :=
  let timeinfo := localtime rawtime in
  if 0 <? tm_isdst timeinfo then localtime (rawtime - 60 * 60) else timeinfo.

(** [em_set_time] *)
Definition em_set_time (localtime : Z -> tm) (rawtime : Z) (t : port)
    (in0 : list byte) : run (Z * port) :=
  let timeinfo := device_time localtime rawtime in
  mbus_io_acked t (time_frame timeinfo)
                (Z.of_nat (length (time_frame timeinfo))) in0.

(** ** Wakeup *)

Definition MBUS_WAKEUP_CHAR : Z := 0x55.

(** The loop of [mbus_wakeup], with [n] writes left. *)
Fixpoint wakeup_loop (n : nat) (t : port) (frame_out : list byte) : run port :=
  match n with
  | O => Done t
  | S n' =>
      t1 ← serial_write t frame_out (Z.of_nat (length frame_out));
      wakeup_loop n' t1 frame_out
  end.

(** [mbus_wakeup] *)
Definition mbus_wakeup (t : port) : run port :=
  wakeup_loop 20 t (repeat (to_u8 MBUS_WAKEUP_CHAR) 25).

(** ** Digits of a number

    [digit len v i]: the character at position [i] of the [len] low bits
    of [v] written in base 2, the highest bit first; [binary len v]: the
    [len] characters. *)
Definition digit (len : nat) (v : Z) (i : nat) : byte :=
  if Z.testbit v (Z.of_nat (len - 1 - i)) then x31 else x30.

Definition binary (len : nat) (v : Z) : list byte :=
  digit len v <$> seq 0 len.

(** The number that the characters [digits] write in base 2. *)
Definition binary_value (digits : list byte) : Z :=
  fold_left (fun acc d => 2 * acc + (if u8 d =? 0x31 then 1 else 0)) digits 0.

(** ** The program *)

(** What [main] gets from the system besides the line: the results of
    [open] and of the two calls of [serial_interface_attribs], the clock,
    and the contents of the local arrays of the operations before they are
    written. *)
Record system : Type := {
  sys_open : Z;                 (* [open (argv[1], ...)] *)
  sys_attribs_8N1 : Z;          (* [serial_interface_attribs (fd, B2400, 0)] *)
  sys_attribs_8E1 : Z;          (* [serial_interface_attribs (fd, B2400, PARENB)] *)
  sys_time : Z;                 (* [time] *)
  sys_localtime : Z -> tm;      (* [localtime] *)
  sys_in : list byte;           (* [in[8]] of [mbus_io_acked] *)
  sys_frame_in64 : list byte;   (* [frame_in[64]] *)
  sys_frame_in256 : list byte;  (* [frame_in[256]] *)
  sys_buf : list byte           (* [buf[32 + 1]] of [em_dump_settings] *)
}.

(** [argv[2] && !strcmp (argv[2], name)]: [argv[argc]] is a null pointer. *)
Definition command (argv : list string) (name : string) : bool :=
  match argv !! 2%nat with
  | Some word => String.eqb word name
  | None => false
  end.

(** [main]: the result is the exit status and the line. *)
Definition main (cfg : em_config) (sys : system) (argv : list string) (t : port)
  : run (Z * port) :=
  let argc := Z.of_nat (length argv) in
  if negb (argc =? 2) && negb (argc =? 3) then Done (1, t)
  else if sys_open sys <? 0 then Done (1, t)
  else if sys_attribs_8N1 sys <? 0 then Done (1, t)
  else
    t1 ← mbus_wakeup t;
    if sys_attribs_8E1 sys <? 0 then Done (1, t1)
    else if command argv "set_time" then
      em_set_time (sys_localtime sys) (sys_time sys) t1 (sys_in sys)
    else if command argv "set_aes" then
      em_set_aes t1
    else if command argv "set_keyday" then
      em_set_keyday t1 (sys_in sys)
    else if command argv "set_params" then
      '(ret, _, t2) ← em_set_params cfg t1 (sys_buf sys) (sys_in sys);
      Done (ret, t2)
    else if command argv "read_months" then
      '(ret, _, t2) ← em_read_months t1 (sys_frame_in256 sys);
      Done (ret, t2)
    else if command argv "read_info" then
      '(ret, _, t2) ← em_read_info t1 (sys_frame_in256 sys);
      Done (ret, t2)
    else if command argv "read_highres" then
      '(ret, _, t2) ← em_read_highres t1 (sys_frame_in64 sys);
      Done (ret, t2)
    else
      '(ret, _, t2) ← em_get_params t1 (sys_frame_in64 sys) (sys_buf sys);
      Done (ret, t2).

(** ** The settings a block of 20 bytes stands for

    The bytes of the block read as numbers: the words with their low byte
    first, the date packed as year, month and day in 7, 4 and 5 bits. *)
Definition settings_of (blk : list byte) : settings_log :=
  let b k := nth k blk x00 in
  let d k := u8 (b k) in
  {| log_flags := b 0%nat;
     log_omsmode := b 1%nat;
     log_frametype := b 2%nat;
     log_interval := d 3%nat + 256 * d 4%nat;
     log_months := binary 12 (d 5%nat + 256 * d 6%nat);
     log_weekoms := binary 31 (d 7%nat + 256 * d 8%nat + 65536 * d 9%nat
                               + 16777216 * d 10%nat);
     log_dayows := binary 7 (d 11%nat);
     log_hours := binary 24 (d 12%nat + 256 * d 13%nat + 65536 * d 14%nat);
     log_onday := (2000 + d 16%nat / 2,
                   (d 15%nat + 256 * d 16%nat) / 32 mod 16,
                   d 15%nat mod 32);
     log_onday_active := Z.testbit (d 0%nat) 4;
     log_onvol := d 17%nat + 256 * d 18%nat;
     log_onvol_active := Z.testbit (d 0%nat) 3;
     log_opyears := b 19%nat |}.

(** ** The value a record's raw bytes stand for

    The value that the decoding loop of [em_read_info] shows for a record
    that it logs, with data format [df] and VIF [vif], as a function of the
    raw bytes of the record: a number from four bytes with the low byte
    first, or a date from two bytes. *)
Definition value_of_raw (df : Z) (vif : byte) (raw : list byte) : rec_value :=
  let b k := u8 (nth k raw x00) in
  if df =? 4 then
    ValInt (b 0%nat + 256 * b 1%nat + 65536 * b 2%nat + 16777216 * b 3%nat)
  else if (df =? 2) && (u8 vif =? 0x6c) then
    ValDate (2000 + b 0%nat / 32 + b 1%nat / 16 * 8) (b 1%nat mod 16)
            (b 0%nat mod 32)
  else ValNone.

(** [months_frame] as [mbus_io] sends it in the first pass of
    [em_read_months], and in the second, where the VIF is 3. *)
Definition months_sent_end : list byte := <[12%nat := x13]> months_frame.
Definition months_sent_mid : list byte :=
  <[12%nat := x14]> (<[8%nat := x03]> months_frame).

(** A reply of 25 bytes to the high resolution request: C = 0x08, A = 0,
    CI = 0x72, the 12 bytes of the header, the reading [78 56 34 80];
    checksum 0xfc. *)
Definition highres_reply : list byte :=
  [x68; x13; x13; x68; x08; x00; x72] ++ repeat x00 12
  ++ [x78; x56; x34; x80] ++ [xfc; x16].

(** A reply of 45 bytes to the parameter request that carries the block of
    [source_config]: C = 0x08, A = 0, CI = 0x72, the 12 bytes of the
    header, the 20 bytes of the block, 4 more bytes; checksum 0x87. *)
Definition params_reply : list byte :=
  [x68; x27; x27; x68; x08; x00; x72] ++ repeat x00 12
  ++ [x07; x03; x12; xa4; x01; xff; x0f; xff; xff; xff;
      x7f; x7f; xff; xff; xff; x21; x30; xe8; x03; x0a]
  ++ repeat x00 4 ++ [x87; x16].

(** * Properties *)

(** ** Bytes and bit fields *)

Lemma u8_range b : 0 <= u8 b < 256.
Proof.
  unfold u8. pose proof (Byte.to_N_bounded b). lia.
Qed.

Lemma u8_to_u8 z : u8 (to_u8 z) = z mod 256.
Proof.
  unfold u8, to_u8.
  pose proof (Z.mod_pos_bound z 256 ltac:(lia)) as Hr.
  destruct (Byte.of_N (Z.to_N (z mod 256))) as [b|] eqn:E.
  - apply Byte.to_of_N in E. rewrite E. lia.
  - apply Byte.of_N_None_iff in E. lia.
Qed.

Lemma to_u8_u8 b : to_u8 (u8 b) = b.
Proof.
  unfold to_u8, u8.
  pose proof (Byte.to_N_bounded b).
  rewrite Z.mod_small by lia.
  rewrite N2Z.id, Byte.of_to_N. reflexivity.
Qed.

Lemma u8_inj a b : u8 a = u8 b -> a = b.
Proof.
  intros H. rewrite <- (to_u8_u8 a), <- (to_u8_u8 b). now rewrite H.
Qed.

Lemma to_u8_mod z : to_u8 (z mod 256) = to_u8 z.
Proof.
  apply u8_inj. rewrite !u8_to_u8. apply Z.mod_mod. lia.
Qed.

Lemma byte_eqb_u8 (b : byte) (z : Z) :
  negb (u8 b =? z) = false -> b = to_u8 z.
Proof.
  intros H. apply negb_false_iff, Z.eqb_eq in H.
  rewrite <- H. symmetry. apply to_u8_u8.
Qed.

Lemma land_bound x m : 0 <= x -> 0 <= m -> 0 <= Z.land x m <= m.
Proof.
  intros Hx Hm. split; [apply Z.land_nonneg; auto|].
  rewrite <- (Z2N.id x), <- (Z2N.id m) by assumption.
  rewrite <- N2Z.inj_land. apply N2Z.inj_le, N.land_le_r.
Qed.

Lemma field_bound x m k :
  0 <= x -> 0 <= m -> 0 <= k -> 0 <= Z.shiftr (Z.land x m) k <= m / 2 ^ k.
Proof.
  intros Hx Hm Hk. rewrite Z.shiftr_div_pow2 by assumption.
  pose proof (land_bound x m Hx Hm).
  assert (0 < 2 ^ k) by (apply Z.pow_pos_nonneg; lia).
  split; [apply Z.div_pos; lia | apply Z.div_le_mono; lia].
Qed.

Lemma lor_bound a b n :
  0 <= a < 2 ^ n -> 0 <= b < 2 ^ n -> 0 <= Z.lor a b < 2 ^ n.
Proof.
  intros Ha Hb. split; [apply Z.lor_nonneg; lia|].
  destruct (Z.eq_dec (Z.lor a b) 0) as [->|Hnz]; [lia|].
  assert (Hpos : 0 < Z.lor a b).
  { pose proof (proj2 (Z.lor_nonneg a b) ltac:(lia)). lia. }
  assert (Hn : 0 < n).
  { destruct (Z.lt_ge_cases 0 n) as [|Hn0]; [assumption|]. exfalso.
    assert (2 ^ n <= 1).
    { destruct (Z.eq_dec n 0) as [->|]; [simpl; lia|].
      rewrite Z.pow_neg_r by lia. lia. }
    assert (a = 0) by lia. assert (b = 0) by lia. subst. exact (Hnz eq_refl). }
  apply Z.log2_lt_pow2; [assumption|].
  rewrite Z.log2_lor by lia.
  apply Z.max_lub_lt.
  - destruct (Z.eq_dec a 0) as [->|]; [simpl; lia|].
    apply Z.log2_lt_pow2; lia.
  - destruct (Z.eq_dec b 0) as [->|]; [simpl; lia|].
    apply Z.log2_lt_pow2; lia.
Qed.

Lemma shiftl_u8_bound (b : byte) k n :
  0 <= k -> k + 8 <= n -> 0 <= Z.shiftl (u8 b) k < 2 ^ n.
Proof.
  intros Hk Hn. pose proof (u8_range b).
  rewrite Z.shiftl_mul_pow2 by assumption.
  assert (0 < 2 ^ k) by (apply Z.pow_pos_nonneg; lia).
  split; [nia|].
  apply Z.lt_le_trans with (256 * 2 ^ k); [nia|].
  change 256 with (2 ^ 8). rewrite <- Z.pow_add_r by lia.
  apply Z.pow_le_mono_r; lia.
Qed.

Lemma int32_range z : - 2 ^ 31 <= int32 z < 2 ^ 31.
Proof.
  unfold int32. pose proof (Z.mod_pos_bound (z + 2 ^ 31) (2 ^ 32) ltac:(lia)). lia.
Qed.

Lemma int32_small z : 0 <= z < 2 ^ 31 -> int32 z = z.
Proof.
  intros H. unfold int32. rewrite Z.mod_small by lia. lia.
Qed.

Lemma ext_bit (b : byte) :
  Z.shiftr (Z.land (u8 b) 0x80) 7 = 0 \/ Z.shiftr (Z.land (u8 b) 0x80) 7 = 1.
Proof.
  pose proof (u8_range b).
  pose proof (field_bound (u8 b) 0x80 7 ltac:(lia) ltac:(lia) ltac:(lia)) as Hf.
  change (0x80 / 2 ^ 7) with 1 in Hf. lia.
Qed.

(** ** Runs and array access *)

Lemma bind_Done {A B} (m : run A) (f : A -> run B) (b : B) :
  m ≫= f = Done b <-> exists a, m = Done a /\ f a = Done b.
Proof.
  destruct m as [a| |]; simpl; split.
  - intros H. exists a. auto.
  - intros [a' [[= <-] H]]. exact H.
  - discriminate.
  - intros [a' [[=] _]].
  - discriminate.
  - intros [a' [[=] _]].
Qed.

Lemma bind_Done_l {A B} (m : run A) (f : A -> run B) (a : A) :
  m = Done a -> m ≫= f = f a.
Proof. intros ->. reflexivity. Qed.

(** Takes a run apart: binds into their steps, tests into their cases. *)
Ltac run_inv H :=
  repeat first
    [ match type of H with
      | _ ≫= _ = Done _ =>
          let a := fresh "a" in
          let E := fresh "E" in
          apply bind_Done in H; destruct H as [a [E H]]
      end
    | match type of H with
      | (if ?c then _ else _) = Done _ =>
          let C := fresh "C" in
          destruct c eqn:C; try discriminate H
      end ].

Lemma rd_Done data i b :
  rd data i = Done b <-> 0 <= i /\ data !! Z.to_nat i = Some b.
Proof.
  unfold rd. destruct (Z.ltb_spec i 0).
  - split; [discriminate | lia].
  - destruct (data !! Z.to_nat i) eqn:E; split.
    + intros [= ->]. auto.
    + intros [_ [= ->]]. reflexivity.
    + discriminate.
    + intros [_ [=]].
Qed.

Lemma rd_in_range data i :
  0 <= i < Z.of_nat (length data) ->
  rd data i = Done (nth (Z.to_nat i) data x00).
Proof.
  intros H. apply rd_Done. split; [lia|].
  destruct (lookup_lt_is_Some_2 data (Z.to_nat i)) as [b Hb]; [lia|].
  rewrite Hb. f_equal. symmetry. now apply nth_lookup_Some.
Qed.

Lemma rd_Done_lt data i b :
  rd data i = Done b -> 0 <= i < Z.of_nat (length data).
Proof.
  intros H. apply rd_Done in H. destruct H as [H0 H].
  apply lookup_lt_Some in H. lia.
Qed.

Lemma rd_out_of_range data i :
  Z.of_nat (length data) <= i -> rd data i = Undefined.
Proof.
  intros H. unfold rd. destruct (Z.ltb_spec i 0); [reflexivity|].
  rewrite lookup_ge_None_2 by lia. reflexivity.
Qed.

Lemma rd_head b data : rd (b :: data) 0 = Done b.
Proof. reflexivity. Qed.

Lemma rd_app_l pre suf j :
  0 <= j < Z.of_nat (length pre) -> rd (pre ++ suf) j = rd pre j.
Proof.
  intros H. unfold rd. destruct (j <? 0); [reflexivity|].
  rewrite lookup_app_l by lia. reflexivity.
Qed.

Lemma rd_app_r pre suf j :
  Z.of_nat (length pre) <= j ->
  rd (pre ++ suf) j = rd suf (j - Z.of_nat (length pre)).
Proof.
  intros H. unfold rd.
  destruct (Z.ltb_spec j 0); [lia|].
  destruct (Z.ltb_spec (j - Z.of_nat (length pre)) 0); [lia|].
  rewrite lookup_app_r by lia.
  replace (Z.to_nat j - length pre)%nat
    with (Z.to_nat (j - Z.of_nat (length pre))) by lia.
  reflexivity.
Qed.

(** A read returns or leaves the array; it does not loop. *)
Lemma rd_not_Diverges data i : rd data i <> Diverges.
Proof.
  unfold rd. destruct (i <? 0); [discriminate|].
  destruct (data !! Z.to_nat i); discriminate.
Qed.

(** Reduces a goal about a run that only reads to the case where each
    read returns. *)
Ltac step_rd :=
  match goal with
  | |- context [rd ?f ?i ≫= _] =>
      let H := fresh in
      pose proof (rd_not_Diverges f i) as H;
      destruct (rd f i); cbn [mbind run_bind]; [clear H | discriminate | congruence]
  end.

Lemma wr_Done data i b data' :
  wr data i b = Done data' <->
  0 <= i < Z.of_nat (length data) /\ data' = <[Z.to_nat i := b]> data.
Proof.
  unfold wr.
  destruct (Z.leb_spec 0 i); destruct (Z.ltb_spec i (Z.of_nat (length data)));
    simpl; split; try discriminate; try lia.
  - intros [= <-]. split; [lia | reflexivity].
  - intros [_ ->]. reflexivity.
Qed.

Lemma wr_length data i b data' :
  wr data i b = Done data' -> length data' = length data.
Proof.
  intros H. apply wr_Done in H. destruct H as [_ ->]. apply length_insert.
Qed.

(** ** The checksum is the sum of the region it covers *)

Lemma sum_at_cons frame i offs :
  sum_at frame (i :: offs) = u8 (nth (Z.to_nat i) frame x00) + sum_at frame offs.
Proof. reflexivity. Qed.

Lemma cslong_loop_sum n : forall frame i cs,
  0 <= i ->
  i + Z.of_nat n <= Z.of_nat (length frame) ->
  cslong_loop n frame i cs
  = Done (to_u8 (u8 cs + sum_at frame (seqZ i (Z.of_nat n)))).
Proof.
  induction n as [|n IH]; intros frame i cs Hi Hlen.
  - cbn [cslong_loop]. rewrite seqZ_nil by lia.
    unfold sum_at. cbn [foldr].
    rewrite Z.add_0_r, to_u8_u8. reflexivity.
  - cbn [cslong_loop].
    rewrite (bind_Done_l _ _ _ (rd_in_range frame i ltac:(lia))).
    rewrite IH by lia.
    rewrite (seqZ_cons i (Z.of_nat (S n))) by lia.
    rewrite sum_at_cons.
    replace (Z.pred (Z.of_nat (S n))) with (Z.of_nat n) by lia.
    f_equal. apply u8_inj. rewrite !u8_to_u8.
    rewrite Zplus_mod_idemp_l. f_equal. unfold Z.succ. lia.
Qed.

(** A checksum over [len] bytes does not look beyond them. *)
Lemma cslong_loop_ext n : forall f g i cs,
  (forall j, i <= j < i + Z.of_nat n -> rd f j = rd g j) ->
  cslong_loop n f i cs = cslong_loop n g i cs.
Proof.
  induction n as [|n IH]; intros f g i cs Hfg; [reflexivity|].
  cbn [cslong_loop]. rewrite (Hfg i) by lia.
  destruct (rd g i); simpl; try reflexivity.
  apply IH. intros j Hj. apply Hfg. lia.
Qed.

Lemma cslong_loop_not_Diverges n : forall frame i cs,
  cslong_loop n frame i cs <> Diverges.
Proof.
  induction n as [|n IH]; intros frame i cs; cbn [cslong_loop]; [discriminate|].
  pose proof (rd_not_Diverges frame i).
  destruct (rd frame i); cbn [mbind run_bind];
    [apply IH | discriminate | congruence].
Qed.

Lemma mbus_cslong_small frame len :
  2 <= len -> len - 2 <= UINT_MAX ->
  mbus_cslong frame len = cslong_loop (Z.to_nat (len - 6)) frame 4 x00.
Proof.
  intros H2 Hmax. unfold mbus_cslong.
  assert (Hs : UINT_MAX < SIZE_MAX + 1) by (vm_compute; reflexivity).
  rewrite Z.mod_small by lia.
  destruct (Z.leb_spec (len - 2) UINT_MAX); [|lia].
  f_equal. lia.
Qed.

(** C2. For every buffer holding at least [len >= 6] bytes, with [len]
    in the range of the [unsigned int] loop counter, [mbus_cslong] returns
    the arithmetic sum modulo 256 of exactly the bytes at offsets [4] to
    [len - 3]: the start markers, both length bytes, the checksum and the
    stop byte do not enter it. *)
Theorem mbus_cslong_sum (frame : list byte) (len : Z) :
  6 <= len ->
  len <= Z.of_nat (length frame) ->
  len - 2 <= UINT_MAX ->
  exists cs : byte,
    mbus_cslong frame len = Done cs /\
    u8 cs = sum_at frame (seqZ 4 (len - 6)) mod 256.
Proof.
  intros H6 Hlen Hmax.
  exists (to_u8 (sum_at frame (seqZ 4 (len - 6)))).
  split; [|apply u8_to_u8].
  rewrite mbus_cslong_small by lia.
  rewrite cslong_loop_sum by lia.
  rewrite Z2Nat.id by lia. reflexivity.
Qed.

Lemma mbus_cslong_sum_witness :
  exists cs : byte,
    mbus_cslong keyday_frame 14 = Done cs /\
    u8 cs = sum_at keyday_frame (seqZ 4 (14 - 6)) mod 256.
Proof.
  apply mbus_cslong_sum.
  - lia.
  - simpl. lia.
  - vm_compute. discriminate.
Defined.

(** ** [mbus_cslong] against its loop run step by step *)

Lemma cslong_steps_small frame bound :
  bound <= UINT_MAX ->
  forall n i cs, 0 <= i -> n = Z.to_nat (bound - i) ->
    cslong_steps (S n) frame bound i cs = Some (cslong_loop n frame i cs).
Proof.
  intros Hb. induction n as [|n IH]; intros i cs Hi Hn; cbn [cslong_steps cslong_loop].
  - destruct (Z.ltb_spec i bound); [lia | reflexivity].
  - destruct (Z.ltb_spec i bound); [|lia].
    pose proof (rd_not_Diverges frame i).
    destruct (rd frame i) as [b| |]; cbn [mbind run_bind]; [|reflexivity|congruence].
    rewrite Z.mod_small by (unfold UINT_MAX in *; lia).
    apply IH; lia.
Qed.

Lemma cslong_steps_overrun frame bound :
  UINT_MAX < bound ->
  Z.of_nat (length frame) <= UINT_MAX ->
  forall k i cs, 0 <= i <= UINT_MAX ->
    k = Z.to_nat (Z.of_nat (length frame) - i) ->
    cslong_steps (S k) frame bound i cs = Some Undefined.
Proof.
  intros Hb Hlen. induction k as [|k IH]; intros i cs Hi Hk; cbn [cslong_steps].
  - destruct (Z.ltb_spec i bound); [|lia].
    rewrite rd_out_of_range by lia. reflexivity.
  - destruct (Z.ltb_spec i bound); [|lia].
    rewrite rd_in_range by lia.
    rewrite Z.mod_small by (unfold UINT_MAX in *; lia).
    apply IH; lia.
Qed.

Lemma cslong_steps_for_ever frame bound :
  UINT_MAX < bound ->
  UINT_MAX < Z.of_nat (length frame) ->
  forall fuel i cs, 0 <= i <= UINT_MAX ->
    cslong_steps fuel frame bound i cs = None.
Proof.
  intros Hb Hlen. induction fuel as [|fuel IH]; intros i cs Hi; [reflexivity|].
  cbn [cslong_steps].
  destruct (Z.ltb_spec i bound); [|lia].
  rewrite rd_in_range by lia.
  apply IH.
  pose proof (Z.mod_pos_bound (i + 1) (UINT_MAX + 1) ltac:(unfold UINT_MAX; lia)).
  lia.
Qed.

(** [mbus_cslong] is what the loop run step by step comes to: its result
    after enough iterations, and [Diverges] when no number of iterations
    leaves the loop. *)
Theorem mbus_cslong_steps (frame : list byte) (len : Z) :
  let bound := (len - 2) mod (SIZE_MAX + 1) in
  match mbus_cslong frame len with
  | Diverges => forall fuel, cslong_steps fuel frame bound 4 x00 = None
  | r => exists fuel, cslong_steps fuel frame bound 4 x00 = Some r
  end.
Proof.
  intros bound. unfold mbus_cslong. fold bound.
  assert (H4 : 0 <= 4 <= UINT_MAX) by (unfold UINT_MAX; lia).
  destruct (Z.leb_spec bound UINT_MAX) as [Hb|Hb].
  - pose proof (cslong_steps_small frame bound Hb (Z.to_nat (bound - 4)) 4 x00
                  ltac:(lia) eq_refl) as Hs.
    pose proof (cslong_loop_not_Diverges (Z.to_nat (bound - 4)) frame 4 x00) as Hnd.
    destruct (cslong_loop (Z.to_nat (bound - 4)) frame 4 x00);
      [eauto | eauto | congruence].
  - destruct (Z.leb_spec (Z.of_nat (length frame)) UINT_MAX) as [Hl|Hl].
    + eexists. apply (cslong_steps_overrun frame bound Hb Hl _ 4 x00 H4 eq_refl).
    + intros fuel. apply cslong_steps_for_ever; assumption.
Qed.

(** ** What an accepted long frame looks like *)

Lemma ll_of_length (L : byte) :
  u8 (to_u8 (u8 L + 4 + MBUS_FRAME_FTR_LEN)) = (u8 L + 6) mod 256.
Proof.
  rewrite u8_to_u8. f_equal. unfold MBUS_FRAME_FTR_LEN. lia.
Qed.

Lemma mbus_checklong_accepted data len ll h :
  mbus_checklong data len = Done (LongAccepted ll h) ->
  exists L cs : byte,
    9 <= len /\
    rd data 0 = Done x68 /\ rd data 3 = Done x68 /\
    rd data 1 = Done L /\ rd data 2 = Done L /\
    ll = (u8 L + 6) mod 256 /\ ll <= len /\
    rd data (ll - 1) = Done x16 /\
    mbus_cslong data ll = Done cs /\ rd data (ll - 2) = Done cs /\
    rd data 4 = Done (mbus_c h) /\
    rd data 5 = Done (mbus_adr h) /\
    rd data 6 = Done (mbus_ci h).
Proof.
  unfold mbus_checklong. intros H.
  destruct (Z.ltb_spec len (MBUS_FRAME_LONG_HDR_LEN + MBUS_FRAME_FTR_LEN))
    as [|Hlen]; [discriminate|].
  apply bind_Done in H. destruct H as [d0 [E0 H]].
  apply bind_Done in H. destruct H as [bad [Ebad H]].
  destruct bad; [discriminate|].
  destruct (negb (u8 d0 =? MBUS_FRAME_LONG_START)) eqn:C0; [discriminate|].
  apply bind_Done in Ebad. destruct Ebad as [d3 [E3 Ebad]].
  injection Ebad as C3.
  apply bind_Done in H. destruct H as [d1 [E1 H]].
  apply bind_Done in H. destruct H as [d2 [E2 H]].
  destruct (negb (u8 d1 =? u8 d2)) eqn:C12; [discriminate|].
  rewrite ll_of_length in H.
  destruct (Z.gtb_spec ((u8 d1 + 6) mod 256) len) as [|Hll]; [discriminate|].
  apply bind_Done in H. destruct H as [stop [Es H]].
  destruct (negb (u8 stop =? MBUS_FRAME_STOP)) eqn:Cs; [discriminate|].
  apply bind_Done in H. destruct H as [cs [Ecs H]].
  apply bind_Done in H. destruct H as [chk [Echk H]].
  destruct (negb (u8 cs =? u8 chk)) eqn:Cc; [discriminate|].
  apply bind_Done in H. destruct H as [c [Ec H]].
  apply bind_Done in H. destruct H as [a [Ea H]].
  apply bind_Done in H. destruct H as [ci [Eci H]].
  apply bind_Done in H. destruct H as [rsp [Ersp H]].
  injection H as <- <-. simpl.
  apply byte_eqb_u8 in C0, C3, Cs. subst d0 d3 stop.
  apply negb_false_iff, Z.eqb_eq, u8_inj in C12, Cc. subst d2 chk.
  exists d1, cs.
  unfold MBUS_FRAME_LONG_HDR_LEN, MBUS_FRAME_FTR_LEN in *.
  repeat split; try assumption; lia.
Qed.

(** C10. Whenever [mbus_checklong] succeeds, that is returns a nonzero
    consumed length [ll], that length is at most the [len] it was given. *)
Theorem mbus_checklong_within_len (data : list byte) (len : Z) (v : long_check) :
  mbus_checklong data len = Done v ->
  long_ret v <> 0 ->
  long_ret v <= len.
Proof.
  intros H Hnz. destruct v as [e|ll h]; simpl in *; [congruence|].
  apply mbus_checklong_accepted in H.
  destruct H as (L & cs & _ & _ & _ & _ & _ & _ & Hle & _). exact Hle.
Qed.

Lemma mbus_checklong_within_len_witness :
  let v := LongAccepted 14
             {| mbus_c := x53; mbus_adr := xfe; mbus_ci := x51; mbus_rsp := None |} in
  mbus_checklong keyday_sent 14 = Done v /\
  long_ret v <> 0 /\
  long_ret v <= 14.
Proof.
  intros v.
  assert (H : mbus_checklong keyday_sent 14 = Done v)
    by (vm_compute; reflexivity).
  assert (Hnz : long_ret v <> 0) by (simpl; lia).
  split; [exact H|]. split; [exact Hnz|].
  exact (mbus_checklong_within_len _ 14 v H Hnz).
Defined.

(** C5, as the code has it. [mbus_checklong] leaves through its too-small
    branch exactly when [len] is below
    [MBUS_FRAME_LONG_HDR_LEN + MBUS_FRAME_FTR_LEN = 9]; from 9 bytes on the
    branch is not taken and the start, length, stop and checksum tests
    decide. *)
Theorem mbus_checklong_too_small (data : list byte) (len : Z) :
  mbus_checklong data len = Done (LongRejected LongTooSmall) <-> len < 9.
Proof.
  unfold mbus_checklong.
  destruct (Z.ltb_spec len (MBUS_FRAME_LONG_HDR_LEN + MBUS_FRAME_FTR_LEN))
    as [Hlt|Hge]; unfold MBUS_FRAME_LONG_HDR_LEN, MBUS_FRAME_FTR_LEN in *.
  - split; [lia | reflexivity].
  - split; [|lia]. intros H. exfalso.
    run_inv H; discriminate H.
Qed.

(** C5, as stated, fails: a buffer of 8 bytes, which is not less than 8,
    leaves through the too-small branch. *)
Lemma mbus_checklong_eight_bytes :
  mbus_checklong [x68; x02; x02; x68; x53; xfe; x51; x16] 8
  = Done (LongRejected LongTooSmall) /\
  ~ 8 < 8.
Proof.
  split; [vm_compute; reflexivity | lia].
Qed.

(** ** What [mbus_io] sends *)

Lemma serial_write_Done t data len :
  0 <= len <= Z.of_nat (length data) ->
  serial_write t data len
  = Done {| written := written t ++ [take (Z.to_nat len) data];
            incoming := incoming t |}.
Proof.
  intros H. unfold serial_write.
  destruct (Z.leb_spec 0 len); [|lia].
  destruct (Z.leb_spec len (Z.of_nat (length data))); [|lia].
  reflexivity.
Qed.

(** What [serial_read] stores and returns, given room for [maxbytes]. *)
Lemma serial_read_Done t data maxbytes :
  0 <= maxbytes <= Z.of_nat (length data) ->
  exists n data' t',
    serial_read t data maxbytes = Done (n, data', t') /\
    written t' = written t /\
    length data' = length data /\
    let got := take (Z.to_nat maxbytes) (hd [] (incoming t)) in
    match got with
    | [] => n = - EIO /\ data' = data
    | _ => n = Z.of_nat (length got) /\ data' = got ++ drop (length got) data
    end.
Proof.
  intros Hmax. unfold serial_read.
  destruct (incoming t) as [|burst later] eqn:Ein; simpl.
  - exists (- EIO), data, t. rewrite take_nil. auto.
  - destruct (take (Z.to_nat maxbytes) burst) as [|b got] eqn:Eg.
    + eexists _, _, _. split; [reflexivity|]. simpl. auto.
    + assert (Hl : (length (b :: got) <= Z.to_nat maxbytes)%nat).
      { rewrite <- Eg, length_take. lia. }
      destruct (Z.leb_spec (Z.of_nat (length (b :: got))) (Z.of_nat (length data)));
        [|lia].
      eexists _, _, _. split; [reflexivity|]. simpl.
      split; [reflexivity|]. split; [|auto].
      rewrite length_app, length_drop. simpl in *. lia.
Qed.

Lemma mbus_io_prepare_length out outlen ok out' :
  mbus_io_prepare out outlen = Done (ok, out') ->
  length out' = length out.
Proof.
  unfold mbus_io_prepare. intros H.
  apply bind_Done in H. destruct H as [is_short [_ H]].
  destruct is_short.
  - apply bind_Done in H. destruct H as [o1 [_ H]].
    apply bind_Done in H. destruct H as [o2 [_ H]].
    apply bind_Done in H. destruct H as [o [Hwr H]].
    apply bind_Done in H. destruct H as [v [_ H]].
    destruct (short_ret v =? 0); injection H as _ <-; eapply wr_length, Hwr.
  - apply bind_Done in H. destruct H as [is_long [_ H]].
    destruct is_long; [|injection H as _ <-; reflexivity].
    apply bind_Done in H. destruct H as [cs [_ H]].
    apply bind_Done in H. destruct H as [o [Hwr H]].
    apply bind_Done in H. destruct H as [v [_ H]].
    destruct (long_ret v =? 0); injection H as _ <-; eapply wr_length, Hwr.
Qed.

(** A frame that leaves [mbus_io_prepare] has one of the two shapes and
    was accepted by the validator of that shape. *)
Lemma mbus_io_prepare_checked out outlen out' :
  mbus_io_prepare out outlen = Done (true, out') ->
  (outlen = 5 /\ rd out 0 = Done x10 /\
   exists c a, mbus_checkshort out' outlen = Done (ShortAccepted c a)) \/
  (9 <= outlen /\ rd out 0 = Done x68 /\
   exists ll h, mbus_checklong out' outlen = Done (LongAccepted ll h) /\ ll <> 0).
Proof.
  unfold mbus_io_prepare. intros H.
  apply bind_Done in H. destruct H as [is_short [Hs H]].
  destruct is_short.
  - left.
    destruct (Z.eqb_spec outlen (MBUS_FRAME_SHORT_HDR_LEN + MBUS_FRAME_FTR_LEN))
      as [Hlen|]; [|discriminate].
    apply bind_Done in Hs. destruct Hs as [o0 [Ho0 Hs]].
    injection Hs as Hs. apply Z.eqb_eq in Hs.
    apply bind_Done in H. destruct H as [o1 [_ H]].
    apply bind_Done in H. destruct H as [o2 [_ H]].
    apply bind_Done in H. destruct H as [o [_ H]].
    apply bind_Done in H. destruct H as [v [Hv H]].
    destruct v as [e|c a]; [discriminate|].
    injection H as <-.
    split; [exact Hlen|]. split; [|eauto].
    rewrite Ho0. f_equal. apply u8_inj. exact Hs.
  - right.
    apply bind_Done in H. destruct H as [is_long [Hl H]].
    destruct is_long; [|discriminate].
    destruct (Z.leb_spec (MBUS_FRAME_LONG_HDR_LEN + MBUS_FRAME_FTR_LEN) outlen)
      as [Hlen|]; [|discriminate].
    apply bind_Done in Hl. destruct Hl as [o0 [Ho0 Hl]].
    injection Hl as Hl. apply Z.eqb_eq in Hl.
    apply bind_Done in H. destruct H as [cs [_ H]].
    apply bind_Done in H. destruct H as [o [_ H]].
    apply bind_Done in H. destruct H as [v [Hv H]].
    destruct (Z.eqb_spec (long_ret v) 0) as [|Hnz]; [discriminate|].
    injection H as <-.
    destruct v as [e|ll h]; [simpl in Hnz; lia|].
    split; [exact Hlen|]. split; [|eauto].
    rewrite Ho0. f_equal. apply u8_inj. exact Hl.
Qed.

(** On a run that returns, [mbus_io] has either refused the frame, with
    [-EPROTO] and the line untouched, or written the checked frame and
    nothing else. *)
Lemma mbus_io_sends_checked t out outlen in_ inlen r :
  mbus_io t out outlen in_ inlen = Done r ->
  (exists out', mbus_io_prepare out outlen = Done (false, out') /\
     r = {| io_ret := - EPROTO; io_out := out'; io_in := in_; io_port := t |}) \/
  (exists out', mbus_io_prepare out outlen = Done (true, out') /\
     written (io_port r) = written t ++ [take (Z.to_nat outlen) out']).
Proof.
  unfold mbus_io. intros H.
  apply bind_Done in H. destruct H as [[[|] out'] [Hp H]].
  - right. exists out'. split; [exact Hp|].
    apply bind_Done in H. destruct H as [t1 [Hw H]].
    apply bind_Done in H. destruct H as [[[n in'] t2] [Hr H]].
    injection H as <-. cbn [io_port].
    unfold serial_write in Hw.
    destruct (_ && _); [|discriminate]. injection Hw as <-.
    unfold serial_read in Hr. cbn [incoming written] in Hr.
    destruct (incoming t) as [|burst later]; [injection Hr as _ _ <-; reflexivity|].
    destruct (take (Z.to_nat inlen) burst).
    + injection Hr as _ _ <-. reflexivity.
    + destruct (_ <=? _); [|discriminate]. injection Hr as _ _ <-. reflexivity.
  - left. exists out'. injection H as <-. split; [exact Hp | reflexivity].
Qed.

(** ** Acknowledged exchanges *)

(** The result of [mbus_io_acked] by cases on the reply. *)
Lemma mbus_io_acked_cases (t : port) (out : list byte) (outlen : Z)
    (in0 out' : list byte) :
  mbus_io_prepare out outlen = Done (true, out') ->
  0 <= outlen <= Z.of_nat (length out) ->
  length in0 = 8%nat ->
  exists (ret : Z) (t' : port),
    mbus_io_acked t out outlen in0 = Done (ret, t') /\
    written t' = written t ++ [take (Z.to_nat outlen) out'] /\
    match hd [] (incoming t) with
    | [] => ret = EIO
    | b :: _ => if u8 b =? MBUS_FRAME_ACK then ret = 0 else ret = EPROTO
    end.
Proof.
  intros Hprep Hlen Hin.
  unfold mbus_io_acked, mbus_io. rewrite Hprep. cbn [mbind run_bind].
  rewrite serial_write_Done
    by (rewrite (mbus_io_prepare_length _ _ _ _ Hprep); exact Hlen).
  cbn [mbind run_bind].
  set (t1 := {| written := _; incoming := incoming t |}).
  destruct (serial_read_Done t1 in0 8 ltac:(lia)) as (n & in' & t2 & -> & Hw & Hl & Hgot).
  cbn [mbind run_bind io_ret io_in io_port]. cbv zeta in Hgot.
  change (incoming t1) with (incoming t) in Hgot.
  destruct (hd [] (incoming t)) as [|b rest].
  - simpl in Hgot. destruct Hgot as [-> ->].
    exists EIO, t2. split; [reflexivity|]. split; [exact Hw | reflexivity].
  - change (Z.to_nat 8) with 8%nat in Hgot. cbn [take] in Hgot.
    destruct Hgot as [-> ->].
    destruct (Z.ltb_spec (Z.of_nat (length (b :: take 7 rest))) 0) as [Hneg|_];
      [simpl in Hneg; lia|].
    destruct (Z.ltb_spec (Z.of_nat (length (b :: take 7 rest))) 1) as [Hneg|_];
      [simpl in Hneg; lia|].
    rewrite <- app_comm_cons, rd_head. cbn [mbind run_bind].
    destruct (u8 b =? MBUS_FRAME_ACK); cbn [negb].
    + exists 0, t2. split; [reflexivity|]. split; [exact Hw | reflexivity].
    + exists EPROTO, t2. split; [reflexivity|]. split; [exact Hw | reflexivity].
Qed.

(** C4, as the code has it. Once the outbound frame has passed the check
    of [mbus_io] and is sent, [mbus_io_acked] succeeds if and only if the
    reply is not empty and its first byte is the ACK code [0xE5], however
    many bytes follow; an empty reply gives the I/O error, a reply that
    starts with another byte gives the protocol error. *)
Theorem mbus_io_acked_reply (t : port) (out : list byte) (outlen : Z)
    (in0 out' : list byte) :
  mbus_io_prepare out outlen = Done (true, out') ->
  0 <= outlen <= Z.of_nat (length out) ->
  length in0 = 8%nat ->
  exists (ret : Z) (t' : port),
    mbus_io_acked t out outlen in0 = Done (ret, t') /\
    written t' = written t ++ [take (Z.to_nat outlen) out'] /\
    (ret = 0 <-> exists rest, hd [] (incoming t) = to_u8 MBUS_FRAME_ACK :: rest) /\
    (hd [] (incoming t) = [] -> ret = EIO) /\
    (forall b rest, hd [] (incoming t) = b :: rest ->
                    u8 b <> MBUS_FRAME_ACK -> ret = EPROTO).
Proof.
  intros Hprep Hlen Hin.
  destruct (mbus_io_acked_cases t out outlen in0 out' Hprep Hlen Hin)
    as (ret & t' & Hrun & Hw & Hret).
  exists ret, t'. split; [exact Hrun|]. split; [exact Hw|].
  destruct (hd [] (incoming t)) as [|b rest].
  - subst ret. split; [|split].
    + split; [discriminate | intros [rest' [=]]].
    + reflexivity.
    + discriminate.
  - destruct (Z.eqb_spec (u8 b) MBUS_FRAME_ACK) as [Hb|Hb]; subst ret.
    + split; [|split].
      * split; [|reflexivity]. intros _. exists rest. f_equal.
        rewrite <- Hb. symmetry. apply to_u8_u8.
      * discriminate.
      * intros b' rest' [= <- <-] Hne. contradiction.
    + split; [|split].
      * split; [discriminate|]. intros [rest' [= -> _]].
        exfalso. apply Hb. vm_compute. reflexivity.
      * discriminate.
      * reflexivity.
Qed.

Lemma mbus_io_acked_reply_witness :
  let t := {| written := []; incoming := [[xe5]] |} in
  mbus_io_prepare keyday_frame 14 = Done (true, keyday_sent) /\
  0 <= 14 <= Z.of_nat (length keyday_frame) /\
  length (repeat x00 8) = 8%nat /\
  exists (ret : Z) (t' : port),
    mbus_io_acked t keyday_frame 14 (repeat x00 8) = Done (ret, t') /\
    written t' = written t ++ [take (Z.to_nat 14) keyday_sent] /\
    (ret = 0 <-> exists rest, hd [] (incoming t) = to_u8 MBUS_FRAME_ACK :: rest) /\
    (hd [] (incoming t) = [] -> ret = EIO) /\
    (forall b rest, hd [] (incoming t) = b :: rest ->
                    u8 b <> MBUS_FRAME_ACK -> ret = EPROTO).
Proof.
  intros t.
  assert (H1 : mbus_io_prepare keyday_frame 14 = Done (true, keyday_sent))
    by (vm_compute; reflexivity).
  assert (H2 : 0 <= 14 <= Z.of_nat (length keyday_frame)) by (simpl; lia).
  assert (H3 : length (repeat x00 8) = 8%nat) by reflexivity.
  split; [exact H1|]. split; [exact H2|]. split; [exact H3|].
  exact (mbus_io_acked_reply t keyday_frame 14 (repeat x00 8) keyday_sent H1 H2 H3).
Defined.

(** C4, as stated, fails: a reply of two bytes that starts with the ACK
    code is taken as an acknowledgement. *)
Lemma mbus_io_acked_two_byte_reply :
  let reply := [xe5; x00] in
  length reply <> 1%nat /\
  mbus_io_acked {| written := []; incoming := [reply] |}
                keyday_frame 14 (repeat x00 8)
  = Done (0, {| written := [keyday_sent]; incoming := [] |}).
Proof.
  split; [discriminate | vm_compute; reflexivity].
Qed.

(** An empty reply is reported as an I/O error, not as a protocol error. *)
Lemma mbus_io_acked_empty_reply :
  mbus_io_acked {| written := []; incoming := [] |}
                keyday_frame 14 (repeat x00 8)
  = Done (EIO, {| written := [keyday_sent]; incoming := [] |}).
Proof. vm_compute. reflexivity. Qed.

(** ** Round trip of long frames up to 255 bytes *)

(** The [frame_out] arrays of the source are instances of [long_frame]. *)
Lemma frame_out_layout :
  keyday_frame = long_frame x53 xfe x51 [x02; xec; x00; xe3; xfa] /\
  months_frame = long_frame x53 xfe x51 [x0f; x02; x00; x00; x60] /\
  aes_frame = long_frame x53 xfe x51
                ([x0f; x83; x00; x00; x60; x00; x00; x00; x00]
                 ++ [x89; x4f; x9f; x34; xcd; xd1; x93; x41]
                 ++ [xab; xdc; xff; x5b; xea; x66; x10; xbc]).
Proof.
  repeat split; vm_compute; reflexivity.
Qed.

Lemma long_frame_cs_length c a ci payload cs :
  Z.of_nat (length (long_frame_cs c a ci payload cs))
  = 9 + Z.of_nat (length payload).
Proof.
  unfold long_frame_cs. rewrite !length_app. simpl. lia.
Qed.

(** The bytes of a long frame after the payload. *)
Lemma long_frame_cs_tail c a ci payload cs k :
  0 <= k ->
  rd (long_frame_cs c a ci payload cs) (7 + Z.of_nat (length payload) + k)
  = rd [cs; to_u8 MBUS_FRAME_STOP] k.
Proof.
  intros Hk. unfold long_frame_cs.
  rewrite rd_app_r by (simpl; lia).
  rewrite rd_app_r by (simpl; lia).
  f_equal. simpl. lia.
Qed.

(** The checksum slot does not enter the checksum. *)
Lemma mbus_cslong_slot c a ci payload cs cs' :
  mbus_cslong (long_frame_cs c a ci payload cs)
              (9 + Z.of_nat (length payload))
  = mbus_cslong (long_frame_cs c a ci payload cs')
                (9 + Z.of_nat (length payload)).
Proof.
  assert (Hmax : 9 + Z.of_nat (length payload) - 2 <= UINT_MAX \/
                 UINT_MAX < 9 + Z.of_nat (length payload) - 2) by lia.
  destruct Hmax as [Hmax|Hmax].
  - rewrite !mbus_cslong_small by lia.
    apply cslong_loop_ext. intros j Hj.
    unfold long_frame_cs.
    rewrite !app_assoc.
    rewrite !(rd_app_l (_ ++ payload)) by (rewrite length_app; simpl; lia).
    reflexivity.
  - unfold mbus_cslong.
    assert (Hs : UINT_MAX < SIZE_MAX + 1) by (vm_compute; reflexivity).
    pose proof (long_frame_cs_length c a ci payload cs) as L1.
    pose proof (long_frame_cs_length c a ci payload cs') as L2.
    destruct (Z.leb_spec ((9 + Z.of_nat (length payload) - 2) mod (SIZE_MAX + 1))
                UINT_MAX) as [Hle|Hgt].
    + apply cslong_loop_ext. intros j Hj.
      unfold long_frame_cs.
      rewrite !app_assoc.
      assert (Hm : (9 + Z.of_nat (length payload) - 2) mod (SIZE_MAX + 1)
                   <= 9 + Z.of_nat (length payload) - 2)
        by (apply Z.mod_le; lia).
      rewrite !(rd_app_l (_ ++ payload)) by (rewrite length_app; simpl; lia).
      reflexivity.
    + rewrite L1, L2. reflexivity.
Qed.

Lemma read_rspud12_Done data :
  19 <= Z.of_nat (length data) -> exists r, read_rspud12 data = Done r.
Proof.
  intros H. unfold read_rspud12.
  repeat (rewrite rd_in_range by lia; cbn [mbind run_bind]).
  eexists. reflexivity.
Qed.

(** The frame built for a payload of at most 246 bytes passes through the
    outbound path of [mbus_io], which fills in the checksum, and the
    validator gives back [c], [a], [ci] and the payload.  With the control
    info [MBUS_CI_RSPUD12] the validator also logs 12 header bytes, which a
    frame with fewer than 10 payload bytes does not have. *)
Theorem long_frame_roundtrip (c a ci : byte) (payload : list byte) :
  (length payload <= 246)%nat ->
  u8 ci <> MBUS_CI_RSPUD12 \/ (10 <= length payload)%nat ->
  let outlen := Z.of_nat (length (long_frame c a ci payload)) in
  exists (cs : byte) (h : long_header),
    mbus_io_prepare (long_frame c a ci payload) outlen
    = Done (true, long_frame_cs c a ci payload cs) /\
    mbus_checklong (long_frame_cs c a ci payload cs) outlen
    = Done (LongAccepted outlen h) /\
    mbus_c h = c /\ mbus_adr h = a /\ mbus_ci h = ci /\
    long_payload (long_frame_cs c a ci payload cs) outlen = payload.
Proof.
  intros Hn Hci outlen. subst outlen. unfold long_frame.
  rewrite long_frame_cs_length.
  set (n := Z.of_nat (length payload)).
  assert (Hn' : 0 <= n <= 246) by (unfold n; lia).
  (* the checksum *)
  assert (Hcs : exists cs, mbus_cslong (long_frame_cs c a ci payload x00) (9 + n)
                           = Done cs).
  { eexists. rewrite mbus_cslong_small by (unfold UINT_MAX; lia).
    apply cslong_loop_sum; [lia|].
    rewrite long_frame_cs_length. fold n. lia. }
  destruct Hcs as [cs Hcs].
  (* the validator on the completed frame *)
  assert (Hrsp : exists rsp,
             (if u8 ci =? MBUS_CI_RSPUD12
              then r ← read_rspud12 (long_frame_cs c a ci payload cs); Done (Some r)
              else Done None) = Done rsp).
  { destruct (Z.eqb_spec (u8 ci) MBUS_CI_RSPUD12) as [Heq|]; [|eauto].
    destruct (read_rspud12_Done (long_frame_cs c a ci payload cs)) as [r Hr].
    - rewrite long_frame_cs_length. lia.
    - rewrite Hr. eauto. }
  destruct Hrsp as [rsp Hrsp].
  assert (Hll : u8 (to_u8 (u8 (to_u8 (3 + n)) + 4 + MBUS_FRAME_FTR_LEN)) = 9 + n).
  { rewrite ll_of_length, u8_to_u8, (Z.mod_small (3 + n)) by lia.
    rewrite Z.mod_small; lia. }
  assert (Hv : mbus_checklong (long_frame_cs c a ci payload cs) (9 + n)
               = Done (LongAccepted (9 + n)
                         {| mbus_c := c; mbus_adr := a; mbus_ci := ci;
                            mbus_rsp := rsp |})).
  { unfold mbus_checklong.
    destruct (Z.ltb_spec (9 + n) (MBUS_FRAME_LONG_HDR_LEN + MBUS_FRAME_FTR_LEN))
      as [Hlt|_]; [unfold MBUS_FRAME_LONG_HDR_LEN, MBUS_FRAME_FTR_LEN in Hlt; lia|].
    change (rd (long_frame_cs c a ci payload cs) 0)
      with (Done (to_u8 MBUS_FRAME_LONG_START)).
    change (rd (long_frame_cs c a ci payload cs) 3)
      with (Done (to_u8 MBUS_FRAME_LONG_START)).
    change (rd (long_frame_cs c a ci payload cs) 1) with (Done (to_u8 (3 + n))).
    change (rd (long_frame_cs c a ci payload cs) 2) with (Done (to_u8 (3 + n))).
    change (rd (long_frame_cs c a ci payload cs) 4) with (Done c).
    change (rd (long_frame_cs c a ci payload cs) 5) with (Done a).
    change (rd (long_frame_cs c a ci payload cs) 6) with (Done ci).
    cbn [mbind run_bind].
    change (negb (u8 (to_u8 MBUS_FRAME_LONG_START) =? MBUS_FRAME_LONG_START))
      with false.
    cbn [mbind run_bind negb].
    rewrite Z.eqb_refl. cbn [negb].
    rewrite Hll.
    destruct (Z.gtb_spec (9 + n) (9 + n)); [lia|].
    replace (9 + n - 1) with (7 + n + 1) by lia.
    replace (9 + n - MBUS_FRAME_FTR_LEN) with (7 + n + 0)
      by (unfold MBUS_FRAME_FTR_LEN; lia).
    unfold n. rewrite !long_frame_cs_tail by lia. fold n.
    change (rd [cs; to_u8 MBUS_FRAME_STOP] 1) with (Done (to_u8 MBUS_FRAME_STOP)).
    change (rd [cs; to_u8 MBUS_FRAME_STOP] 0) with (Done cs).
    cbn [mbind run_bind].
    change (negb (u8 (to_u8 MBUS_FRAME_STOP) =? MBUS_FRAME_STOP)) with false.
    cbn iota.
    unfold n. rewrite (mbus_cslong_slot c a ci payload cs x00). fold n.
    rewrite Hcs. cbn [mbind run_bind].
    rewrite Z.eqb_refl. cbn [negb].
    rewrite Hrsp. reflexivity. }
  exists cs, {| mbus_c := c; mbus_adr := a; mbus_ci := ci; mbus_rsp := rsp |}.
  split; [|split; [exact Hv|]].
  - unfold mbus_io_prepare.
    destruct (Z.eqb_spec (9 + n) (MBUS_FRAME_SHORT_HDR_LEN + MBUS_FRAME_FTR_LEN))
      as [Heq|_];
      [unfold MBUS_FRAME_SHORT_HDR_LEN, MBUS_FRAME_FTR_LEN in Heq; lia|].
    cbn [mbind run_bind].
    destruct (Z.leb_spec (MBUS_FRAME_LONG_HDR_LEN + MBUS_FRAME_FTR_LEN) (9 + n))
      as [_|Hlt];
      [|unfold MBUS_FRAME_LONG_HDR_LEN, MBUS_FRAME_FTR_LEN in Hlt; lia].
    change (rd (long_frame_cs c a ci payload x00) 0)
      with (Done (to_u8 MBUS_FRAME_LONG_START)).
    cbn [mbind run_bind].
    change (u8 (to_u8 MBUS_FRAME_LONG_START) =? MBUS_FRAME_LONG_START) with true.
    cbn iota. rewrite Hcs. cbn [mbind run_bind].
    assert (Hwr : wr (long_frame_cs c a ci payload x00)
                     (9 + n - MBUS_FRAME_FTR_LEN) cs
                  = Done (long_frame_cs c a ci payload cs)).
    { apply wr_Done. rewrite long_frame_cs_length. fold n.
      unfold MBUS_FRAME_FTR_LEN. split; [lia|].
      unfold long_frame_cs.
      rewrite insert_app_r_alt by (simpl; lia).
      rewrite insert_app_r_alt by (simpl; lia).
      replace (Z.to_nat (9 + n - (1 + 1)) - length _ - length payload)%nat
        with 0%nat by (simpl; lia).
      reflexivity. }
    rewrite Hwr. cbn [mbind run_bind].
    rewrite Hv. cbn [mbind run_bind long_ret].
    destruct (Z.eqb_spec (9 + n) 0); [lia | reflexivity].
  - repeat split.
    unfold long_payload, long_frame_cs, MBUS_FRAME_LONG_HDR_LEN, MBUS_FRAME_FTR_LEN.
    change (Z.to_nat (4 + 1 + 1 + 1)) with 7%nat. cbn [app drop].
    replace (Z.to_nat (9 + n - (4 + 1 + 1 + 1) - (1 + 1))) with (length payload)
      by (unfold n; lia).
    apply take_app_length.
Qed.

(** ** Long frames of 256 bytes and more

    [ll] holds [data[1] + 6] in 8 bits. From a length byte of 250 on the
    sum does not fit, and [mbus_checklong] looks for the end of the frame
    near the start of the array. *)

(** C1, at a payload of 248 bytes: the frame built for it is rejected by
    the outbound check of [mbus_io] ([ll] is 1 and [data[0]] is not the
    stop byte); nothing is sent and [-EPROTO] is returned. *)
Theorem long_frame_248_rejected (t : port) (in_ : list byte) (inlen : Z) :
  Z.of_nat (length (zero_frame 248)) = 257 /\
  u8 (to_u8 (251 + 4 + MBUS_FRAME_FTR_LEN)) = 1 /\
  mbus_cslong (zero_frame 248) 257 = Done xa2 /\
  mbus_checklong (<[255%nat := xa2]> (zero_frame 248)) 257
  = Done (LongRejected LongBadStop) /\
  mbus_io t (zero_frame 248) 257 in_ inlen
  = Done {| io_ret := - EPROTO; io_out := <[255%nat := xa2]> (zero_frame 248);
            io_in := in_; io_port := t |}.
Proof.
  repeat split; vm_compute; reflexivity.
Qed.

(** C9, at the frame built for a payload of 247 bytes: [ll] is 0, the
    stop byte is looked for at [data[-1]], and the run of [mbus_io] leaves
    the array: it is not a return of [-EPROTO]. *)
Theorem long_frame_247_undefined (t : port) (in_ : list byte) (inlen : Z) :
  Z.of_nat (length (zero_frame 247)) = 256 /\
  u8 (to_u8 (250 + 4 + MBUS_FRAME_FTR_LEN)) = 0 /\
  mbus_cslong (zero_frame 247) 256 = Done xa2 /\
  mbus_checklong (<[254%nat := xa2]> (zero_frame 247)) 256 = Undefined /\
  mbus_io t (zero_frame 247) 256 in_ inlen = Undefined.
Proof.
  repeat split; vm_compute; reflexivity.
Qed.

(** ** The AES key is never sent *)

(** C3. [em_set_aes] hands nothing to the serial line: whatever the state
    of the line, it is left as it was, and the function returns the
    failure code 7. Nothing a caller supplies changes this. *)
Theorem em_set_aes_never_transmits (t : port) :
  exists (ret : Z) (t' : port),
    em_set_aes t = Done (ret, t') /\
    written t' = written t /\
    ret = 7 /\ ret <> 0.
Proof.
  exists 7, t. repeat split. discriminate.
Qed.

(** ** The line buffer of the decoding loop *)

Lemma put_Done b n b' : put b n = Done b' <-> b + n + 1 <= 64 /\ b' = b + n.
Proof.
  unfold put. destruct (Z.leb_spec (b + n + 1) 64); split.
  - intros [= <-]. auto.
  - intros [_ ->]. reflexivity.
  - discriminate.
  - lia.
Qed.

Lemma put_not_Diverges b n : put b n <> Diverges.
Proof. unfold put. destruct (_ <=? _); discriminate. Qed.

Lemma dec_digits_pos fuel : forall v, 1 <= dec_digits fuel v.
Proof.
  induction fuel as [|fuel IH]; intros v; cbn [dec_digits]; [lia|].
  destruct (v <? 10); [lia|]. specialize (IH (v / 10)). lia.
Qed.

Lemma width_d_min w v : w <= width_d w v /\ 1 <= width_d w v.
Proof. unfold width_d. pose proof (dec_digits_pos 20 v). lia. Qed.

(** Reduces a goal about a run to the case where a [sprintf] fits. *)
Ltac step_put :=
  match goal with
  | |- context [put ?b ?n ≫= _] =>
      let H := fresh in
      pose proof (put_not_Diverges b n) as H;
      destruct (put b n); cbn [mbind run_bind]; [clear H | discriminate | congruence]
  end.

(** Takes the first step off a run that returns. *)
Tactic Notation "bind_inv" hyp(H) "as" simple_intropattern(x) ident(Hx) :=
  apply bind_Done in H; destruct H as [x [Hx H]].

(** ** The datetime record *)



(** ** The record stream stops at an unsupported data format *)

Lemma ldb_bound df : 0 <= df <= 7 -> 0 <= nth (Z.to_nat df) ldb 0 <= 8.
Proof.
  intros H.
  assert (Hc : df = 0 \/ df = 1 \/ df = 2 \/ df = 3 \/ df = 4 \/ df = 5 \/
               df = 6 \/ df = 7) by lia.
  repeat (destruct Hc as [->|Hc]; [vm_compute; split; discriminate|]).
  subst df. vm_compute. split; discriminate.
Qed.

Lemma rd_raw_not_Diverges l : forall frame_in d b,
  rd_raw l frame_in d b <> Diverges.
Proof.
  induction l as [|l IH]; intros frame_in d b; cbn [rd_raw]; [discriminate|].
  step_rd. step_put.
  match goal with
  | |- context [rd_raw l ?f ?d' ?b'] =>
      specialize (IH f d' b'); destruct (rd_raw l f d' b') as [[xs b2]| |]
  end; cbn [mbind run_bind]; congruence || discriminate.
Qed.

(** The RAW loop reads [l] bytes from [d] on and writes 3 characters for
    each. *)
Lemma rd_raw_Done l : forall frame_in d b raw b',
  rd_raw l frame_in d b = Done (raw, b') ->
  length raw = l /\ b' = b + 3 * Z.of_nat l /\
  forall k, (k < l)%nat -> rd frame_in (d + Z.of_nat k) = Done (nth k raw x00).
Proof.
  induction l as [|l IH]; intros frame_in d b raw b' H; cbn [rd_raw] in H.
  - injection H as <- <-. split; [reflexivity|]. split; [lia|]. intros k Hk. lia.
  - bind_inv H as x Hx. bind_inv H as b1 Hb1. bind_inv H as [xs b2] Hxs.
    injection H as <- <-.
    apply put_Done in Hb1. destruct Hb1 as [_ ->].
    apply IH in Hxs. destruct Hxs as (Hlen & -> & Hnth).
    split; [cbn [length]; lia|]. split; [lia|].
    intros [|k] Hk.
    + change (Z.of_nat 0) with 0. rewrite Z.add_0_r. exact Hx.
    + cbn [nth]. replace (d + Z.of_nat (S k)) with (d + 1 + Z.of_nat k) by lia.
      apply Hnth. lia.
Qed.

(** [record_step] only reads and fills its line buffer: it returns or
    touches memory it must not. *)
Lemma record_step_not_Diverges frame_in p i : record_step frame_in p i <> Diverges.
Proof.
  unfold record_step.
  repeat first [step_rd | step_put].
  destruct (_ >? 7); [discriminate|].
  repeat step_put.
  match goal with
  | |- context [rd_raw ?l ?f ?d ?b] =>
      pose proof (rd_raw_not_Diverges l f d b);
      destruct (rd_raw l f d b) as [[raw b7]| |]
  end; cbn [mbind run_bind]; try congruence.
  destruct (_ && _).
  { unfold datetime_value. repeat step_rd. step_put. discriminate. }
  destruct (_ =? 4).
  { repeat step_rd. step_put. discriminate. }
  destruct (_ && _).
  { repeat step_rd. step_put. discriminate. }
  cbn [mbind run_bind]. step_put. discriminate.
Qed.

(** What a run of the body that logs a line has read and written: the
    DIF and the VIF of the line, a data format of at most 7, the raw bytes,
    and a line buffer that held the text of the line. *)
Lemma record_step_logged frame_in p i line p' :
  record_step frame_in p i = Done (RecLogged line p') ->
  exists (v0 dife vife : byte) (b7 : Z),
    let dif := rec_dif line in
    let hasdife := Z.shiftr (Z.land (u8 dif) 0x80) 7 in
    let hasvife := Z.shiftr (Z.land (u8 v0) 0x80) 7 in
    let d := p + 1 + hasdife + 1 + hasvife in
    let df := Z.land (u8 dif) 0xf in
    let l := nth (Z.to_nat df) ldb 0 in
    rd frame_in p = Done dif /\
    rd frame_in (p + 1 + hasdife) = Done v0 /\
    rd frame_in (p + 1) = Done dife /\
    rd frame_in (p + hasdife + 1) = Done (rec_vif line) /\
    df <= 7 /\
    rec_i line = i /\
    rec_dife line = (if hasdife =? 0 then None else Some dife) /\
    rec_vife line = (if hasvife =? 0 then None else Some vife) /\
    rec_sn line = (if hasdife =? 0 then Z.shiftr (Z.land (u8 dif) 0x40) 6
                   else Z.lor (Z.shiftr (Z.land (u8 dif) 0x40) 6)
                              (Z.shiftl (Z.land (u8 dife) 0xf) 1)) /\
    rd_raw (Z.to_nat l) frame_in d (21 + (5 + width_d 1 (rec_sn line)) + 6)
    = Done (rec_raw line, b7) /\
    (if (df =? 4) && (u8 (rec_vif line) =? 0x6d) then
       datetime_value frame_in d
     else if df =? 4 then
       b3 ← rd frame_in (d + 3);
       b2 ← rd frame_in (d + 2);
       b1 ← rd frame_in (d + 1);
       b0 ← rd frame_in (d + 0);
       Done (ValInt (Z.lor (Z.lor (Z.lor (Z.shiftl (u8 b3) 24)
                                         (Z.shiftl (u8 b2) 16))
                                  (Z.shiftl (u8 b1) 8))
                           (u8 b0)))
     else if (df =? 2) && (u8 (rec_vif line) =? 0x6c) then
       b0 ← rd frame_in d;
       b1 ← rd frame_in (d + 1);
       Done (ValDate
               (2000 + Z.lor (Z.shiftr (u8 b0) 5)
                             (Z.shiftr (Z.land (u8 b1) 0xf0) 1))
               (Z.land (u8 b1) 0xf)
               (Z.land (u8 b0) 0x1f))
     else Done ValNone) = Done (rec_val line) /\
    b7 + value_width (rec_val line) + 1 <= 64 /\
    p' = d + l.
Proof.
  unfold record_step. intros H.
  bind_inv H as dif Hdif. bind_inv H as v0 Hv0. bind_inv H as b1 Hb1.
  bind_inv H as dife Hdife. bind_inv H as b2 Hb2.
  bind_inv H as vif Hvif. bind_inv H as b3 Hb3.
  bind_inv H as vife Hvife. bind_inv H as b4 Hb4.
  destruct (Z.gtb_spec (Z.land (u8 dif) 0xf) 7) as [|Hdf]; [discriminate|].
  bind_inv H as b5 Hb5. bind_inv H as b6 Hb6.
  bind_inv H as [raw b7] Hraw. bind_inv H as val Hval. bind_inv H as b8 Hb8.
  injection H as <- <-. cbn [rec_i rec_dif rec_dife rec_vif rec_vife rec_sn
                              rec_raw rec_val].
  apply put_Done in Hb1, Hb2, Hb3, Hb4, Hb5, Hb6, Hb8.
  destruct Hb1 as [_ ->]. destruct Hb2 as [_ ->]. destruct Hb3 as [_ ->].
  destruct Hb4 as [_ ->]. destruct Hb5 as [_ ->]. destruct Hb6 as [_ ->].
  destruct Hb8 as [Hfit _].
  change (0 + 7 + 3 + 8 + 3) with 21 in Hraw.
  exists v0, dife, vife, b7. cbv zeta.
  repeat (split; [first [assumption | reflexivity]|]). reflexivity.
Qed.

(** What a run of the body that breaks has read: a DIF with a data format
    above 7. *)
Lemma record_step_broke frame_in p i :
  record_step frame_in p i = Done RecBreak ->
  exists dif, rd frame_in p = Done dif /\ 7 < Z.land (u8 dif) 0xf.
Proof.
  unfold record_step. intros H.
  bind_inv H as dif Hdif. bind_inv H as v0 Hv0. bind_inv H as b1 Hb1.
  bind_inv H as dife Hdife. bind_inv H as b2 Hb2.
  bind_inv H as vif Hvif. bind_inv H as b3 Hb3.
  bind_inv H as vife Hvife. bind_inv H as b4 Hb4.
  destruct (Z.gtb_spec (Z.land (u8 dif) 0xf) 7) as [Hdf|Hdf].
  { exists dif. split; [exact Hdif | lia]. }
  bind_inv H as b5 Hb5. bind_inv H as b6 Hb6.
  bind_inv H as [raw b7] Hraw. bind_inv H as val Hval. bind_inv H as b8 Hb8.
  discriminate H.
Qed.

(** A logged record moves the cursor on by 2 to 12 bytes. *)
Lemma record_step_advance frame_in p i line p' :
  record_step frame_in p i = Done (RecLogged line p') ->
  p + 2 <= p' <= p + 12.
Proof.
  intros H. apply record_step_logged in H.
  destruct H as (v0 & dife & vife & b7 & H). cbv zeta in H.
  destruct H as (_ & _ & _ & _ & Hdf & _ & _ & _ & _ & _ & _ & _ & ->).
  pose proof (u8_range (rec_dif line)).
  pose proof (land_bound (u8 (rec_dif line)) 0xf ltac:(lia) ltac:(lia)).
  pose proof (ldb_bound (Z.land (u8 (rec_dif line)) 0xf) ltac:(lia)).
  pose proof (ext_bit (rec_dif line)). pose proof (ext_bit v0). lia.
Qed.

(** At a DIF whose data format exceeds 7 the loop body breaks, provided
    the three bytes after the DIF are inside the array: the text written
    until then fits the line buffer. *)
Lemma record_step_break frame_in p i dif :
  rd frame_in p = Done dif ->
  7 < Z.land (u8 dif) 0xf ->
  p + 3 < Z.of_nat (length frame_in) ->
  record_step frame_in p i = Done RecBreak.
Proof.
  intros Hdif Hdf Hlen. unfold record_step.
  pose proof (rd_Done_lt _ _ _ Hdif) as Hp.
  rewrite Hdif. cbn [mbind run_bind].
  pose proof (ext_bit dif) as Hd.
  rewrite (rd_in_range frame_in (p + 1 + _)) by lia. cbn [mbind run_bind].
  change (put 0 7) with (@Done Z 7). cbn [mbind run_bind].
  rewrite (rd_in_range frame_in (p + 1)) by lia. cbn [mbind run_bind].
  change (put 7 3) with (@Done Z 10). cbn [mbind run_bind].
  rewrite (rd_in_range frame_in (p + _ + 1)) by lia. cbn [mbind run_bind].
  change (put 10 8) with (@Done Z 18). cbn [mbind run_bind].
  rewrite (rd_in_range frame_in (p + 1 + _ + 1)) by lia. cbn [mbind run_bind].
  change (put 18 3) with (@Done Z 21). cbn [mbind run_bind].
  destruct (Z.gtb_spec (Z.land (u8 dif) 0xf) 7); [reflexivity | lia].
Qed.

(** The line of a date and time record needs at least 68 bytes of the 64
    of the line buffer: no run of the body logs one. *)
Lemma record_step_not_datetime frame_in p i line p' :
  record_step frame_in p i = Done (RecLogged line p') ->
  ~ (Z.land (u8 (rec_dif line)) 0xf = 4 /\ u8 (rec_vif line) = 0x6d).
Proof.
  intros H [Hdf Hvif]. apply record_step_logged in H.
  destruct H as (v0 & dife & vife & b7 & H). cbv zeta in H.
  destruct H as (_ & _ & _ & _ & _ & _ & _ & _ & _ & Hraw & Hval & Hfit & _).
  rewrite Hdf, Hvif in Hval. change ((4 =? 4) && (0x6d =? 0x6d)) with true in Hval.
  cbv iota in Hval.
  rewrite Hdf in Hraw. change (Z.to_nat (nth (Z.to_nat 4) ldb 0)) with 4%nat in Hraw.
  apply rd_raw_Done in Hraw. destruct Hraw as (_ & -> & _).
  unfold datetime_value in Hval.
  bind_inv Hval as b2 H2. bind_inv Hval as b3 H3.
  bind_inv Hval as b1 H1. bind_inv Hval as b0 H0.
  injection Hval as Hval. rewrite <- Hval in Hfit. cbn [value_width] in Hfit.
  pose proof (width_d_min 1 (rec_sn line)).
  match type of Hfit with
  | context [width_d 4 ?y] => pose proof (width_d_min 4 y)
  end.
  pose proof (width_d_min 2 (Z.land (u8 b3) 0xf)).
  pose proof (width_d_min 2 (Z.land (u8 b2) 0x1f)).
  pose proof (width_d_min 2 (u8 b1)).
  pose proof (width_d_min 2 (u8 b0)).
  change (Z.of_nat 4) with 4 in Hfit. lia.
Qed.

(** At a date and time record the body of the loop overruns its line
    buffer. *)
Lemma record_step_datetime_overrun frame_in p i dif vif :
  rd frame_in p = Done dif ->
  Z.land (u8 dif) 0xf = 4 ->
  rd frame_in (p + Z.shiftr (Z.land (u8 dif) 0x80) 7 + 1) = Done vif ->
  u8 vif = 0x6d ->
  record_step frame_in p i = Undefined.
Proof.
  intros Hdif Hdf Hvif H6d.
  pose proof (record_step_not_Diverges frame_in p i) as Hnd.
  destruct (record_step frame_in p i) as [[|line p']| |] eqn:E;
    [ | | reflexivity | congruence].
  - apply record_step_broke in E. destruct E as (dif' & Hdif' & Hgt).
    rewrite Hdif in Hdif'. injection Hdif' as <-. lia.
  - exfalso. apply (record_step_not_datetime _ _ _ _ _ E).
    apply record_step_logged in E.
    destruct E as (v0 & dife & vife & b7 & E). cbv zeta in E.
    destruct E as (Hd & _ & _ & Hv & _).
    rewrite Hdif in Hd. injection Hd as Hd. rewrite <- Hd in Hv.
    rewrite Hvif in Hv. injection Hv as Hv. rewrite <- Hd, <- Hv. auto.
Qed.

Lemma decodes_bounds frame_in p i lines q j :
  decodes frame_in p i lines q j ->
  p + 2 * Z.of_nat (length lines) <= q /\
  j = i + Z.of_nat (length lines) /\
  (q = p \/ exists l1, rd frame_in 1 = Done l1 /\ q <= u8 l1).
Proof.
  induction 1 as [p i | p i line p' l1 lines q j Hstep Hl1 Hle _ IH].
  - simpl. repeat split; lia.
  - apply record_step_advance in Hstep.
    destruct IH as (IH1 & IH2 & IH3).
    cbn [length]. repeat split; try lia.
    right. exists l1. split; [assumption|].
    destruct IH3 as [->|(l1' & Hl1' & Hq)]; [assumption|].
    rewrite Hl1 in Hl1'. injection Hl1' as <-. assumption.
Qed.

(** Following the loop to a cursor at which the body breaks is running it. *)
Lemma records_loop_decodes frame_in p i lines q j :
  decodes frame_in p i lines q j ->
  record_step frame_in q j = Done RecBreak ->
  forall fuel, (length lines < fuel)%nat ->
    records_loop fuel frame_in p i = Done lines.
Proof.
  induction 1 as [p i | p i line p' l1 lines q j Hstep Hl1 Hle _ IH];
    intros Hbreak fuel Hfuel.
  - destruct fuel as [|fuel]; [simpl in Hfuel; lia|].
    cbn [records_loop]. rewrite Hbreak. reflexivity.
  - destruct fuel as [|fuel]; [simpl in Hfuel; lia|].
    cbn [records_loop]. rewrite Hstep. cbn [mbind run_bind].
    rewrite Hl1. cbn [mbind run_bind].
    destruct (Z.gtb_spec p' (u8 l1)); [lia|].
    rewrite (IH Hbreak fuel) by (simpl in Hfuel; lia).
    reflexivity.
Qed.

(** The fuel of [records_loop] is not used up: since the cursor moves on
    by at least 2 and the loop goes on only while it is at most a byte,
    128 iterations from any cursor are enough. *)
Lemma records_loop_fuel fuel : forall frame_in p i,
  0 <= p <= 255 ->
  257 - p < 2 * Z.of_nat fuel ->
  records_loop fuel frame_in p i <> Diverges.
Proof.
  induction fuel as [|fuel IH]; intros frame_in p i Hp Hfuel; [simpl in Hfuel; lia|].
  cbn [records_loop].
  pose proof (record_step_not_Diverges frame_in p i) as Hnd.
  destruct (record_step frame_in p i) as [[|line p']| |] eqn:Hstep;
    cbn [mbind run_bind]; try congruence; try discriminate.
  pose proof (rd_not_Diverges frame_in 1) as Hnd1.
  destruct (rd frame_in 1) as [l1| |]; cbn [mbind run_bind];
    try congruence; try discriminate.
  destruct (Z.gtb_spec p' (u8 l1)) as [|Hle]; [discriminate|].
  apply record_step_advance in Hstep. pose proof (u8_range l1).
  specialize (IH frame_in p' (i + 1) ltac:(lia) ltac:(lia)).
  destruct (records_loop fuel frame_in p' (i + 1)); cbn [mbind run_bind];
    congruence || discriminate.
Qed.

(** The decoding loop of [em_read_info] comes to an end. *)
Lemma em_read_info_loop_ends frame_in :
  records_loop 256 frame_in (MBUS_FRAME_LONG_HDR_LEN + MBUS_RSPUD12_HDR_LEN) 0
  <> Diverges.
Proof.
  apply records_loop_fuel;
    unfold MBUS_FRAME_LONG_HDR_LEN, MBUS_RSPUD12_HDR_LEN; lia.
Qed.

(** Where the loop gets as far as a DIF whose low nibble exceeds 7, every
    record before it having been logged within the line buffer, it stops
    there: the lines logged are those of the records before it, and
    [em_read_info] returns 0, the success result. *)
Lemma em_read_info_stops_at_unsupported (t : port) (frame_in0 : list byte)
    (r : io_result) (v : long_check) (lines : list rec_line) (q j : Z)
    (dif : byte) :
  mbus_io t info_frame (Z.of_nat (length info_frame)) frame_in0 256 = Done r ->
  0 <= io_ret r ->
  mbus_checklong (io_in r) (io_ret r) = Done v ->
  71 <= long_ret v ->
  decodes (io_in r) (MBUS_FRAME_LONG_HDR_LEN + MBUS_RSPUD12_HDR_LEN) 0 lines q j ->
  rd (io_in r) q = Done dif ->
  7 < Z.land (u8 dif) 0xf ->
  em_read_info t frame_in0 = Done (0, lines, io_port r).
Proof.
  intros Hio Hret Hv Hll Hdec Hdif Hdf.
  unfold em_read_info. rewrite Hio. cbn [mbind run_bind].
  destruct (Z.ltb_spec (io_ret r) 0); [lia|].
  rewrite Hv. cbn [mbind run_bind].
  destruct (Z.ltb_spec (long_ret v) 71); [lia|].
  destruct v as [e|ll h]; simpl in Hll; [lia|].
  apply mbus_checklong_accepted in Hv.
  destruct Hv as (L & cs & _ & _ & _ & HL & _ & -> & _ & Hstop & _).
  apply rd_Done_lt in Hstop.
  pose proof (u8_range L) as HLr.
  assert (HL249 : u8 L <= 249).
  { destruct (Z.le_gt_cases (u8 L) 249); [assumption|].
    assert ((u8 L + 6) mod 256 = u8 L + 6 - 256); [|lia].
    symmetry. apply Z.mod_unique with 1; lia. }
  rewrite Z.mod_small in * by lia.
  pose proof (decodes_bounds _ _ _ _ _ _ Hdec) as (Hq1 & Hj & Hq2).
  unfold MBUS_FRAME_LONG_HDR_LEN, MBUS_RSPUD12_HDR_LEN in *.
  assert (Hq : q <= u8 L).
  { destruct Hq2 as [->|(l1 & Hl1 & Hq2)]; [lia|].
    rewrite HL in Hl1. injection Hl1 as <-. assumption. }
  assert (Hbreak : record_step (io_in r) q j = Done RecBreak).
  { apply record_step_break with dif; [assumption | assumption | lia]. }
  rewrite (records_loop_decodes _ _ _ _ _ _ Hdec Hbreak 256%nat) by lia.
  reflexivity.
Qed.

Lemma em_read_info_stops_at_unsupported_witness :
  em_read_info {| written := []; incoming := [unsupported_info_reply] |}
               (repeat x00 256)
  = Done (0,
          [ {| rec_i := 0; rec_dif := x01; rec_dife := None;
               rec_vif := x13; rec_vife := None; rec_sn := 0;
               rec_raw := [x2a]; rec_val := ValNone |} ],
          {| written := [info_sent]; incoming := [] |}).
Proof.
  apply (em_read_info_stops_at_unsupported
           {| written := []; incoming := [unsupported_info_reply] |}
           (repeat x00 256)
           {| io_ret := 71; io_out := info_sent;
              io_in := unsupported_info_reply ++ repeat x00 185;
              io_port := {| written := [info_sent]; incoming := [] |} |}
           (LongAccepted 71
              {| mbus_c := x08; mbus_adr := x00; mbus_ci := x72;
                 mbus_rsp := Some {| rsp_secadr := (x00, x00, x00, x00);
                                     rsp_manufacturer := (x00, x00);
                                     rsp_letters := (64, 64, 64);
                                     rsp_version := x00;
                                     rsp_medium := x00;
                                     rsp_accesscount := x00;
                                     rsp_state := x00;
                                     rsp_signature := (x00, x00) |} |})
           _ 22 1 x0f).
  - vm_compute. reflexivity.
  - simpl. lia.
  - vm_compute. reflexivity.
  - simpl. lia.
  - eapply decodes_step with (p' := 22) (l1 := x41).
    + vm_compute. reflexivity.
    + vm_compute. reflexivity.
    + vm_compute. discriminate.
    + apply decodes_here.
  - vm_compute. reflexivity.
  - vm_compute. reflexivity.
Defined.




(** ** Monthly totals *)

(** The fields of a monthly record, for any six bytes whatever. *)
Lemma month_of_chunk_ranges chunk :
  2000 <= m_year (month_of_chunk chunk) <= 2127 /\
  0 <= m_month (month_of_chunk chunk) <= 15 /\
  0 <= m_day (month_of_chunk chunk) <= 31 /\
  - 2 ^ 31 <= m_reading (month_of_chunk chunk) < 2 ^ 31 /\
  (u8 (nth 5 chunk x00) < 128 -> 0 <= m_reading (month_of_chunk chunk)).
Proof.
  unfold month_of_chunk. cbn [m_year m_month m_day m_reading].
  set (b0 := nth 0 chunk x00). set (b1 := nth 1 chunk x00).
  set (b2 := nth 2 chunk x00). set (b3 := nth 3 chunk x00).
  set (b4 := nth 4 chunk x00). set (b5 := nth 5 chunk x00).
  pose proof (u8_range b0). pose proof (u8_range b1). pose proof (u8_range b2).
  pose proof (u8_range b5).
  split; [|split; [|split; [|split]]].
  - pose proof (field_bound (u8 b1) 0xfe 1 ltac:(lia) ltac:(lia) ltac:(lia)) as Hf.
    change (0xfe / 2 ^ 1) with 127 in Hf. lia.
  - assert (0 <= Z.lor (Z.shiftl (u8 b1) 8) (u8 b0)).
    { apply Z.lor_nonneg. split; [apply Z.shiftl_nonneg|]; lia. }
    pose proof (field_bound (Z.lor (Z.shiftl (u8 b1) 8) (u8 b0)) 0x1e0 5
                  ltac:(lia) ltac:(lia) ltac:(lia)) as Hf.
    change (0x1e0 / 2 ^ 5) with 15 in Hf. lia.
  - pose proof (land_bound (u8 b0) 0x1f ltac:(lia) ltac:(lia)). lia.
  - apply int32_range.
  - intros Hb5. rewrite int32_small; [apply Z.lor_nonneg|].
    + split; [|lia]. apply Z.lor_nonneg. split.
      * apply Z.lor_nonneg. split; apply Z.shiftl_nonneg; apply u8_range.
      * apply Z.shiftl_nonneg, u8_range.
    + assert (0 <= Z.shiftl (u8 b5) 24 < 2 ^ 31).
      { rewrite Z.shiftl_mul_pow2 by lia. lia. }
      pose proof (shiftl_u8_bound b4 16 31 ltac:(lia) ltac:(lia)).
      pose proof (shiftl_u8_bound b3 8 31 ltac:(lia) ltac:(lia)).
      assert (0 <= u8 b2 < 2 ^ 31) by lia.
      repeat apply lor_bound; assumption.
Qed.

Lemma nth_month_chunk frame_in i k :
  0 <= i -> (k < 6)%nat ->
  19 + 6 * i + 6 <= Z.of_nat (length frame_in) ->
  nth k (month_chunk frame_in i) x00
  = nth (Z.to_nat (19 + 6 * i + Z.of_nat k)) frame_in x00.
Proof.
  intros Hi Hk Hlen. unfold month_chunk.
  rewrite !nth_lookup, lookup_take_lt, lookup_drop by assumption.
  do 2 f_equal. lia.
Qed.

Lemma month_chunk_bytes frame_in i :
  0 <= i ->
  19 + 6 * i + 6 <= Z.of_nat (length frame_in) ->
  let off := MBUS_FRAME_LONG_HDR_LEN + MBUS_RSPUD12_HDR_LEN + i * 6 in
  let at_ z := nth (Z.to_nat z) frame_in x00 in
  let c k := nth k (month_chunk frame_in i) x00 in
  at_ off = c 0%nat /\ at_ (off + 1) = c 1%nat /\ at_ (off + 2) = c 2%nat /\
  at_ (off + 3) = c 3%nat /\ at_ (off + 4) = c 4%nat /\ at_ (off + 5) = c 5%nat.
Proof.
  intros Hi Hlen off at_ c. subst off at_ c. cbv beta.
  unfold MBUS_FRAME_LONG_HDR_LEN, MBUS_RSPUD12_HDR_LEN.
  repeat split; rewrite nth_month_chunk by (assumption || lia);
    apply (f_equal (fun n => nth n frame_in x00)); lia.
Qed.

Lemma month_record_chunk frame_in i :
  0 <= i ->
  19 + 6 * i + 6 <= Z.of_nat (length frame_in) ->
  month_record frame_in i = Done (month_of_chunk (month_chunk frame_in i)).
Proof.
  intros Hi Hlen. unfold month_record, month_of_chunk.
  destruct (month_chunk_bytes frame_in i Hi Hlen)
    as (E0 & E1 & E2 & E3 & E4 & E5).
  cbv zeta in E0, E1, E2, E3, E4, E5.
  assert (Hoff : MBUS_FRAME_LONG_HDR_LEN + MBUS_RSPUD12_HDR_LEN + i * 6 = 19 + 6 * i)
    by (unfold MBUS_FRAME_LONG_HDR_LEN, MBUS_RSPUD12_HDR_LEN; lia).
  cbv zeta.
  repeat (rewrite rd_in_range by lia; cbn [mbind run_bind]).
  rewrite E0, E1, E2, E3, E4, E5. reflexivity.
Qed.

Lemma month_records_chunks n : forall frame_in i,
  0 <= i ->
  19 + 6 * (i + Z.of_nat n) <= Z.of_nat (length frame_in) ->
  month_records n frame_in i
  = Done ((fun k => month_of_chunk (month_chunk frame_in (i + Z.of_nat k)))
            <$> seq 0 n).
Proof.
  induction n as [|n IH]; intros frame_in i Hi Hlen; [reflexivity|].
  cbn [month_records].
  rewrite month_record_chunk by lia. cbn [mbind run_bind].
  rewrite IH by lia. cbn [mbind run_bind seq fmap list_fmap].
  rewrite Z.add_0_r. do 2 f_equal.
  rewrite <- fmap_S_seq, <- list_fmap_compose.
  apply list_fmap_ext. intros _ k _. cbn. do 2 f_equal. lia.
Qed.

(** A pass whose reply is accepted logs the 15 records of that reply and
    goes on to the next pass. *)
Lemma read_months_pass n i t frame_out frame_in acc frame_out1 r v :
  (if i =? 1 then wr frame_out (MBUS_FRAME_LONG_HDR_LEN + 1) x03
   else Done frame_out) = Done frame_out1 ->
  mbus_io t frame_out1 (Z.of_nat (length months_frame)) frame_in 256 = Done r ->
  0 <= io_ret r ->
  mbus_checklong (io_in r) (io_ret r) = Done v ->
  111 <= long_ret v ->
  exists lines,
    month_records 15 (io_in r) 0 = Done lines /\
    read_months_loop (S n) i t frame_out frame_in acc
    = read_months_loop n (i + 1) (io_port r) (io_out r) (io_in r) (acc ++ [lines]).
Proof.
  intros Hout Hio Hret Hv Hll.
  assert (Hrec : exists lines, month_records 15 (io_in r) 0 = Done lines).
  { destruct v as [e|ll h]; simpl in Hll; [lia|].
    pose proof Hv as Hacc. apply mbus_checklong_accepted in Hacc.
    destruct Hacc as (L & cs & _ & _ & _ & _ & _ & _ & _ & Hstop & _).
    apply rd_Done_lt in Hstop.
    eexists. apply month_records_chunks; lia. }
  destruct Hrec as [lines Hrec]. exists lines. split; [exact Hrec|].
  cbn [read_months_loop]. rewrite Hout. cbn [mbind run_bind].
  rewrite Hio. cbn [mbind run_bind].
  destruct (Z.ltb_spec (io_ret r) 0); [lia|].
  rewrite Hv. cbn [mbind run_bind].
  destruct (Z.ltb_spec (long_ret v) 111); [lia|].
  rewrite Hrec. reflexivity.
Qed.

(** C8, as the code has it. For every reply that [em_read_months] accepts
    (a long frame validated with a length of at least 111), the
    interpretation logs exactly 15 records; record [k] is read from the
    six bytes at offset [19 + 6 * k]; its year lies in [2000, 2127], its
    month in [0, 15] and its day in [0, 31], and its reading is not
    negative when the top byte of the reading is below [0x80]. *)
Theorem month_records_decoded (frame_in : list byte) (len : Z) (v : long_check) :
  mbus_checklong frame_in len = Done v ->
  111 <= long_ret v ->
  exists lines : list month_line,
    month_records 15 frame_in 0 = Done lines /\
    length lines = 15%nat /\
    forall k : nat, (k < 15)%nat ->
      exists line : month_line,
        lines !! k = Some line /\
        line = month_of_chunk (month_chunk frame_in (Z.of_nat k)) /\
        2000 <= m_year line <= 2127 /\
        0 <= m_month line <= 15 /\
        0 <= m_day line <= 31 /\
        - 2 ^ 31 <= m_reading line < 2 ^ 31 /\
        (u8 (nth 5 (month_chunk frame_in (Z.of_nat k)) x00) < 128 ->
         0 <= m_reading line).
Proof.
  intros Hv Hll. destruct v as [e|ll h]; simpl in Hll; [lia|].
  apply mbus_checklong_accepted in Hv.
  destruct Hv as (L & cs & _ & _ & _ & _ & _ & _ & _ & Hstop & _).
  apply rd_Done_lt in Hstop.
  eexists. split; [apply month_records_chunks; lia|].
  split; [rewrite length_fmap, length_seq; reflexivity|].
  intros k Hk. eexists. split.
  - rewrite list_lookup_fmap, lookup_seq_lt by assumption. reflexivity.
  - cbn [Nat.add]. rewrite Z.add_0_l. split; [reflexivity|].
    apply month_of_chunk_ranges.
Qed.

Lemma month_records_decoded_witness :
  let frame_in := zero_months_reply ++ repeat x00 145 in
  let v := LongAccepted 111
             {| mbus_c := x08; mbus_adr := x00; mbus_ci := x72;
                mbus_rsp := Some {| rsp_secadr := (x00, x00, x00, x00);
                                    rsp_manufacturer := (x00, x00);
                                    rsp_letters := (64, 64, 64);
                                    rsp_version := x00;
                                    rsp_medium := x00;
                                    rsp_accesscount := x00;
                                    rsp_state := x00;
                                    rsp_signature := (x00, x00) |} |} in
  mbus_checklong frame_in 111 = Done v /\
  111 <= long_ret v /\
  exists lines : list month_line,
    month_records 15 frame_in 0 = Done lines /\
    length lines = 15%nat /\
    forall k : nat, (k < 15)%nat ->
      exists line : month_line,
        lines !! k = Some line /\
        line = month_of_chunk (month_chunk frame_in (Z.of_nat k)) /\
        2000 <= m_year line <= 2127 /\
        0 <= m_month line <= 15 /\
        0 <= m_day line <= 31 /\
        - 2 ^ 31 <= m_reading line < 2 ^ 31 /\
        (u8 (nth 5 (month_chunk frame_in (Z.of_nat k)) x00) < 128 ->
         0 <= m_reading line).
Proof.
  intros frame_in v.
  assert (H1 : mbus_checklong frame_in 111 = Done v) by (vm_compute; reflexivity).
  assert (H2 : 111 <= long_ret v) by (simpl; lia).
  split; [exact H1|]. split; [exact H2|].
  exact (month_records_decoded frame_in 111 v H1 H2).
Defined.

(** C8, as stated, fails: a reply that [em_read_months] accepts decodes to
    records whose month and day are 0. *)
Lemma month_records_zero_reply :
  let frame_in := zero_months_reply ++ repeat x00 145 in
  (exists h, mbus_checklong frame_in 111 = Done (LongAccepted 111 h)) /\
  exists lines line,
    month_records 15 frame_in 0 = Done lines /\
    lines !! 0%nat = Some line /\
    m_month line = 0 /\ m_day line = 0 /\
    ~ (1 <= m_month line <= 12) /\ ~ (1 <= m_day line <= 31).
Proof.
  split.
  - eexists. vm_compute. reflexivity.
  - eexists _, _. split; [vm_compute; reflexivity|].
    split; [reflexivity|]. cbn. repeat split; lia.
Qed.

(** The reading is negative when its top byte has the high bit set. *)
Lemma month_reading_negative :
  m_reading (month_of_chunk [x21; x30; x00; x00; x00; x80]) = - 2 ^ 31.
Proof. vm_compute. reflexivity. Qed.

(** * Further properties of the frame codec *)

(** ** Acceptance by [mbus_checklong], both ways *)

Lemma mbus_checklong_accepted_iff data len ll h :
  mbus_checklong data len = Done (LongAccepted ll h) <->
  exists L cs : byte,
    9 <= len /\
    rd data 0 = Done x68 /\ rd data 3 = Done x68 /\
    rd data 1 = Done L /\ rd data 2 = Done L /\
    ll = (u8 L + 6) mod 256 /\ ll <= len /\
    rd data (ll - 1) = Done x16 /\
    mbus_cslong data ll = Done cs /\ rd data (ll - 2) = Done cs /\
    rd data 4 = Done (mbus_c h) /\
    rd data 5 = Done (mbus_adr h) /\
    rd data 6 = Done (mbus_ci h) /\
    rsp_logged data h.
Proof.
  split.
  - intros H. pose proof H as H'.
    apply mbus_checklong_accepted in H'.
    destruct H' as (L & cs & H1 & H2 & H3 & H4 & H5 & H6 & H7 & H8 & H9 & H10
                    & H11 & H12 & H13).
    exists L, cs. repeat (split; [assumption|]).
    unfold mbus_checklong in H.
    destruct (Z.ltb_spec len (MBUS_FRAME_LONG_HDR_LEN + MBUS_FRAME_FTR_LEN));
      [discriminate|].
    rewrite H2 in H. cbn [mbind run_bind] in H.
    change (negb (u8 x68 =? MBUS_FRAME_LONG_START)) with false in H. cbn iota in H.
    rewrite H3 in H. cbn [mbind run_bind] in H.
    change (negb (u8 x68 =? MBUS_FRAME_LONG_START)) with false in H. cbn iota in H.
    rewrite H4, H5 in H. cbn [mbind run_bind] in H.
    rewrite Z.eqb_refl in H. cbn [negb] in H.
    rewrite ll_of_length, <- H6 in H.
    destruct (Z.gtb_spec ll len); [discriminate|].
    rewrite H8 in H. cbn [mbind run_bind] in H.
    change (negb (u8 x16 =? MBUS_FRAME_STOP)) with false in H. cbn iota in H.
    rewrite H9 in H. cbn [mbind run_bind] in H.
    unfold MBUS_FRAME_FTR_LEN in H at 1. change (1 + 1) with 2 in H.
    rewrite H10 in H. cbn [mbind run_bind] in H.
    rewrite Z.eqb_refl in H. cbn [negb] in H.
    rewrite H11, H12, H13 in H. cbn [mbind run_bind] in H.
    unfold rsp_logged.
    destruct (u8 (mbus_ci h) =? MBUS_CI_RSPUD12).
    + apply bind_Done in H. destruct H as [rsp [Hrsp H]].
      apply bind_Done in Hrsp. destruct Hrsp as [r [Hr Hrsp]].
      injection Hrsp as <-. injection H as <-. eauto.
    + cbn [mbind run_bind] in H. injection H as <-. reflexivity.
  - intros (L & cs & H1 & H2 & H3 & H4 & H5 & H6 & H7 & H8 & H9 & H10
            & H11 & H12 & H13 & Hrsp).
    unfold mbus_checklong.
    destruct (Z.ltb_spec len (MBUS_FRAME_LONG_HDR_LEN + MBUS_FRAME_FTR_LEN)) as [Hlt|_];
      [unfold MBUS_FRAME_LONG_HDR_LEN, MBUS_FRAME_FTR_LEN in Hlt; lia|].
    rewrite H2. cbn [mbind run_bind].
    change (negb (u8 x68 =? MBUS_FRAME_LONG_START)) with false. cbn iota.
    rewrite H3. cbn [mbind run_bind].
    change (negb (u8 x68 =? MBUS_FRAME_LONG_START)) with false. cbn iota.
    rewrite H4, H5. cbn [mbind run_bind].
    rewrite Z.eqb_refl. cbn [negb].
    rewrite ll_of_length, <- H6.
    destruct (Z.gtb_spec ll len); [lia|].
    rewrite H8. cbn [mbind run_bind].
    change (negb (u8 x16 =? MBUS_FRAME_STOP)) with false. cbn iota.
    rewrite H9. cbn [mbind run_bind].
    unfold MBUS_FRAME_FTR_LEN at 1. change (1 + 1) with 2.
    rewrite H10. cbn [mbind run_bind].
    rewrite Z.eqb_refl. cbn [negb].
    rewrite H11, H12, H13. cbn [mbind run_bind].
    unfold rsp_logged in Hrsp.
    destruct (u8 (mbus_ci h) =? MBUS_CI_RSPUD12).
    + destruct Hrsp as (r & -> & Hr). cbn [mbind run_bind].
      destruct h; simpl in *. subst. reflexivity.
    + cbn [mbind run_bind]. destruct h; simpl in *. subst. reflexivity.
Qed.

(** X1. The length handed to [mbus_checklong] only has to cover the frame:
    a buffer accepted with [len] is accepted, with the same consumed length
    and header, with any other [len] of at least 9 that is not below the
    consumed length.  Bytes read beyond the frame are ignored. *)
Theorem mbus_checklong_any_len (data : list byte) (len len' ll : Z)
    (h : long_header) :
  mbus_checklong data len = Done (LongAccepted ll h) ->
  9 <= len' ->
  ll <= len' ->
  mbus_checklong data len' = Done (LongAccepted ll h).
Proof.
  intros H H9 Hll. apply mbus_checklong_accepted_iff in H.
  apply mbus_checklong_accepted_iff.
  destruct H as (L & cs & _ & H). exists L, cs. split; [assumption|].
  destruct H as (H2 & H3 & H4 & H5 & H6 & _ & H). 
  repeat (split; [assumption|]). exact H.
Qed.

Lemma mbus_checklong_any_len_witness :
  let h := {| mbus_c := x53; mbus_adr := xfe; mbus_ci := x51; mbus_rsp := None |} in
  mbus_checklong keyday_sent 14 = Done (LongAccepted 14 h) /\
  mbus_checklong keyday_sent 200 = Done (LongAccepted 14 h).
Proof.
  intros h.
  assert (H : mbus_checklong keyday_sent 14 = Done (LongAccepted 14 h))
    by (vm_compute; reflexivity).
  split; [exact H|].
  apply (mbus_checklong_any_len keyday_sent 14 200 14 h H); lia.
Defined.

(** ** Single-byte errors in a long frame are detected *)

Lemma rd_insert_eq data i b :
  0 <= i < Z.of_nat (length data) ->
  rd (<[Z.to_nat i := b]> data) i = Done b.
Proof.
  intros H. apply rd_Done. split; [lia|].
  apply list_lookup_insert_eq. lia.
Qed.

Lemma rd_insert_ne data i j b :
  0 <= i -> i <> j ->
  rd (<[Z.to_nat i := b]> data) j = rd data j.
Proof.
  intros Hi Hne. unfold rd. destruct (Z.ltb_spec j 0); [reflexivity|].
  rewrite list_lookup_insert_ne by lia. reflexivity.
Qed.

Lemma sum_at_insert_out frame i b n : forall lo,
  0 <= i -> 0 <= lo -> (i < lo \/ lo + Z.of_nat n <= i) ->
  sum_at (<[Z.to_nat i := b]> frame) (seqZ lo (Z.of_nat n))
  = sum_at frame (seqZ lo (Z.of_nat n)).
Proof.
  induction n as [|n IH]; intros lo Hi Hlo Hout.
  - rewrite seqZ_nil by lia. reflexivity.
  - rewrite (seqZ_cons lo) by lia. rewrite !sum_at_cons.
    replace (Z.pred (Z.of_nat (S n))) with (Z.of_nat n) by lia.
    rewrite IH by (unfold Z.succ; lia).
    rewrite !nth_lookup, list_lookup_insert_ne by lia. reflexivity.
Qed.

Lemma sum_at_insert_in frame i b n : forall lo,
  0 <= lo -> lo <= i < lo + Z.of_nat n ->
  i < Z.of_nat (length frame) ->
  sum_at (<[Z.to_nat i := b]> frame) (seqZ lo (Z.of_nat n))
  = sum_at frame (seqZ lo (Z.of_nat n)) + u8 b - u8 (nth (Z.to_nat i) frame x00).
Proof.
  induction n as [|n IH]; intros lo Hlo Hin Hlen; [lia|].
  rewrite (seqZ_cons lo) by lia. rewrite !sum_at_cons.
  replace (Z.pred (Z.of_nat (S n))) with (Z.of_nat n) by lia.
  destruct (Z.eq_dec lo i) as [->|Hne].
  - rewrite sum_at_insert_out by (unfold Z.succ; lia).
    rewrite (nth_lookup (<[_ := _]> _)), list_lookup_insert_eq by lia.
    simpl. lia.
  - rewrite IH by (unfold Z.succ; lia).
    rewrite (nth_lookup (<[_ := _]> _)), list_lookup_insert_ne by lia.
    rewrite <- nth_lookup. lia.
Qed.

Lemma byte_neq_u8 (a b : byte) : a <> b -> u8 a <> u8 b.
Proof. intros H E. apply H, u8_inj, E. Qed.

(** X2. Changing any single byte of an accepted long frame makes
    [mbus_checklong] reject the buffer, whichever byte it is: a start
    byte, a length byte, a byte under the checksum, the checksum itself or
    the stop byte. *)
Theorem mbus_checklong_detects_byte_error (data : list byte) (len ll i : Z)
    (h : long_header) (b : byte) :
  mbus_checklong data len = Done (LongAccepted ll h) ->
  0 <= i < ll ->
  rd data i <> Done b ->
  exists e : long_error,
    mbus_checklong (<[Z.to_nat i := b]> data) len = Done (LongRejected e).
Proof.
  intros Hacc Hi Hb.
  apply mbus_checklong_accepted in Hacc.
  destruct Hacc as (L & cs & Hlen & H0 & H3 & H1 & H2 & Hll & Hle & Hstop & Hcs
                    & Hchk & _).
  pose proof (rd_Done_lt _ _ _ Hstop) as Hcap.
  assert (Hin : 0 <= i < Z.of_nat (length data)) by lia.
  set (data' := <[Z.to_nat i := b]> data).
  assert (Hsame : forall j, j <> i -> rd data' j = rd data j).
  { intros j Hj. apply rd_insert_ne; lia. }
  assert (Hnew : rd data' i = Done b) by (apply rd_insert_eq; exact Hin).
  unfold mbus_checklong.
  destruct (Z.ltb_spec len (MBUS_FRAME_LONG_HDR_LEN + MBUS_FRAME_FTR_LEN)) as [Hlt|_];
    [unfold MBUS_FRAME_LONG_HDR_LEN, MBUS_FRAME_FTR_LEN in Hlt; lia|].
  (* the first start byte *)
  destruct (Z.eq_dec i 0) as [->|Hi0].
  { rewrite Hnew. cbn [mbind run_bind].
    assert (Hne : b <> x68) by congruence.
    apply byte_neq_u8 in Hne.
    destruct (Z.eqb_spec (u8 b) MBUS_FRAME_LONG_START) as [E|_]; [contradiction|].
    cbn [negb mbind run_bind]. eauto. }
  rewrite (Hsame 0), H0 by lia. cbn [mbind run_bind].
  change (negb (u8 x68 =? MBUS_FRAME_LONG_START)) with false. cbn iota.
  (* the second start byte *)
  destruct (Z.eq_dec i 3) as [->|Hi3].
  { rewrite Hnew. cbn [mbind run_bind].
    assert (Hne : b <> x68) by congruence.
    apply byte_neq_u8 in Hne.
    destruct (Z.eqb_spec (u8 b) MBUS_FRAME_LONG_START) as [E|_]; [contradiction|].
    cbn [negb mbind run_bind]. eauto. }
  rewrite (Hsame 3), H3 by lia. cbn [mbind run_bind].
  change (negb (u8 x68 =? MBUS_FRAME_LONG_START)) with false. cbn iota.
  (* the length bytes *)
  destruct (Z.eq_dec i 1) as [->|Hi1].
  { rewrite Hnew, (Hsame 2), H2 by lia. cbn [mbind run_bind].
    assert (Hne : b <> L) by congruence.
    apply byte_neq_u8 in Hne.
    destruct (Z.eqb_spec (u8 b) (u8 L)) as [E|_]; [contradiction|].
    cbn [negb]. eauto. }
  destruct (Z.eq_dec i 2) as [->|Hi2].
  { rewrite Hnew, (Hsame 1), H1 by lia. cbn [mbind run_bind].
    assert (Hne : b <> L) by congruence.
    apply byte_neq_u8 in Hne.
    destruct (Z.eqb_spec (u8 L) (u8 b)) as [E|_]; [symmetry in E; contradiction|].
    cbn [negb]. eauto. }
  rewrite (Hsame 1), (Hsame 2), H1, H2 by lia. cbn [mbind run_bind].
  rewrite Z.eqb_refl. cbn [negb].
  rewrite ll_of_length, <- Hll.
  destruct (Z.gtb_spec ll len); [lia|].
  (* the stop byte *)
  destruct (Z.eq_dec i (ll - 1)) as [Hil|Hil].
  { rewrite <- Hil, Hnew. cbn [mbind run_bind].
    assert (Hne : b <> x16) by (rewrite Hil in Hb; congruence).
    apply byte_neq_u8 in Hne.
    destruct (Z.eqb_spec (u8 b) MBUS_FRAME_STOP) as [E|_]; [contradiction|].
    cbn [negb]. eauto. }
  rewrite (Hsame (ll - 1)), Hstop by lia. cbn [mbind run_bind].
  change (negb (u8 x16 =? MBUS_FRAME_STOP)) with false. cbn iota.
  (* the checksum and what it covers *)
  pose proof (u8_range L) as HL.
  assert (Hll255 : ll <= 255).
  { rewrite Hll. pose proof (Z.mod_pos_bound (u8 L + 6) 256 ltac:(lia)). lia. }
  assert (Hmax : ll - 2 <= UINT_MAX) by (unfold UINT_MAX; lia).
  rewrite mbus_cslong_small in Hcs |- * by lia.
  rewrite cslong_loop_sum in Hcs |- *
    by (try (unfold data'; rewrite length_insert); lia).
  injection Hcs as Hcs.
  cbn [mbind run_bind].
  unfold MBUS_FRAME_FTR_LEN at 1. change (1 + 1) with 2.
  change (u8 x00) with 0. rewrite Z.add_0_l in Hcs |- *.
  destruct (Z.eq_dec i (ll - 2)) as [Hic|Hic].
  { rewrite <- Hic, Hnew. cbn [mbind run_bind].
    unfold data'. rewrite sum_at_insert_out by lia. rewrite Hcs.
    assert (Hne : cs <> b) by (rewrite Hic in Hb; congruence).
    apply byte_neq_u8 in Hne.
    destruct (Z.eqb_spec (u8 cs) (u8 b)) as [E|_]; [contradiction|].
    cbn [negb]. eauto. }
  rewrite (Hsame (ll - 2)), Hchk by lia. cbn [mbind run_bind].
  unfold data'. rewrite sum_at_insert_in by lia.
  assert (Hold : rd data i = Done (nth (Z.to_nat i) data x00))
    by (apply rd_in_range; exact Hin).
  assert (Hne : nth (Z.to_nat i) data x00 <> b) by congruence.
  apply byte_neq_u8 in Hne.
  pose proof (u8_range b). pose proof (u8_range (nth (Z.to_nat i) data x00)).
  assert (Hdiff : u8 (to_u8 (sum_at data (seqZ 4 (Z.of_nat (Z.to_nat (ll - 6))))
                             + u8 b - u8 (nth (Z.to_nat i) data x00)))
                  <> u8 cs).
  { rewrite <- Hcs, !u8_to_u8.
    intros E. apply Hne.
    set (s := sum_at data (seqZ 4 (Z.of_nat (Z.to_nat (ll - 6))))) in *.
    Z.div_mod_to_equations. lia. }
  destruct (Z.eqb_spec
              (u8 (to_u8 (sum_at data (seqZ 4 (Z.of_nat (Z.to_nat (ll - 6))))
                          + u8 b - u8 (nth (Z.to_nat i) data x00))))
              (u8 cs)) as [E|_]; [contradiction|].
  cbn [negb]. eauto.
Qed.

Lemma mbus_checklong_detects_byte_error_witness :
  exists e : long_error,
    mbus_checklong (<[Z.to_nat 9 := x01]> keyday_sent) 14 = Done (LongRejected e).
Proof.
  apply (mbus_checklong_detects_byte_error keyday_sent 14 14 9
           {| mbus_c := x53; mbus_adr := xfe; mbus_ci := x51; mbus_rsp := None |} x01).
  - vm_compute. reflexivity.
  - lia.
  - vm_compute. discriminate.
Defined.

(** ** An accepted buffer starts with the frame of its fields *)

Lemma take_plus_app {A} (a b : nat) : forall l : list A,
  take (a + b) l = take a l ++ take b (drop a l).
Proof.
  induction a as [|a IH]; intros l; [reflexivity|].
  destruct l as [|x l]; simpl.
  - rewrite take_nil. reflexivity.
  - f_equal. apply IH.
Qed.

Lemma take_drop_two {A} (l : list A) (n : nat) (x y : A) :
  l !! n = Some x -> l !! S n = Some y -> take 2 (drop n l) = [x; y].
Proof.
  intros Hx Hy.
  rewrite <- (Nat.add_0_r n), <- lookup_drop in Hx.
  replace (S n) with (n + 1)%nat in Hy by lia. rewrite <- lookup_drop in Hy.
  destruct (drop n l) as [|x' [|y' d]]; try discriminate.
  simpl in Hx, Hy. injection Hx as ->. injection Hy as ->. reflexivity.
Qed.

Lemma take_seven (l : list byte) (b0 b1 b2 b3 b4 b5 b6 : byte) :
  rd l 0 = Done b0 -> rd l 1 = Done b1 -> rd l 2 = Done b2 ->
  rd l 3 = Done b3 -> rd l 4 = Done b4 -> rd l 5 = Done b5 ->
  rd l 6 = Done b6 ->
  take 7 l = [b0; b1; b2; b3; b4; b5; b6].
Proof.
  intros H0 H1 H2 H3 H4 H5 H6.
  apply rd_Done in H0, H1, H2, H3, H4, H5, H6.
  destruct H0 as [_ H0], H1 as [_ H1], H2 as [_ H2], H3 as [_ H3],
           H4 as [_ H4], H5 as [_ H5], H6 as [_ H6].
  destruct l as [|a0 [|a1 [|a2 [|a3 [|a4 [|a5 [|a6 l]]]]]]]; try discriminate.
  vm_compute in H0, H1, H2, H3, H4, H5, H6. cbn [take]. rewrite take_0.
  congruence.
Qed.

(** X3. What [mbus_checklong] accepts is a built frame: when a buffer is
    accepted with a consumed length [ll] of at least 9, its first [ll]
    bytes are the long frame built from the control, address and control
    info that were logged and from the payload between them and the
    checksum, with the checksum [mbus_cslong] computes. *)
Theorem mbus_checklong_accepts_built_frame (data : list byte) (len ll : Z)
    (h : long_header) :
  mbus_checklong data len = Done (LongAccepted ll h) ->
  9 <= ll ->
  exists cs : byte,
    mbus_cslong data ll = Done cs /\
    Z.of_nat (length (long_payload data ll)) = ll - 9 /\
    take (Z.to_nat ll) data
    = long_frame_cs (mbus_c h) (mbus_adr h) (mbus_ci h) (long_payload data ll) cs.
Proof.
  intros Hacc H9.
  apply mbus_checklong_accepted in Hacc.
  destruct Hacc as (L & cs & Hlen & H0 & H3 & H1 & H2 & Hll & Hle & Hstop & Hcs
                    & Hchk & H4 & H5 & H6).
  pose proof (rd_Done_lt _ _ _ Hstop) as Hcap.
  pose proof (u8_range L) as HL.
  assert (HLll : u8 L = ll - 6).
  { destruct (Z.lt_ge_cases (u8 L + 6) 256) as [Hs|Hs].
    - rewrite Z.mod_small in Hll by lia. lia.
    - assert ((u8 L + 6) mod 256 = u8 L + 6 - 256); [|lia].
      symmetry. apply Z.mod_unique with 1; lia. }
  exists cs. split; [exact Hcs|].
  assert (Hpl : length (long_payload data ll) = Z.to_nat (ll - 9)).
  { unfold long_payload, MBUS_FRAME_LONG_HDR_LEN, MBUS_FRAME_FTR_LEN.
    rewrite length_take, length_drop. lia. }
  split; [lia|].
  unfold long_frame_cs. rewrite Hpl.
  replace (3 + Z.of_nat (Z.to_nat (ll - 9))) with (u8 L) by lia.
  rewrite to_u8_u8.
  replace (Z.to_nat ll) with (7 + (Z.to_nat (ll - 9) + 2))%nat by lia.
  rewrite take_plus_app, take_plus_app.
  rewrite (take_seven data _ _ _ _ _ _ _ H0 H1 H2 H3 H4 H5 H6).
  change (to_u8 MBUS_FRAME_LONG_START) with x68.
  f_equal. f_equal.
  - unfold long_payload, MBUS_FRAME_LONG_HDR_LEN, MBUS_FRAME_FTR_LEN.
    f_equal. lia.
  - rewrite drop_drop.
    apply rd_Done in Hchk, Hstop.
    destruct Hchk as [_ Hchk], Hstop as [_ Hstop].
    change (to_u8 MBUS_FRAME_STOP) with x16.
    apply take_drop_two.
    + rewrite <- Hchk. f_equal. lia.
    + rewrite <- Hstop. f_equal. lia.
Qed.

Lemma mbus_checklong_accepts_built_frame_witness :
  exists cs : byte,
    mbus_cslong keyday_sent 14 = Done cs /\
    Z.of_nat (length (long_payload keyday_sent 14)) = 14 - 9 /\
    take (Z.to_nat 14) keyday_sent
    = long_frame_cs x53 xfe x51 (long_payload keyday_sent 14) cs.
Proof.
  apply (mbus_checklong_accepts_built_frame keyday_sent 14 14
           {| mbus_c := x53; mbus_adr := xfe; mbus_ci := x51; mbus_rsp := None |}).
  - vm_compute. reflexivity.
  - lia.
Defined.

(** ** Short frames *)

Lemma mbus_checkshort_intro (data : list byte) (len : Z) (c a : byte) :
  5 <= len ->
  take 5 data = [x10; c; a; to_u8 (u8 c + u8 a); x16] ->
  mbus_checkshort data len = Done (ShortAccepted c a).
Proof.
  intros Hlen Htake. unfold mbus_checkshort.
  destruct (Z.ltb_spec len (MBUS_FRAME_SHORT_HDR_LEN + MBUS_FRAME_FTR_LEN))
    as [Hlt|_];
    [unfold MBUS_FRAME_SHORT_HDR_LEN, MBUS_FRAME_FTR_LEN in Hlt; lia|].
  destruct data as [|a0 [|a1 [|a2 [|a3 [|a4 l]]]]]; try discriminate.
  injection Htake as -> -> -> -> ->.
  set (data := x10 :: c :: a :: to_u8 (u8 c + u8 a) :: x16 :: l).
  change (rd data 0) with (Done x10).
  change (rd data (MBUS_FRAME_SHORT_HDR_LEN + MBUS_FRAME_FTR_LEN - 1))
    with (Done x16).
  change (rd data 1) with (Done c).
  change (rd data 2) with (Done a).
  change (rd data MBUS_FRAME_SHORT_HDR_LEN) with (Done (to_u8 (u8 c + u8 a))).
  cbn [mbind run_bind].
  change (negb (u8 x10 =? MBUS_FRAME_SHORT_START)) with false.
  change (negb (u8 x16 =? MBUS_FRAME_STOP)) with false.
  cbn iota. rewrite Z.eqb_refl. reflexivity.
Qed.

(** X4. [mbus_checkshort] accepts exactly the well-formed short frames:
    at least 5 bytes given, of which the first five are the start byte
    [0x10], the control and address bytes that are logged, their sum
    modulo 256 and the stop byte [0x16]. *)
Theorem mbus_checkshort_accepts_exactly (data : list byte) (len : Z) (c a : byte) :
  mbus_checkshort data len = Done (ShortAccepted c a) <->
  5 <= len /\ take 5 data = [x10; c; a; to_u8 (u8 c + u8 a); x16].
Proof.
  split; [|intros [Hlen Htake]; apply mbus_checkshort_intro; assumption].
  unfold mbus_checkshort. intros H.
  destruct (Z.ltb_spec len (MBUS_FRAME_SHORT_HDR_LEN + MBUS_FRAME_FTR_LEN))
    as [|Hlen]; [discriminate|].
  apply bind_Done in H. destruct H as [d0 [E0 H]].
  destruct (negb (u8 d0 =? MBUS_FRAME_SHORT_START)) eqn:C0; [discriminate|].
  apply bind_Done in H. destruct H as [stop [Es H]].
  destruct (negb (u8 stop =? MBUS_FRAME_STOP)) eqn:Cs; [discriminate|].
  apply bind_Done in H. destruct H as [d1 [E1 H]].
  apply bind_Done in H. destruct H as [d2 [E2 H]].
  apply bind_Done in H. destruct H as [chk [Ec H]].
  destruct (negb (u8 (to_u8 (u8 d1 + u8 d2)) =? u8 chk)) eqn:Cc; [discriminate|].
  injection H as <- <-.
  apply byte_eqb_u8 in C0, Cs. subst d0 stop.
  apply negb_false_iff, Z.eqb_eq, u8_inj in Cc. subst chk.
  unfold MBUS_FRAME_SHORT_HDR_LEN, MBUS_FRAME_FTR_LEN in *.
  split; [lia|].
  apply rd_Done in E0, Es, E1, E2, Ec.
  destruct E0 as [_ E0], Es as [_ Es], E1 as [_ E1], E2 as [_ E2], Ec as [_ Ec].
  destruct data as [|a0 [|a1 [|a2 [|a3 [|a4 l]]]]]; try discriminate.
  generalize dependent (to_u8 (u8 d1 + u8 d2)). intros s Ec.
  vm_compute in E0, Es, E1, E2, Ec. cbn [take]. rewrite take_0.
  congruence.
Qed.

(** X5. A short request always goes out with its checksum: for every
    control and address byte, and whatever is in the checksum slot,
    [mbus_io] on the five bytes [10 C A ?? 16] writes [10 C A (C+A) 16] and
    nothing else, and hands back what [serial_read] returns. *)
Theorem mbus_io_short_request (t : port) (c a slot : byte) (in_ : list byte)
    (inlen : Z) :
  let sent := [x10; c; a; to_u8 (u8 c + u8 a); x16] in
  mbus_io_prepare [x10; c; a; slot; x16] 5 = Done (true, sent) /\
  mbus_io t [x10; c; a; slot; x16] 5 in_ inlen
  = '(n, in', t') ← serial_read {| written := written t ++ [sent];
                                   incoming := incoming t |} in_ inlen;
    Done {| io_ret := n; io_out := sent; io_in := in'; io_port := t' |}.
Proof.
  intros sent.
  assert (Hp : mbus_io_prepare [x10; c; a; slot; x16] 5 = Done (true, sent)).
  { unfold mbus_io_prepare.
    change (5 =? MBUS_FRAME_SHORT_HDR_LEN + MBUS_FRAME_FTR_LEN) with true.
    cbn iota.
    change (rd [x10; c; a; slot; x16] 0) with (Done x10).
    change (rd [x10; c; a; slot; x16] 1) with (Done c).
    change (rd [x10; c; a; slot; x16] 2) with (Done a).
    cbn [mbind run_bind].
    change (u8 x10 =? MBUS_FRAME_SHORT_START) with true. cbn iota.
    change (wr [x10; c; a; slot; x16] (5 - MBUS_FRAME_FTR_LEN)
               (to_u8 (u8 c + u8 a))) with (Done sent).
    cbn [mbind run_bind].
    assert (Hv : mbus_checkshort sent 5 = Done (ShortAccepted c a)).
    { apply mbus_checkshort_intro; [lia | reflexivity]. }
    rewrite Hv. reflexivity. }
  split; [exact Hp|].
  unfold mbus_io. rewrite Hp. reflexivity.
Qed.

(** ** What [mbus_io] leaves behind *)

Lemma mbus_io_prepare_out out outlen ok out' :
  mbus_io_prepare out outlen = Done (ok, out') ->
  out' = out \/
  exists b, 0 <= outlen - 2 /\ out' = <[Z.to_nat (outlen - 2) := b]> out.
Proof.
  unfold mbus_io_prepare. intros H.
  apply bind_Done in H. destruct H as [is_short [_ H]].
  destruct is_short.
  - apply bind_Done in H. destruct H as [o1 [_ H]].
    apply bind_Done in H. destruct H as [o2 [_ H]].
    apply bind_Done in H. destruct H as [o [Hwr H]].
    apply bind_Done in H. destruct H as [v [_ H]].
    apply wr_Done in Hwr. destruct Hwr as [Hr ->].
    unfold MBUS_FRAME_FTR_LEN in *. change (1 + 1) with 2 in *.
    right. destruct (short_ret v =? 0); injection H as _ <-;
      eexists; (split; [lia | reflexivity]).
  - apply bind_Done in H. destruct H as [is_long [_ H]].
    destruct is_long; [|injection H as _ <-; left; reflexivity].
    apply bind_Done in H. destruct H as [cs [_ H]].
    apply bind_Done in H. destruct H as [o [Hwr H]].
    apply bind_Done in H. destruct H as [v [_ H]].
    apply wr_Done in Hwr. destruct Hwr as [Hr ->].
    unfold MBUS_FRAME_FTR_LEN in *. change (1 + 1) with 2 in *.
    right. destruct (long_ret v =? 0); injection H as _ <-;
      eexists; (split; [lia | reflexivity]).
Qed.

Lemma serial_read_inv t data maxbytes n data' t' :
  serial_read t data maxbytes = Done (n, data', t') ->
  written t' = written t /\
  let got := take (Z.to_nat maxbytes) (hd [] (incoming t)) in
  (got = [] /\ n = - EIO /\ data' = data) \/
  (got <> [] /\ n = Z.of_nat (length got) /\
   (length got <= length data)%nat /\
   data' = got ++ drop (length got) data).
Proof.
  unfold serial_read. intros H.
  destruct (incoming t) as [|burst later]; cbn [hd].
  - injection H as <- <- <-. rewrite take_nil. split; [reflexivity|]. left. auto.
  - destruct (take (Z.to_nat maxbytes) burst) as [|b got] eqn:Eg.
    + injection H as <- <- <-. split; [reflexivity|]. left. auto.
    + destruct (Z.leb_spec (Z.of_nat (length (b :: got))) (Z.of_nat (length data)));
        [|discriminate].
      injection H as <- <- <-. split; [reflexivity|]. right.
      split; [discriminate|]. split; [reflexivity|]. split; [lia | reflexivity].
Qed.

Lemma mbus_io_inv t out outlen in_ inlen r :
  mbus_io t out outlen in_ inlen = Done r ->
  exists ok out',
    mbus_io_prepare out outlen = Done (ok, out') /\ io_out r = out' /\
    if ok : bool
    then exists t1,
        serial_write t out' outlen = Done t1 /\
        serial_read t1 in_ inlen = Done (io_ret r, io_in r, io_port r)
    else io_ret r = - EPROTO /\ io_in r = in_ /\ io_port r = t.
Proof.
  unfold mbus_io. intros H.
  apply bind_Done in H. destruct H as [[ok out'] [Hp H]].
  exists ok, out'. split; [exact Hp|].
  destruct ok.
  - apply bind_Done in H. destruct H as [t1 [Hw H]].
    apply bind_Done in H. destruct H as [[[n in'] t2] [Hr H]].
    injection H as <-. cbn. split; [reflexivity|]. eauto.
  - injection H as <-. cbn. auto.
Qed.

(** X6. [mbus_io] changes nothing of the caller's frame but its checksum
    byte: after the call [out] has its length, and every byte other than
    the one at [outlen - 2] is as it was. *)
Theorem mbus_io_keeps_frame (t : port) (out : list byte) (outlen : Z)
    (in_ : list byte) (inlen : Z) (r : io_result) :
  mbus_io t out outlen in_ inlen = Done r ->
  length (io_out r) = length out /\
  forall j, j <> outlen - 2 -> rd (io_out r) j = rd out j.
Proof.
  intros H. apply mbus_io_inv in H.
  destruct H as (ok & out' & Hp & -> & _).
  split; [eapply mbus_io_prepare_length, Hp|].
  intros j Hj. apply mbus_io_prepare_out in Hp.
  destruct Hp as [->|(b & H0 & ->)]; [reflexivity|].
  apply rd_insert_ne; lia.
Qed.

Lemma mbus_io_keeps_frame_witness :
  let r := {| io_ret := 1; io_out := keyday_sent; io_in := xe5 :: repeat x00 7;
              io_port := {| written := [keyday_sent]; incoming := [] |} |} in
  length (io_out r) = length keyday_frame /\
  forall j, j <> 14 - 2 -> rd (io_out r) j = rd keyday_frame j.
Proof.
  intros r.
  apply (mbus_io_keeps_frame {| written := []; incoming := [[xe5]] |}
           keyday_frame 14 (repeat x00 8) 8 r).
  vm_compute. reflexivity.
Defined.

(** X7. What [mbus_io] returns and stores, on any run that returns.  It
    is [-EPROTO] with the line and [in] untouched when the frame is
    refused; otherwise the frame is written and the result is [-EIO] with
    [in] untouched when no byte came, or the number of bytes received,
    between 1 and [inlen], which then are the first bytes of [in], the rest
    of [in] being left as it was.  The result is never 0. *)
Theorem mbus_io_result (t : port) (out : list byte) (outlen : Z)
    (in_ : list byte) (inlen : Z) (r : io_result) :
  mbus_io t out outlen in_ inlen = Done r ->
  let got := take (Z.to_nat inlen) (hd [] (incoming t)) in
  (io_ret r = - EPROTO /\ io_in r = in_ /\ io_port r = t) \/
  (written (io_port r) = written t ++ [take (Z.to_nat outlen) (io_out r)] /\
   ((got = [] /\ io_ret r = - EIO /\ io_in r = in_) \/
    (got <> [] /\ io_ret r = Z.of_nat (length got) /\
     1 <= io_ret r <= inlen /\
     io_in r = got ++ drop (length got) in_))).
Proof.
  intros H got. apply mbus_io_inv in H.
  destruct H as (ok & out' & Hp & Hout & H).
  destruct ok; [|left; exact H]. right.
  destruct H as (t1 & Hw & Hr).
  unfold serial_write in Hw.
  destruct (_ && _); [|discriminate]. injection Hw as <-.
  apply serial_read_inv in Hr. cbn [written incoming] in Hr.
  destruct Hr as [Hwr Hr]. rewrite Hout. split; [exact Hwr|].
  fold got in Hr.
  destruct Hr as [Hr|(Hne & Hn & Hcap & Hin)]; [left; exact Hr|].
  right. split; [exact Hne|]. split; [exact Hn|]. split; [|exact Hin].
  rewrite Hn. split.
  - destruct got; [congruence | simpl; lia].
  - unfold got. rewrite length_take.
    destruct (Z.le_gt_cases 0 inlen); [lia|].
    exfalso. apply Hne. unfold got.
    replace (Z.to_nat inlen) with 0%nat by lia. apply take_0.
Qed.

Lemma mbus_io_result_witness :
  let t := {| written := []; incoming := [[xe5; x01]] |} in
  let r := {| io_ret := 2; io_out := keyday_sent;
              io_in := [xe5; x01] ++ repeat x00 6;
              io_port := {| written := [keyday_sent]; incoming := [] |} |} in
  let got := take (Z.to_nat 8) (hd [] (incoming t)) in
  (io_ret r = - EPROTO /\ io_in r = repeat x00 8 /\ io_port r = t) \/
  (written (io_port r) = written t ++ [take (Z.to_nat 14) (io_out r)] /\
   ((got = [] /\ io_ret r = - EIO /\ io_in r = repeat x00 8) \/
    (got <> [] /\ io_ret r = Z.of_nat (length got) /\
     1 <= io_ret r <= 8 /\
     io_in r = got ++ drop (length got) (repeat x00 8)))).
Proof.
  intros t r.
  apply (mbus_io_result t keyday_frame 14 (repeat x00 8) 8 r).
  vm_compute. reflexivity.
Defined.

(** ** The shape of a decoded record *)

Lemma raw_bytes_take frame_in d raw :
  0 <= d ->
  (forall k, (k < length raw)%nat ->
     rd frame_in (d + Z.of_nat k) = Done (nth k raw x00)) ->
  raw = take (length raw) (drop (Z.to_nat d) frame_in).
Proof.
  intros Hd Hnth. apply list_eq. intros k.
  destruct (Nat.lt_ge_cases k (length raw)) as [Hk|Hk].
  - rewrite lookup_take_lt, lookup_drop by exact Hk.
    specialize (Hnth k Hk). apply rd_Done in Hnth. destruct Hnth as [_ Hnth].
    replace (Z.to_nat d + k)%nat with (Z.to_nat (d + Z.of_nat k)) by lia.
    rewrite Hnth.
    destruct (lookup_lt_is_Some_2 raw k Hk) as [x Hx].
    rewrite Hx. f_equal. symmetry. now apply nth_lookup_Some.
  - rewrite lookup_take_ge by exact Hk. apply lookup_ge_None_2. exact Hk.
Qed.

(** X8. The layout of a record that the decoding loop logs.  Its data
    format is at most 7 and its raw bytes are as many as the table [ldb]
    gives for it; they are the bytes of the buffer that end where the
    cursor goes next, after the DIF, the VIF and one more byte for each
    extension bit set; its storage number is at most 31. *)
Theorem record_step_layout (frame_in : list byte) (p i : Z) (line : rec_line)
    (p' : Z) :
  record_step frame_in p i = Done (RecLogged line p') ->
  let df := Z.land (u8 (rec_dif line)) 0xf in
  let ext (o : option byte) := match o with Some _ => 1 | None => 0 end in
  rec_i line = i /\
  rd frame_in p = Done (rec_dif line) /\
  df <= 7 /\
  Z.of_nat (length (rec_raw line)) = nth (Z.to_nat df) ldb 0 /\
  p' = p + 2 + ext (rec_dife line) + ext (rec_vife line)
       + Z.of_nat (length (rec_raw line)) /\
  rec_raw line
  = take (length (rec_raw line))
         (drop (Z.to_nat (p' - Z.of_nat (length (rec_raw line)))) frame_in) /\
  0 <= rec_sn line <= 31.
Proof.
  intros H. apply record_step_logged in H.
  destruct H as (v0 & dife & vife & b7 & H). cbv zeta in H |- *.
  destruct H as (Hdif & Hv0 & Hdife & Hvif & Hdf & Hi & Hde & Hve & Hsn & Hraw
                 & _ & _ & Hp').
  set (dif := rec_dif line) in *.
  pose proof (u8_range dif) as Hr. pose proof (u8_range dife) as Hre.
  pose proof (rd_Done_lt _ _ _ Hdif) as Hp.
  pose proof (land_bound (u8 dif) 0xf ltac:(lia) ltac:(lia)) as Hdf0.
  set (l := nth (Z.to_nat (Z.land (u8 dif) 0xf)) ldb 0) in *.
  assert (Hl : 0 <= l <= 8) by (apply ldb_bound; lia).
  pose proof (ext_bit dif) as He1. pose proof (ext_bit v0) as He2.
  apply rd_raw_Done in Hraw. destruct Hraw as (Hlen & _ & Hnth).
  split; [exact Hi|]. split; [exact Hdif|]. split; [exact Hdf|].
  split; [lia|].
  assert (Hsn' : 0 <= rec_sn line <= 31).
  { rewrite Hsn.
    pose proof (field_bound (u8 dif) 0x40 6 ltac:(lia) ltac:(lia) ltac:(lia)) as Hs.
    change (0x40 / 2 ^ 6) with 1 in Hs.
    pose proof (land_bound (u8 dife) 0xf ltac:(lia) ltac:(lia)) as He.
    destruct (_ =? 0); [lia|].
    assert (0 <= Z.lor (Z.shiftr (Z.land (u8 dif) 0x40) 6)
                       (Z.shiftl (Z.land (u8 dife) 0xf) 1) < 2 ^ 5); [|lia].
    apply lor_bound; [lia|].
    rewrite Z.shiftl_mul_pow2 by lia. lia. }
  split; [|split; [|exact Hsn']].
  - rewrite Hde, Hve, Hp'.
    destruct He1 as [-> | ->], He2 as [-> | ->];
      change (0 =? 0) with true; change (1 =? 0) with false; cbn iota beta; lia.
  - replace (p' - Z.of_nat (length (rec_raw line)))
      with (p + 1 + Z.shiftr (Z.land (u8 dif) 0x80) 7 + 1
            + Z.shiftr (Z.land (u8 v0) 0x80) 7) by lia.
    apply raw_bytes_take; [lia|].
    intros k Hk. apply Hnth. lia.
Qed.

Lemma record_step_layout_witness :
  let line := {| rec_i := 0; rec_dif := x04; rec_dife := None;
                 rec_vif := x13; rec_vife := None; rec_sn := 0;
                 rec_raw := [x78; x56; x34; x12];
                 rec_val := ValInt 305419896 |} in
  let df := Z.land (u8 (rec_dif line)) 0xf in
  let ext (o : option byte) := match o with Some _ => 1 | None => 0 end in
  rec_i line = 0 /\
  rd volume_record 0 = Done (rec_dif line) /\
  df <= 7 /\
  Z.of_nat (length (rec_raw line)) = nth (Z.to_nat df) ldb 0 /\
  6 = 0 + 2 + ext (rec_dife line) + ext (rec_vife line)
      + Z.of_nat (length (rec_raw line)) /\
  rec_raw line
  = take (length (rec_raw line))
         (drop (Z.to_nat (6 - Z.of_nat (length (rec_raw line)))) volume_record) /\
  0 <= rec_sn line <= 31.
Proof.
  intros line.
  apply (record_step_layout volume_record 0 0 line 6).
  vm_compute. reflexivity.
Defined.

(** ** The lines of a run of [em_read_info] *)

Lemma record_step_number frame_in p i line p' :
  record_step frame_in p i = Done (RecLogged line p') -> rec_i line = i.
Proof.
  intros H. apply record_step_logged in H.
  destruct H as (v0 & dife & vife & b7 & H). cbv zeta in H.
  destruct H as (_ & _ & _ & _ & _ & Hi & _). exact Hi.
Qed.

(** The lines of a run of the loop are numbered from [i] on, and after the
    first there is room for one line for every two bytes up to 255. *)
Lemma records_loop_lines fuel : forall frame_in p i lines,
  records_loop fuel frame_in p i = Done lines ->
  (forall k line, lines !! k = Some line -> rec_i line = i + Z.of_nat k) /\
  ((length lines <= 1)%nat \/ 2 * Z.of_nat (length lines) <= 257 - p).
Proof.
  induction fuel as [|fuel IH]; intros frame_in p i lines H; [discriminate|].
  cbn [records_loop] in H.
  apply bind_Done in H. destruct H as [[|line p'] [Hstep H]].
  - injection H as <-. split; [intros k line Hk; discriminate | left; simpl; lia].
  - apply bind_Done in H. destruct H as [l1 [Hl1 H]].
    pose proof (record_step_advance _ _ _ _ _ Hstep) as Hadv.
    pose proof (record_step_number _ _ _ _ _ Hstep) as Hi.
    destruct (Z.gtb_spec p' (u8 l1)) as [Hgt|Hle].
    + injection H as <-. split.
      * intros [|k] line' Hk; [|discriminate].
        injection Hk as <-. simpl. lia.
      * left. simpl. lia.
    + apply bind_Done in H. destruct H as [rest [Hrest H]].
      injection H as <-.
      apply IH in Hrest. destruct Hrest as [Hnum Hcount].
      pose proof (u8_range l1). split.
      * intros [|k] line' Hk.
        -- injection Hk as <-. simpl. lia.
        -- simpl in Hk. apply Hnum in Hk. lia.
      * cbn [length]. destruct Hcount as [Hc|Hc]; [|right; lia].
        destruct rest as [|r1 [|r2 rest]]; simpl in *; [left; lia | right; lia | lia].
Qed.

Lemma info_frame_prepared :
  mbus_io_prepare info_frame (Z.of_nat (length info_frame)) = Done (true, info_sent).
Proof. vm_compute. reflexivity. Qed.

(** X9. The record lines of [em_read_info]: whatever the reply, a run
    logs at most 119 lines, and the line at position [k] carries the
    number [k]. *)
Theorem em_read_info_lines (t : port) (frame_in0 : list byte) (ret : Z)
    (lines : list rec_line) (t' : port) :
  em_read_info t frame_in0 = Done (ret, lines, t') ->
  (length lines <= 119)%nat /\
  forall k line, lines !! k = Some line -> rec_i line = Z.of_nat k.
Proof.
  unfold em_read_info. intros H.
  apply bind_Done in H. destruct H as [r [_ H]].
  destruct (io_ret r <? 0).
  { injection H as _ <- _. split; [simpl; lia | intros k line Hk; discriminate]. }
  apply bind_Done in H. destruct H as [v [_ H]].
  destruct (long_ret v <? 71).
  { injection H as _ <- _. split; [simpl; lia | intros k line Hk; discriminate]. }
  apply bind_Done in H. destruct H as [ls [Hls H]].
  injection H as _ <- _.
  apply records_loop_lines in Hls. destruct Hls as [Hnum Hcount].
  unfold MBUS_FRAME_LONG_HDR_LEN, MBUS_RSPUD12_HDR_LEN in Hcount.
  split; [lia|]. intros k line Hk. apply Hnum in Hk. lia.
Qed.

Lemma em_read_info_lines_witness :
  let lines := [ {| rec_i := 0; rec_dif := x01; rec_dife := None;
                    rec_vif := x13; rec_vife := None; rec_sn := 0;
                    rec_raw := [x2a]; rec_val := ValNone |} ] in
  (length lines <= 119)%nat /\
  forall k line, lines !! k = Some line -> rec_i line = Z.of_nat k.
Proof.
  intros lines.
  apply (em_read_info_lines
           {| written := []; incoming := [unsupported_info_reply] |}
           (repeat x00 256) 0 lines
           {| written := [info_sent]; incoming := [] |}).
  vm_compute. reflexivity.
Defined.

(** X10. The outcomes of [em_read_info].  On every run that returns the
    request [10 7B FE 79 16] has been written, once.  The result is 0 only
    if the reply was accepted by [mbus_checklong] with a length of at least
    71; it is [EIO] when no byte came and [EPROTO] when the reply was not
    so accepted, and in both cases no record is logged. *)
Theorem em_read_info_outcome (t : port) (frame_in0 : list byte) (ret : Z)
    (lines : list rec_line) (t' : port) :
  em_read_info t frame_in0 = Done (ret, lines, t') ->
  written t' = written t ++ [info_sent] /\
  ((ret = EIO /\ lines = [] /\ take 256 (hd [] (incoming t)) = []) \/
   (ret = EPROTO /\ lines = [] /\ take 256 (hd [] (incoming t)) <> []) \/
   (ret = 0 /\
    exists r ll h,
      mbus_io t info_frame 5 frame_in0 256 = Done r /\
      mbus_checklong (io_in r) (io_ret r) = Done (LongAccepted ll h) /\
      71 <= ll)).
Proof.
  unfold em_read_info. intros H.
  apply bind_Done in H. destruct H as [r [Hio H]].
  pose proof Hio as Hinv. apply mbus_io_inv in Hinv.
  destruct Hinv as (ok & out' & Hp & _ & Hinv).
  rewrite info_frame_prepared in Hp. injection Hp as <- <-.
  destruct Hinv as (t1 & Hw & Hr).
  change (serial_write t info_sent (Z.of_nat (length info_frame)))
    with (Done {| written := written t ++ [info_sent]; incoming := incoming t |})
    in Hw.
  injection Hw as <-.
  apply serial_read_inv in Hr. cbn [written incoming] in Hr.
  destruct Hr as [Hwr Hr]. change (Z.to_nat 256) with 256%nat in Hr.
  destruct (Z.ltb_spec (io_ret r) 0) as [Hneg|Hpos].
  { injection H as <- <- <-. split; [exact Hwr|]. left.
    destruct Hr as [(Hg & Hn & _)|(Hg & Hn & _)]; [|lia].
    rewrite Hn. auto. }
  assert (Hgot : take 256 (hd [] (incoming t)) <> []).
  { destruct Hr as [(Hg & Hn & _)|(Hg & _)]; [|exact Hg].
    rewrite Hn in Hpos. unfold EIO in Hpos. lia. }
  apply bind_Done in H. destruct H as [v [Hv H]].
  destruct (Z.ltb_spec (long_ret v) 71) as [Hlt|Hge].
  { injection H as <- <- <-. split; [exact Hwr|]. right. left. auto. }
  apply bind_Done in H. destruct H as [ls [_ H]].
  injection H as <- <- <-. split; [exact Hwr|]. right. right.
  split; [reflexivity|].
  destruct v as [e|ll h]; [simpl in Hge; lia|].
  exists r, ll, h. auto.
Qed.

Lemma em_read_info_outcome_witness :
  let t := {| written := []; incoming := [[xe5]] |} in
  let t' := {| written := [info_sent]; incoming := [] |} in
  written t' = written t ++ [info_sent] /\
  ((EPROTO = EIO /\ @nil rec_line = [] /\ take 256 (hd [] (incoming t)) = []) \/
   (EPROTO = EPROTO /\ @nil rec_line = [] /\ take 256 (hd [] (incoming t)) <> []) \/
   (EPROTO = 0 /\
    exists r ll h,
      mbus_io t info_frame 5 (repeat x00 256) 256 = Done r /\
      mbus_checklong (io_in r) (io_ret r) = Done (LongAccepted ll h) /\
      71 <= ll)).
Proof.
  intros t t'.
  apply (em_read_info_outcome t (repeat x00 256) EPROTO [] t').
  vm_compute. reflexivity.
Defined.

(** * Bit strings *)

Lemma land_bit v k :
  0 <= k -> (Z.land v (Z.shiftl 1 k) =? 0) = negb (Z.testbit v k).
Proof.
  intros Hk. rewrite Z.shiftl_1_l.
  destruct (Z.testbit v k) eqn:E; cbn [negb].
  - apply Z.eqb_neq. intros H0.
    assert (H : Z.testbit (Z.land v (2 ^ k)) k = true).
    { rewrite Z.land_spec, E, Z.pow2_bits_true by lia. reflexivity. }
    rewrite H0, Z.bits_0 in H. discriminate.
  - apply Z.eqb_eq. apply Z.bits_inj'. intros n Hn.
    rewrite Z.land_spec, Z.bits_0, Z.pow2_bits_eqb by lia.
    destruct (Z.eqb_spec k n); [subst; rewrite E; reflexivity | apply andb_false_r].
Qed.

Lemma bit_mask_small k :
  0 <= k <= 30 -> ulong_of_int (Z.shiftl 1 k) = Z.shiftl 1 k.
Proof.
  intros Hk. rewrite Z.shiftl_1_l. unfold ulong_of_int.
  assert (0 < 2 ^ k) by (apply Z.pow_pos_nonneg; lia).
  assert (2 ^ k < 2 ^ 31) by (apply Z.pow_lt_mono_r; lia).
  rewrite int32_small by lia.
  apply Z.mod_small. change (2 ^ 64) with (2 ^ 31 * 2 ^ 33). nia.
Qed.

Lemma binary_digits len v : binary len v = digit len v <$> seq 0 len.
Proof. reflexivity. Qed.

Lemma binary_length len v : length (binary len v) = len.
Proof. unfold binary. rewrite length_fmap, length_seq. reflexivity. Qed.

Lemma binary_ext len a b :
  a mod 2 ^ Z.of_nat len = b mod 2 ^ Z.of_nat len -> binary len a = binary len b.
Proof.
  intros H. unfold binary. apply list_fmap_ext. intros k i Hi.
  apply lookup_seq in Hi. destruct Hi as [-> Hlt]. cbn [plus]. unfold digit.
  rewrite <- (Z.mod_pow2_bits_low a (Z.of_nat len)) by lia.
  rewrite <- (Z.mod_pow2_bits_low b (Z.of_nat len)) by lia.
  rewrite H. reflexivity.
Qed.

Lemma bitprint_loop_Done n : forall data val len i,
  0 <= i -> i + Z.of_nat n = len -> len <= 31 -> len <= Z.of_nat (length data) ->
  bitprint_loop n data val len i
  = Done (take (Z.to_nat i) data
          ++ (digit (Z.to_nat len) val <$> seq (Z.to_nat i) n)
          ++ drop (Z.to_nat len) data).
Proof.
  induction n as [|n IH]; intros data val len i Hi Hn Hlen Hdata.
  - cbn [bitprint_loop seq fmap list_fmap app].
    replace len with i by lia. rewrite take_drop. reflexivity.
  - cbn [bitprint_loop].
    destruct (Z.leb_spec 32 (len - i - 1)) as [Hge|_]; [lia|].
    rewrite bit_mask_small, land_bit by lia.
    set (c := if negb (Z.testbit val (len - i - 1)) then x30 else x31).
    assert (Hc : c = digit (Z.to_nat len) val (Z.to_nat i)).
    { unfold c, digit.
      replace (Z.of_nat (Z.to_nat len - 1 - Z.to_nat i)) with (len - i - 1) by lia.
      destruct (Z.testbit val (len - i - 1)); reflexivity. }
    assert (Hwr : wr data i c = Done (<[Z.to_nat i := c]> data)).
    { apply wr_Done. split; [lia | reflexivity]. }
    rewrite Hwr. cbn [mbind run_bind].
    rewrite IH by (rewrite ?length_insert; lia).
    f_equal.
    replace (Z.to_nat (i + 1)) with (S (Z.to_nat i)) by lia.
    rewrite (take_S_r _ _ c) by (apply list_lookup_insert_eq; lia).
    rewrite take_insert_ge by lia.
    rewrite drop_insert_lt by lia.
    cbn [seq fmap list_fmap]. rewrite <- Hc, <- app_assoc. reflexivity.
Qed.

Lemma bitprint_Done data val len :
  0 <= len <= 31 -> len < Z.of_nat (length data) ->
  bitprint data val len
  = Done (binary (Z.to_nat len) val ++ x00 :: drop (Z.to_nat (len + 1)) data).
Proof.
  intros Hlen Hdata. unfold bitprint.
  rewrite (bitprint_loop_Done (Z.to_nat len) data val len 0) by lia.
  cbn [mbind run_bind].
  change (Z.to_nat 0) with 0%nat. rewrite take_0. cbn [app].
  rewrite <- binary_digits.
  set (s := binary (Z.to_nat len) val).
  assert (Hs : length s = Z.to_nat len) by apply binary_length.
  assert (Hwr : wr (s ++ drop (Z.to_nat len) data) len x00
                = Done (<[Z.to_nat len := x00]> (s ++ drop (Z.to_nat len) data))).
  { apply wr_Done. split; [|reflexivity].
    rewrite length_app, length_drop. lia. }
  rewrite Hwr. f_equal.
  rewrite insert_app_r_alt by lia.
  replace (Z.to_nat len - length s)%nat with 0%nat by lia.
  f_equal.
  destruct (drop (Z.to_nat len) data) as [|b rest] eqn:E.
  { apply (f_equal length) in E. rewrite length_drop in E. cbn in E. lia. }
  cbn [insert list_insert]. f_equal.
  replace (Z.to_nat (len + 1)) with (Z.to_nat len + 1)%nat by lia.
  rewrite <- drop_drop, E. reflexivity.
Qed.

Lemma c_string_app s rest :
  Forall (fun b => u8 b <> 0) s -> c_string (s ++ x00 :: rest) = Done s.
Proof.
  induction 1 as [|b s Hb _ IH]; cbn [app c_string].
  - reflexivity.
  - destruct (Z.eqb_spec (u8 b) 0); [contradiction|].
    rewrite IH. reflexivity.
Qed.

Lemma binary_nonzero len v : Forall (fun b => u8 b <> 0) (binary len v).
Proof.
  unfold binary. apply Forall_fmap, Forall_forall. intros i _. cbn. unfold digit.
  destruct (Z.testbit v (Z.of_nat (len - 1 - i))); discriminate.
Qed.

Lemma bitprint_string data val len :
  0 <= len <= 31 -> len < Z.of_nat (length data) ->
  exists data',
    bitprint data val len = Done data' /\
    length data' = length data /\
    c_string data' = Done (binary (Z.to_nat len) val).
Proof.
  intros Hlen Hdata. eexists. split; [apply bitprint_Done; assumption|]. split.
  - rewrite length_app, binary_length. cbn [length]. rewrite length_drop. lia.
  - apply c_string_app, binary_nonzero.
Qed.

(** X11. [bitprint] writes the [len] low bits of [val], the highest
    first, as the characters ['1'] and ['0'], then a 0 byte, and leaves
    the rest of the array as it was; the string it returns is these [len]
    characters.  This holds for every [len] up to 31 that leaves room for
    the 0 byte. *)
Theorem bitprint_binary (data : list byte) (val len : Z) :
  0 <= len <= 31 -> len < Z.of_nat (length data) ->
  exists data',
    bitprint data val len = Done data' /\
    data' = binary (Z.to_nat len) val ++ x00 :: drop (Z.to_nat (len + 1)) data /\
    length data' = length data /\
    c_string data' = Done (binary (Z.to_nat len) val).
Proof.
  intros Hlen Hdata. eexists. split; [apply bitprint_Done; assumption|].
  split; [reflexivity|]. split.
  - rewrite length_app, binary_length. cbn [length]. rewrite length_drop. lia.
  - apply c_string_app, binary_nonzero.
Qed.

Lemma bitprint_binary_witness :
  exists data',
    bitprint (repeat xff 8) 5 4 = Done data' /\
    data' = [x30; x31; x30; x31; x00; xff; xff; xff] /\
    length data' = 8%nat /\
    c_string data' = Done [x30; x31; x30; x31].
Proof.
  exact (bitprint_binary (repeat xff 8) 5 4 ltac:(lia) ltac:(cbn; lia)).
Defined.

(** X12. [bitprint] has no defined result for more than 32 bits, where
    [1 << (len - i - 1)] shifts an [int] by 32 or more, nor when the array
    has no room for the [len] characters and the 0 byte. *)
Theorem bitprint_undefined (data : list byte) (val len : Z) :
  0 <= len -> 33 <= len \/ Z.of_nat (length data) <= len ->
  bitprint data val len = Undefined.
Proof.
  intros H0 H.
  destruct (Z.le_gt_cases 33 len) as [H33|H32].
  { unfold bitprint. destruct (Z.to_nat len) as [|n] eqn:E; [lia|].
    cbn [bitprint_loop].
    destruct (Z.leb_spec 32 (len - 0 - 1)); [reflexivity | lia]. }
  destruct H as [H|Hdata]; [lia|].
  unfold bitprint.
  (* the loop runs off the array, or fills it and the 0 byte has no place *)
  assert (Hloop : forall n d i, 0 <= i -> i + Z.of_nat n = len ->
             Z.of_nat (length d) <= len ->
             (d' ← bitprint_loop n d val len i; wr d' len x00) = Undefined).
  { induction n as [|n IH]; intros d i Hi Hn Hd.
    - cbn [bitprint_loop mbind run_bind]. unfold wr.
      destruct (Z.ltb_spec len (Z.of_nat (length d))); [lia|].
      rewrite andb_false_r. reflexivity.
    - cbn [bitprint_loop].
      destruct (Z.leb_spec 32 (len - i - 1)); [reflexivity|].
      destruct (wr d i _) as [d1| |] eqn:Ew; [|reflexivity|].
      + cbn [mbind run_bind]. apply IH; [lia | lia |].
        apply wr_length in Ew. lia.
      + unfold wr in Ew. destruct (_ && _); discriminate. }
  apply (Hloop (Z.to_nat len) data 0); lia.
Qed.

Lemma bitprint_undefined_witness :
  bitprint (repeat x00 40) 0 33 = Undefined.
Proof.
  exact (bitprint_undefined (repeat x00 40) 0 33 ltac:(lia) ltac:(left; lia)).
Defined.

(** * Words and fields *)

Lemma lor_add a b c k :
  0 <= k -> a = c * 2 ^ k -> 0 <= b < 2 ^ k -> Z.lor a b = a + b.
Proof.
  intros Hk -> Hb.
  assert (Hd : Z.land (c * 2 ^ k) b = 0).
  { apply Z.bits_inj'. intros n Hn. rewrite Z.land_spec, Z.bits_0.
    destruct (Z.lt_ge_cases n k).
    - rewrite Z.mul_pow2_bits_low by lia. reflexivity.
    - rewrite <- (Z.mod_small b (2 ^ k)) by lia.
      rewrite Z.mod_pow2_bits_high by lia. apply andb_false_r. }
  rewrite <- Z.lxor_lor by exact Hd. symmetry. apply Z.add_nocarry_lxor. exact Hd.
Qed.

Lemma le16 (b1 b0 : byte) :
  Z.lor (Z.shiftl (u8 b1) 8) (u8 b0) = u8 b0 + 256 * u8 b1.
Proof.
  pose proof (u8_range b0). rewrite Z.shiftl_mul_pow2 by lia.
  rewrite (lor_add _ _ (u8 b1) 8) by (change (2 ^ 8) with 256; lia).
  change (2 ^ 8) with 256. lia.
Qed.

Lemma le24 (b2 b1 b0 : byte) :
  Z.lor (Z.lor (Z.shiftl (u8 b2) 16) (Z.shiftl (u8 b1) 8)) (u8 b0)
  = u8 b0 + 256 * u8 b1 + 65536 * u8 b2.
Proof.
  pose proof (u8_range b0). pose proof (u8_range b1).
  rewrite !Z.shiftl_mul_pow2 by lia.
  change (2 ^ 16) with 65536. change (2 ^ 8) with 256.
  rewrite (lor_add (u8 b2 * 65536) _ (u8 b2) 16)
    by (change (2 ^ 16) with 65536; lia).
  rewrite (lor_add _ (u8 b0) (u8 b2 * 256 + u8 b1) 8)
    by (change (2 ^ 8) with 256; lia).
  lia.
Qed.

Lemma le32 (b3 b2 b1 b0 : byte) :
  Z.lor (Z.lor (Z.lor (Z.shiftl (u8 b3) 24) (Z.shiftl (u8 b2) 16))
               (Z.shiftl (u8 b1) 8))
        (u8 b0)
  = u8 b0 + 256 * u8 b1 + 65536 * u8 b2 + 16777216 * u8 b3.
Proof.
  pose proof (u8_range b0). pose proof (u8_range b1). pose proof (u8_range b2).
  rewrite !Z.shiftl_mul_pow2 by lia.
  change (2 ^ 24) with 16777216. change (2 ^ 16) with 65536. change (2 ^ 8) with 256.
  rewrite (lor_add (u8 b3 * 16777216) _ (u8 b3) 24)
    by (change (2 ^ 24) with 16777216; lia).
  rewrite (lor_add _ (u8 b1 * 256) (u8 b3 * 256 + u8 b2) 16)
    by (change (2 ^ 16) with 65536; lia).
  rewrite (lor_add _ (u8 b0) (u8 b3 * 65536 + u8 b2 * 256 + u8 b1) 8)
    by (change (2 ^ 8) with 256; lia).
  lia.
Qed.

Lemma year_field x : Z.shiftr (Z.land x 0xfe) 1 = (x / 2) mod 128.
Proof.
  rewrite Z.shiftr_land. change (Z.shiftr 0xfe 1) with (Z.ones 7).
  rewrite Z.land_ones, Z.shiftr_div_pow2 by lia. reflexivity.
Qed.

Lemma month_field w : Z.shiftr (Z.land w 0x1e0) 5 = (w / 32) mod 16.
Proof.
  rewrite Z.shiftr_land. change (Z.shiftr 0x1e0 5) with (Z.ones 4).
  rewrite Z.land_ones, Z.shiftr_div_pow2 by lia. reflexivity.
Qed.

Lemma day_field x : Z.land x 0x1f = x mod 32.
Proof. change 0x1f with (Z.ones 5). rewrite Z.land_ones by lia. reflexivity. Qed.

Lemma flag_bit v k : 0 <= k -> negb (Z.land v (Z.shiftl 1 k) =? 0) = Z.testbit v k.
Proof. intros Hk. rewrite land_bit by exact Hk. apply negb_involutive. Qed.

Lemma binary_ulong len w v :
  (len <= 31)%nat -> w mod 2 ^ 31 = v mod 2 ^ 31 ->
  binary len (ulong_of_int w) = binary len v.
Proof.
  intros Hlen H. unfold binary. apply list_fmap_ext. intros k i Hi.
  apply lookup_seq in Hi. destruct Hi as [-> Hlt]. cbn [plus]. unfold digit.
  set (m := Z.of_nat (len - 1 - k)).
  assert (Hm : 0 <= m < 31) by (unfold m; lia).
  assert (Hw : ulong_of_int w mod 2 ^ 31 = v mod 2 ^ 31).
  { rewrite <- H. unfold ulong_of_int, int32.
    change (2 ^ 31) with 2147483648. change (2 ^ 32) with 4294967296.
    change (2 ^ 64) with 18446744073709551616.
    Z.div_mod_to_equations. lia. }
  rewrite <- (Z.mod_pow2_bits_low (ulong_of_int w) 31) by lia.
  rewrite <- (Z.mod_pow2_bits_low v 31 m) by lia.
  rewrite Hw. reflexivity.
Qed.

(** * The settings block *)

Lemma rd_block frame off n blk k b :
  0 <= off -> take n (drop (Z.to_nat off) frame) = blk ->
  blk !! k = Some b -> rd frame (off + Z.of_nat k) = Done b.
Proof.
  intros H0 <- Hk. apply rd_Done. split; [lia|].
  apply lookup_take_Some in Hk. destruct Hk as [Hk _].
  rewrite lookup_drop in Hk. rewrite <- Hk. f_equal. lia.
Qed.

Ltac blk_rd Hrd frame off k z b :=
  let E := fresh "E" in
  assert (E : rd frame (off + z) = Done b) by exact (Hrd k b eq_refl);
  rewrite E; clear E; cbn [mbind run_bind].

Lemma block_cases (blk : list byte) :
  length blk = 20%nat ->
  exists b0 b1 b2 b3 b4 b5 b6 b7 b8 b9 b10 b11 b12 b13 b14 b15 b16 b17 b18 b19,
    blk = [b0; b1; b2; b3; b4; b5; b6; b7; b8; b9;
           b10; b11; b12; b13; b14; b15; b16; b17; b18; b19].
Proof.
  intros H.
  do 20 (destruct blk as [|? blk]; [discriminate H|]).
  destruct blk; [|discriminate H].
  repeat eexists.
Qed.

Lemma em_dump_settings_block frame off buf :
  0 <= off -> off + 20 <= Z.of_nat (length frame) -> (32 <= length buf)%nat ->
  em_dump_settings frame off buf
  = Done (settings_of (take 20 (drop (Z.to_nat off) frame))).
Proof.
  intros H0 Hlen Hbuf.
  destruct (block_cases (take 20 (drop (Z.to_nat off) frame)))
    as (b0 & b1 & b2 & b3 & b4 & b5 & b6 & b7 & b8 & b9 & b10 & b11 & b12
        & b13 & b14 & b15 & b16 & b17 & b18 & b19 & Hblk).
  { rewrite length_take, length_drop. lia. }
  rewrite Hblk.
  pose proof (fun k b => rd_block frame off 20 _ k b H0 Hblk) as Hrd.
  unfold em_dump_settings.
  blk_rd Hrd frame off 0%nat 0 b0. blk_rd Hrd frame off 1%nat 1 b1.
  blk_rd Hrd frame off 2%nat 2 b2. blk_rd Hrd frame off 4%nat 4 b4.
  blk_rd Hrd frame off 3%nat 3 b3. blk_rd Hrd frame off 6%nat 6 b6.
  blk_rd Hrd frame off 5%nat 5 b5.
  destruct (bitprint_string buf
              (ulong_of_int (Z.lor (Z.shiftl (u8 b6) 8) (u8 b5))) 12)
    as (buf1 & Eb1 & Hl1 & Es1); [lia | lia |].
  rewrite Eb1. cbn [mbind run_bind]. rewrite Es1. cbn [mbind run_bind].
  blk_rd Hrd frame off 10%nat 10 b10. blk_rd Hrd frame off 9%nat 9 b9.
  blk_rd Hrd frame off 8%nat 8 b8. blk_rd Hrd frame off 7%nat 7 b7.
  destruct (bitprint_string buf1
              (ulong_of_int (Z.lor (Z.lor (Z.lor (Z.shiftl (u8 b10) 24)
                                                 (Z.shiftl (u8 b9) 16))
                                          (Z.shiftl (u8 b8) 8))
                                   (u8 b7))) 31)
    as (buf2 & Eb2 & Hl2 & Es2); [lia | lia |].
  rewrite Eb2. cbn [mbind run_bind]. rewrite Es2. cbn [mbind run_bind].
  blk_rd Hrd frame off 11%nat 11 b11.
  destruct (bitprint_string buf2 (ulong_of_int (u8 b11)) 7)
    as (buf3 & Eb3 & Hl3 & Es3); [lia | lia |].
  rewrite Eb3. cbn [mbind run_bind]. rewrite Es3. cbn [mbind run_bind].
  blk_rd Hrd frame off 14%nat 14 b14. blk_rd Hrd frame off 13%nat 13 b13.
  blk_rd Hrd frame off 12%nat 12 b12.
  destruct (bitprint_string buf3
              (ulong_of_int (Z.lor (Z.lor (Z.shiftl (u8 b14) 16)
                                          (Z.shiftl (u8 b13) 8))
                                   (u8 b12))) 24)
    as (buf4 & Eb4 & Hl4 & Es4); [lia | lia |].
  rewrite Eb4. cbn [mbind run_bind]. rewrite Es4. cbn [mbind run_bind].
  blk_rd Hrd frame off 16%nat 16 b16. blk_rd Hrd frame off 15%nat 15 b15.
  blk_rd Hrd frame off 18%nat 18 b18. blk_rd Hrd frame off 17%nat 17 b17.
  blk_rd Hrd frame off 19%nat 19 b19.
  unfold settings_of. cbn [nth].
  pose proof (u8_range b16).
  f_equal. f_equal.
  - apply le16.
  - apply binary_ulong; [lia|]. rewrite le16. reflexivity.
  - apply binary_ulong; [lia|]. rewrite le32. reflexivity.
  - apply binary_ulong; [lia|]. reflexivity.
  - apply binary_ulong; [lia|]. rewrite le24. reflexivity.
  - rewrite year_field, month_field, day_field, le16.
    rewrite (Z.mod_small (u8 b16 / 2)) by (Z.div_mod_to_equations; lia).
    reflexivity.
  - apply flag_bit. lia.
  - apply le16.
  - apply flag_bit. lia.
Qed.

(** X13. [em_dump_settings] logs the 20 bytes it is given as the
    settings they stand for: the interval and the start volume as 16-bit
    numbers with their low byte first, the months, days of the month, days
    of the week and hours as strings of exactly 12, 31, 7 and 24 binary
    digits taken from 2, 4, 1 and 3 bytes, and the start date from its
    packed form.  The buffer the strings are built in is used four times
    and never mixes them. *)
Theorem em_dump_settings_decoded (frame : list byte) (off : Z) (buf : list byte) :
  0 <= off -> off + 20 <= Z.of_nat (length frame) -> (32 <= length buf)%nat ->
  em_dump_settings frame off buf
  = Done (settings_of (take 20 (drop (Z.to_nat off) frame))).
Proof. exact (em_dump_settings_block frame off buf). Qed.

Lemma em_dump_settings_decoded_witness :
  em_dump_settings (repeat x00 3 ++ repeat x01 20) 3 (repeat xff 33)
  = Done (settings_of (repeat x01 20)).
Proof.
  apply (em_dump_settings_decoded (repeat x00 3 ++ repeat x01 20) 3 (repeat xff 33));
    [lia | cbn; lia | cbn; lia].
Defined.

Lemma byte_of v k :
  0 <= k -> u8 (to_u8 (Z.land (Z.shiftr v k) 0xFF)) = (v / 2 ^ k) mod 256.
Proof.
  intros Hk. rewrite u8_to_u8. change 0xFF with (Z.ones 8).
  rewrite Z.land_ones, Z.shiftr_div_pow2 by lia.
  change (2 ^ 8) with 256. apply Z.mod_mod. lia.
Qed.

Lemma onday_word_sum cfg :
  0 <= EM_SET_ONDAY_MONTH cfg <= 15 -> 0 <= EM_SET_ONDAY_DAY cfg <= 31 ->
  onday_word cfg
  = (EM_SET_ONDAY_YEAR cfg - 2000) * 512 + EM_SET_ONDAY_MONTH cfg * 32
    + EM_SET_ONDAY_DAY cfg.
Proof.
  intros Hm Hd. unfold onday_word.
  rewrite !Z.shiftl_mul_pow2 by lia.
  change (2 ^ 9) with 512. change (2 ^ 5) with 32.
  rewrite (lor_add ((EM_SET_ONDAY_YEAR cfg - 2000) * 512) _
             (EM_SET_ONDAY_YEAR cfg - 2000) 9)
    by (change (2 ^ 9) with 512; lia).
  rewrite (lor_add _ (EM_SET_ONDAY_DAY cfg)
             ((EM_SET_ONDAY_YEAR cfg - 2000) * 16 + EM_SET_ONDAY_MONTH cfg) 5)
    by (change (2 ^ 5) with 32; lia).
  reflexivity.
Qed.

Lemma testbit_byte v k : 0 <= k < 8 -> Z.testbit (u8 (to_u8 v)) k = Z.testbit v k.
Proof.
  intros Hk. rewrite u8_to_u8. change 256 with (2 ^ 8).
  apply Z.mod_pow2_bits_low. lia.
Qed.

Lemma params_frame_block cfg :
  take 20 (drop (Z.to_nat (MBUS_FRAME_LONG_HDR_LEN + 9)) (params_frame cfg))
  = [ to_u8 (EM_SET_FLAGS cfg);
      to_u8 (EM_SET_OMSMODE cfg);
      to_u8 (EM_SET_FRAMETYPE cfg);
      to_u8 (Z.land (Z.shiftr (EM_SET_INTERVAL cfg) 0) 0xFF);
      to_u8 (Z.land (Z.shiftr (EM_SET_INTERVAL cfg) 8) 0xFF);
      to_u8 (Z.land (Z.shiftr (EM_SET_MONTHS cfg) 0) 0xFF);
      to_u8 (Z.land (Z.shiftr (EM_SET_MONTHS cfg) 8) 0xFF);
      to_u8 (Z.land (Z.shiftr (EM_SET_WEEKOMS cfg) 0) 0xFF);
      to_u8 (Z.land (Z.shiftr (EM_SET_WEEKOMS cfg) 8) 0xFF);
      to_u8 (Z.land (Z.shiftr (EM_SET_WEEKOMS cfg) 16) 0xFF);
      to_u8 (Z.land (Z.shiftr (EM_SET_WEEKOMS cfg) 24) 0xFF);
      to_u8 (EM_SET_DAYOWS cfg);
      to_u8 (Z.land (Z.shiftr (EM_SET_HOURS cfg) 0) 0xFF);
      to_u8 (Z.land (Z.shiftr (EM_SET_HOURS cfg) 8) 0xFF);
      to_u8 (Z.land (Z.shiftr (EM_SET_HOURS cfg) 16) 0xFF);
      to_u8 (Z.land (Z.shiftr (onday_word cfg) 0) 0xFF);
      to_u8 (Z.land (Z.shiftr (onday_word cfg) 8) 0xFF);
      to_u8 (Z.land (Z.shiftr (EM_SET_ONVOL cfg) 0) 0xFF);
      to_u8 (Z.land (Z.shiftr (EM_SET_ONVOL cfg) 8) 0xFF);
      to_u8 (EM_SET_OPYEARS cfg) ].
Proof. reflexivity. Qed.

Lemma params_frame_length cfg : length (params_frame cfg) = 42%nat.
Proof. reflexivity. Qed.

Ltac pow_consts :=
  change (2 ^ 0) with 1 in *; change (2 ^ 8) with 256 in *;
  change (2 ^ 16) with 65536 in *; change (2 ^ 24) with 16777216 in *;
  change (2 ^ Z.of_nat 7) with 128 in *;
  change (2 ^ Z.of_nat 12) with 4096 in *;
  change (2 ^ Z.of_nat 24) with 16777216 in *;
  change (2 ^ Z.of_nat 31) with 2147483648 in *.

Lemma config_settings cfg :
  0 <= EM_SET_INTERVAL cfg < 65536 ->
  0 <= EM_SET_ONVOL cfg < 65536 ->
  2000 <= EM_SET_ONDAY_YEAR cfg <= 2127 ->
  0 <= EM_SET_ONDAY_MONTH cfg <= 15 ->
  0 <= EM_SET_ONDAY_DAY cfg <= 31 ->
  settings_of (take 20 (drop (Z.to_nat (MBUS_FRAME_LONG_HDR_LEN + 9))
                             (params_frame cfg)))
  = {| log_flags := to_u8 (EM_SET_FLAGS cfg);
       log_omsmode := to_u8 (EM_SET_OMSMODE cfg);
       log_frametype := to_u8 (EM_SET_FRAMETYPE cfg);
       log_interval := EM_SET_INTERVAL cfg;
       log_months := binary 12 (EM_SET_MONTHS cfg);
       log_weekoms := binary 31 (EM_SET_WEEKOMS cfg);
       log_dayows := binary 7 (EM_SET_DAYOWS cfg);
       log_hours := binary 24 (EM_SET_HOURS cfg);
       log_onday := (EM_SET_ONDAY_YEAR cfg, EM_SET_ONDAY_MONTH cfg,
                     EM_SET_ONDAY_DAY cfg);
       log_onday_active := Z.testbit (EM_SET_FLAGS cfg) 4;
       log_onvol := EM_SET_ONVOL cfg;
       log_onvol_active := Z.testbit (EM_SET_FLAGS cfg) 3;
       log_opyears := to_u8 (EM_SET_OPYEARS cfg) |}.
Proof.
  intros Hi Hv Hy Hm Hd.
  rewrite params_frame_block. unfold settings_of. cbn [nth].
  rewrite !byte_of by lia. rewrite !testbit_byte by lia.
  rewrite (onday_word_sum cfg Hm Hd).
  set (w := (EM_SET_ONDAY_YEAR cfg - 2000) * 512 + EM_SET_ONDAY_MONTH cfg * 32
            + EM_SET_ONDAY_DAY cfg).
  assert (Hw : 0 <= w < 65536) by (unfold w; lia).
  f_equal.
  - pow_consts. Z.div_mod_to_equations. lia.
  - apply binary_ext. pow_consts. Z.div_mod_to_equations. lia.
  - apply binary_ext. pow_consts. Z.div_mod_to_equations. lia.
  - apply binary_ext. rewrite u8_to_u8. pow_consts. Z.div_mod_to_equations. lia.
  - apply binary_ext. pow_consts. Z.div_mod_to_equations. lia.
  - pow_consts.
    assert (Hyear : 2000 + (w / 256) mod 256 / 2 = EM_SET_ONDAY_YEAR cfg)
      by (unfold w; Z.div_mod_to_equations; lia).
    assert (Hmonth : ((w / 1) mod 256 + 256 * ((w / 256) mod 256)) / 32 mod 16
                     = EM_SET_ONDAY_MONTH cfg)
      by (unfold w; Z.div_mod_to_equations; lia).
    assert (Hday : (w / 1) mod 256 mod 32 = EM_SET_ONDAY_DAY cfg)
      by (unfold w; Z.div_mod_to_equations; lia).
    rewrite Hyear, Hmonth, Hday. reflexivity.
  - pow_consts. Z.div_mod_to_equations. lia.
Qed.

(** X14. What [em_set_params] logs through [em_dump_settings] is the
    configuration it was built with: the block that [em_set_params] lays
    out from the [EM_SET_...] values reads back as these values.  The bit
    masks read back for any value (cut to their 12, 31, 7 and 24 bits);
    the interval and the start volume must fit 16 bits, and the start date
    its 7, 4 and 5 bits. *)
Theorem em_dump_settings_of_config (cfg : em_config) (buf : list byte) :
  (32 <= length buf)%nat ->
  0 <= EM_SET_INTERVAL cfg < 65536 ->
  0 <= EM_SET_ONVOL cfg < 65536 ->
  2000 <= EM_SET_ONDAY_YEAR cfg <= 2127 ->
  0 <= EM_SET_ONDAY_MONTH cfg <= 15 ->
  0 <= EM_SET_ONDAY_DAY cfg <= 31 ->
  em_dump_settings (params_frame cfg) (MBUS_FRAME_LONG_HDR_LEN + 9) buf
  = Done {| log_flags := to_u8 (EM_SET_FLAGS cfg);
            log_omsmode := to_u8 (EM_SET_OMSMODE cfg);
            log_frametype := to_u8 (EM_SET_FRAMETYPE cfg);
            log_interval := EM_SET_INTERVAL cfg;
            log_months := binary 12 (EM_SET_MONTHS cfg);
            log_weekoms := binary 31 (EM_SET_WEEKOMS cfg);
            log_dayows := binary 7 (EM_SET_DAYOWS cfg);
            log_hours := binary 24 (EM_SET_HOURS cfg);
            log_onday := (EM_SET_ONDAY_YEAR cfg, EM_SET_ONDAY_MONTH cfg,
                          EM_SET_ONDAY_DAY cfg);
            log_onday_active := Z.testbit (EM_SET_FLAGS cfg) 4;
            log_onvol := EM_SET_ONVOL cfg;
            log_onvol_active := Z.testbit (EM_SET_FLAGS cfg) 3;
            log_opyears := to_u8 (EM_SET_OPYEARS cfg) |}.
Proof.
  intros Hbuf Hi Hv Hy Hm Hd.
  rewrite em_dump_settings_block
    by (rewrite ?params_frame_length;
        unfold MBUS_FRAME_LONG_HDR_LEN; first [assumption | lia]).
  f_equal. apply config_settings; assumption.
Qed.

Lemma em_dump_settings_of_config_witness :
  em_dump_settings (params_frame source_config) (MBUS_FRAME_LONG_HDR_LEN + 9)
    (repeat x00 33)
  = Done {| log_flags := x07;
            log_omsmode := x03;
            log_frametype := x12;
            log_interval := 420;
            log_months := repeat x31 12;
            log_weekoms := repeat x31 31;
            log_dayows := repeat x31 7;
            log_hours := repeat x31 24;
            log_onday := (2024, 1, 1);
            log_onday_active := false;
            log_onvol := 1000;
            log_onvol_active := false;
            log_opyears := x0a |}.
Proof.
  apply (em_dump_settings_of_config source_config (repeat x00 33));
    [cbn; lia | cbn; lia | cbn; lia | cbn; lia | cbn; lia | cbn; lia].
Defined.

(** * Operations that wait for an acknowledgement *)

Lemma acked_long_frame (t : port) (c a ci : byte) (payload in0 : list byte) :
  (length payload <= 246)%nat -> u8 ci <> MBUS_CI_RSPUD12 -> length in0 = 8%nat ->
  exists (ret : Z) (t' : port) (cs : byte) (h : long_header),
    mbus_io_acked t (long_frame c a ci payload)
      (Z.of_nat (length (long_frame c a ci payload))) in0 = Done (ret, t') /\
    written t' = written t ++ [long_frame_cs c a ci payload cs] /\
    mbus_checklong (long_frame_cs c a ci payload cs)
      (Z.of_nat (length (long_frame c a ci payload)))
    = Done (LongAccepted (Z.of_nat (length (long_frame c a ci payload))) h) /\
    match hd [] (incoming t) with
    | [] => ret = EIO
    | b :: _ => if u8 b =? MBUS_FRAME_ACK then ret = 0 else ret = EPROTO
    end.
Proof.
  intros Hn Hci Hin.
  destruct (long_frame_roundtrip c a ci payload Hn (or_introl Hci))
    as (cs & h & Hprep & Hv & _).
  assert (Hlen : 0 <= Z.of_nat (length (long_frame c a ci payload))
                 <= Z.of_nat (length (long_frame c a ci payload))) by lia.
  destruct (mbus_io_acked_cases t _ _ in0 _ Hprep Hlen Hin)
    as (ret & t' & Hrun & Hw & Hret).
  exists ret, t', cs, h. split; [exact Hrun|]. split; [|split; [exact Hv | exact Hret]].
  rewrite Hw. do 2 f_equal. apply take_ge.
  pose proof (long_frame_cs_length c a ci payload cs).
  pose proof (long_frame_cs_length c a ci payload x00).
  unfold long_frame. lia.
Qed.

Lemma long_frame_cs_insert c a ci payload cs :
  long_frame_cs c a ci payload cs
  = <[(7 + length payload)%nat := cs]> (long_frame c a ci payload).
Proof.
  unfold long_frame, long_frame_cs.
  rewrite insert_app_r_alt by (cbn [length]; lia). f_equal.
  rewrite insert_app_r_alt by (cbn [length]; lia).
  cbn [length].
  replace (7 + length payload - 7 - length payload)%nat with 0%nat by lia.
  reflexivity.
Qed.

Lemma params_frame_layout cfg :
  params_frame cfg
  = long_frame x53 xfe x51 (take 33 (drop 7 (params_frame cfg))).
Proof. reflexivity. Qed.

Lemma settings_offset : Z.to_nat (MBUS_FRAME_LONG_HDR_LEN + 9) = 16%nat.
Proof. reflexivity. Qed.

Lemma params_frame_logged cfg buf0 :
  (32 <= length buf0)%nat ->
  em_dump_settings (params_frame cfg) (MBUS_FRAME_LONG_HDR_LEN + 9) buf0
  = Done (settings_of (take 20 (drop 16 (params_frame cfg)))).
Proof.
  intros Hbuf.
  rewrite em_dump_settings_block
    by (rewrite ?params_frame_length;
        unfold MBUS_FRAME_LONG_HDR_LEN; first [assumption | lia]).
  rewrite settings_offset. reflexivity.
Qed.

Lemma params_payload_length cfg :
  length (take 33 (drop 7 (params_frame cfg))) = 33%nat.
Proof. reflexivity. Qed.

(** X15. [em_set_params] with any configuration: the settings block is
    logged, then the 42-byte frame is written once with its checksum byte
    filled in, and this frame is one that [mbus_checklong] accepts; the
    request is never refused by [mbus_io]'s own check.  The result is
    [EIO] when no byte comes back, 0 when the first byte that comes is the
    acknowledgement, and [EPROTO] otherwise. *)
Theorem em_set_params_outcome (cfg : em_config) (t : port) (buf0 in0 : list byte) :
  (32 <= length buf0)%nat -> length in0 = 8%nat ->
  exists (ret : Z) (t' : port) (cs : byte) (h : long_header),
    em_set_params cfg t buf0 in0
    = Done (ret, settings_of (take 20 (drop 16 (params_frame cfg))), t') /\
    written t' = written t ++ [<[40%nat := cs]> (params_frame cfg)] /\
    mbus_checklong (<[40%nat := cs]> (params_frame cfg)) 42
    = Done (LongAccepted 42 h) /\
    match hd [] (incoming t) with
    | [] => ret = EIO
    | b :: _ => if u8 b =? MBUS_FRAME_ACK then ret = 0 else ret = EPROTO
    end.
Proof.
  intros Hbuf Hin.
  destruct (acked_long_frame t x53 xfe x51 (take 33 (drop 7 (params_frame cfg))) in0)
    as (ret & t' & cs & h & Hrun & Hw & Hv & Hret);
    [rewrite params_payload_length; lia
    | intros H; vm_compute in H; discriminate H | exact Hin |].
  rewrite long_frame_cs_insert in Hw, Hv.
  rewrite <- params_frame_layout in Hrun, Hw, Hv.
  rewrite params_payload_length in Hw, Hv.
  rewrite params_frame_length in Hrun, Hv.
  exists ret, t', cs, h.
  split; [|split; [exact Hw | split; [exact Hv | exact Hret]]].
  unfold em_set_params.
  rewrite (bind_Done_l _ _ _ (params_frame_logged cfg buf0 Hbuf)).
  rewrite params_frame_length.
  rewrite (bind_Done_l _ _ _ Hrun). reflexivity.
Qed.

Lemma em_set_params_outcome_witness :
  exists (ret : Z) (t' : port) (cs : byte) (h : long_header),
    em_set_params source_config {| written := []; incoming := [[xe5]] |}
      (repeat x00 33) (repeat x00 8)
    = Done (ret, settings_of (take 20 (drop 16 (params_frame source_config))), t') /\
    written t' = [] ++ [<[40%nat := cs]> (params_frame source_config)] /\
    mbus_checklong (<[40%nat := cs]> (params_frame source_config)) 42
    = Done (LongAccepted 42 h) /\
    ret = 0.
Proof.
  exact (em_set_params_outcome source_config {| written := []; incoming := [[xe5]] |}
           (repeat x00 33) (repeat x00 8) ltac:(cbn; lia) eq_refl).
Defined.

(** * Setting the time *)

Lemma time_frame_layout timeinfo :
  time_frame timeinfo
  = long_frame x53 xfe x51 ([x04; xed; x00] ++ time_bytes timeinfo).
Proof. reflexivity. Qed.

(** X16. [em_set_time], whatever the clock and the time zone give: one
    frame of 16 bytes is written, the frame of the source with the four
    bytes of the time the device is to take and the checksum filled in,
    and [mbus_checklong] accepts it.  The result depends on the reply
    only: [EIO] for none, 0 for an acknowledgement, [EPROTO] otherwise. *)
Theorem em_set_time_outcome (localtime : Z -> tm) (rawtime : Z) (t : port)
    (in0 : list byte) :
  length in0 = 8%nat ->
  exists (ret : Z) (t' : port) (cs : byte) (h : long_header),
    em_set_time localtime rawtime t in0 = Done (ret, t') /\
    written t'
    = written t ++ [<[14%nat := cs]> (time_frame (device_time localtime rawtime))] /\
    mbus_checklong (<[14%nat := cs]> (time_frame (device_time localtime rawtime))) 16
    = Done (LongAccepted 16 h) /\
    long_payload (<[14%nat := cs]> (time_frame (device_time localtime rawtime))) 16
    = [x04; xed; x00] ++ time_bytes (device_time localtime rawtime) /\
    match hd [] (incoming t) with
    | [] => ret = EIO
    | b :: _ => if u8 b =? MBUS_FRAME_ACK then ret = 0 else ret = EPROTO
    end.
Proof.
  intros Hin. set (timeinfo := device_time localtime rawtime).
  destruct (acked_long_frame t x53 xfe x51 ([x04; xed; x00] ++ time_bytes timeinfo) in0)
    as (ret & t' & cs & h & Hrun & Hw & Hv & Hret);
    [cbn [length app time_bytes]; lia
    | intros H; vm_compute in H; discriminate H | exact Hin |].
  rewrite long_frame_cs_insert in Hw, Hv.
  rewrite <- time_frame_layout in Hrun, Hw, Hv.
  change (7 + length ([x04; xed; x00] ++ time_bytes timeinfo))%nat with 14%nat in Hw, Hv.
  change (Z.of_nat (length (time_frame timeinfo))) with 16 in Hrun, Hv.
  exists ret, t', cs, h.
  split; [exact Hrun|]. split; [exact Hw|]. split; [exact Hv|].
  split; [reflexivity | exact Hret].
Qed.

Lemma em_set_time_outcome_witness :
  let localtime := fun _ : Z =>
    {| tm_min := 30; tm_hour := 12; tm_mday := 30; tm_mon := 9; tm_year := 126;
       tm_isdst := 0 |} in
  let t := {| written := []; incoming := [] |} in
  exists (ret : Z) (t' : port) (cs : byte) (h : long_header),
    em_set_time localtime 0 t (repeat x00 8) = Done (ret, t') /\
    written t' = written t ++ [<[14%nat := cs]> (time_frame (device_time localtime 0))] /\
    mbus_checklong (<[14%nat := cs]> (time_frame (device_time localtime 0))) 16
    = Done (LongAccepted 16 h) /\
    long_payload (<[14%nat := cs]> (time_frame (device_time localtime 0))) 16
    = [x04; xed; x00] ++ time_bytes (device_time localtime 0) /\
    ret = EIO.
Proof.
  intros localtime t.
  exact (em_set_time_outcome localtime 0 t (repeat x00 8) eq_refl).
Defined.

(** * The value of a record *)

Lemma high_nibble (b : byte) : Z.shiftr (Z.land (u8 b) 0xf0) 1 = u8 b / 16 * 8.
Proof. destruct b; reflexivity. Qed.

Lemma low_nibble x : Z.land x 0xf = x mod 16.
Proof. change 0xf with (Z.ones 4). rewrite Z.land_ones by lia. reflexivity. Qed.

Lemma year_lor (lo hi : byte) :
  Z.lor (Z.shiftr (u8 lo) 5) (Z.shiftr (Z.land (u8 hi) 0xf0) 1)
  = u8 lo / 32 + u8 hi / 16 * 8.
Proof.
  pose proof (u8_range lo). pose proof (u8_range hi).
  rewrite high_nibble, Z.shiftr_div_pow2 by lia. change (2 ^ 5) with 32.
  rewrite Z.lor_comm.
  rewrite (lor_add _ _ (u8 hi / 16) 3);
    [lia | lia | reflexivity | change (2 ^ 3) with 8; Z.div_mod_to_equations; lia].
Qed.

Lemma record_step_val (frame_in : list byte) (p i : Z) (line : rec_line) (p' : Z) :
  record_step frame_in p i = Done (RecLogged line p') ->
  rec_val line
  = value_of_raw (Z.land (u8 (rec_dif line)) 0xf) (rec_vif line) (rec_raw line).
Proof.
  intros H. pose proof (record_step_not_datetime _ _ _ _ _ H) as Hnot.
  apply record_step_logged in H.
  destruct H as (v0 & dife & vife & b7 & H). cbv zeta in H.
  destruct H as (_ & _ & _ & _ & _ & _ & _ & _ & _ & Hraw & Hval & _ & _).
  set (df := Z.land (u8 (rec_dif line)) 0xf) in *.
  set (d := p + 1 + Z.shiftr (Z.land (u8 (rec_dif line)) 0x80) 7 + 1
            + Z.shiftr (Z.land (u8 v0) 0x80) 7) in *.
  apply rd_raw_Done in Hraw. destruct Hraw as (_ & _ & Hnth).
  unfold value_of_raw.
  destruct (Z.eqb_spec df 4) as [E4|N4].
  - rewrite E4 in Hnth. change (Z.to_nat (nth (Z.to_nat 4) ldb 0)) with 4%nat in Hnth.
    pose proof (Hnth 0%nat ltac:(lia)) as H0.
    pose proof (Hnth 1%nat ltac:(lia)) as H1.
    pose proof (Hnth 2%nat ltac:(lia)) as H2.
    pose proof (Hnth 3%nat ltac:(lia)) as H3.
    change (Z.of_nat 0) with 0 in H0. change (Z.of_nat 1) with 1 in H1.
    change (Z.of_nat 2) with 2 in H2. change (Z.of_nat 3) with 3 in H3.
    destruct (Z.eqb_spec (u8 (rec_vif line)) 0x6d) as [E6d|_];
      [exfalso; apply Hnot; auto|].
    cbn [andb] in Hval.
    rewrite H3, H2, H1, H0 in Hval. injection Hval as <-.
    rewrite le32. reflexivity.
  - cbn [andb] in Hval.
    destruct (Z.eqb_spec df 2) as [E2|N2].
    + rewrite E2 in Hnth. change (Z.to_nat (nth (Z.to_nat 2) ldb 0)) with 2%nat in Hnth.
      pose proof (Hnth 0%nat ltac:(lia)) as H0.
      pose proof (Hnth 1%nat ltac:(lia)) as H1.
      change (Z.of_nat 0) with 0 in H0. change (Z.of_nat 1) with 1 in H1.
      rewrite Z.add_0_r in H0.
      destruct (u8 (rec_vif line) =? 0x6c); cbn [andb] in Hval |- *.
      * rewrite H0, H1 in Hval. injection Hval as <-.
        rewrite year_lor, low_nibble, day_field. f_equal. lia.
      * injection Hval as <-. reflexivity.
    + cbn [andb] in Hval. injection Hval as <-. reflexivity.
Qed.

(** X17. The value that the decoding loop of [em_read_info] shows for a
    record that it logs is read from the record's own raw bytes, the ones
    shown as RAW: for data format 4 the number that the four bytes write
    with the low byte first, which is never negative, for data format 2
    with VIF 6C a date, whose year lies between 2000 and 2127.  A date and
    time is never shown: no record with data format 4 and VIF 6D is
    logged, since its line does not fit the line buffer. *)
Theorem record_step_value (frame_in : list byte) (p i : Z) (line : rec_line)
    (p' : Z) :
  record_step frame_in p i = Done (RecLogged line p') ->
  ~ (Z.land (u8 (rec_dif line)) 0xf = 4 /\ u8 (rec_vif line) = 0x6d) /\
  rec_val line
  = value_of_raw (Z.land (u8 (rec_dif line)) 0xf) (rec_vif line) (rec_raw line) /\
  match rec_val line with
  | ValDateTime _ _ _ _ _ => False
  | ValDate year _ _ => 2000 <= year <= 2127
  | ValInt v => 0 <= v < 2 ^ 32
  | ValNone => True
  end.
Proof.
  intros H. pose proof (record_step_val _ _ _ _ _ H) as Hv.
  split; [exact (record_step_not_datetime _ _ _ _ _ H)|].
  split; [exact Hv|]. rewrite Hv. unfold value_of_raw.
  pose proof (u8_range (nth 0 (rec_raw line) x00)).
  pose proof (u8_range (nth 1 (rec_raw line) x00)).
  pose proof (u8_range (nth 2 (rec_raw line) x00)).
  pose proof (u8_range (nth 3 (rec_raw line) x00)).
  destruct (_ =? 4).
  { change (2 ^ 32) with 4294967296. lia. }
  destruct ((_ =? 2) && _).
  { Z.div_mod_to_equations. lia. }
  exact I.
Qed.

Lemma record_step_value_witness :
  let line := {| rec_i := 0; rec_dif := x04; rec_dife := None;
                 rec_vif := x13; rec_vife := None; rec_sn := 0;
                 rec_raw := [x78; x56; x34; x12];
                 rec_val := ValInt 305419896 |} in
  ~ (Z.land (u8 (rec_dif line)) 0xf = 4 /\ u8 (rec_vif line) = 0x6d) /\
  rec_val line
  = value_of_raw (Z.land (u8 (rec_dif line)) 0xf) (rec_vif line) (rec_raw line) /\
  0 <= 305419896 < 2 ^ 32.
Proof.
  intros line.
  apply (record_step_value volume_record 0 0 line 6).
  vm_compute. reflexivity.
Defined.

(** * The time sent and the time read *)

Lemma datetime_value_bytes (b0 b1 b2 b3 : byte) :
  datetime_value [x04; x6d; b0; b1; b2; b3] 2
  = Done (ValDateTime
            (2000 + Z.lor (Z.shiftr (u8 b2) 5)
                          (Z.shiftr (Z.land (u8 b3) 0xf0) 1))
            (Z.land (u8 b3) 0xf)
            (Z.land (u8 b2) 0x1f)
            (u8 b1)
            (u8 b0)).
Proof. reflexivity. Qed.

Lemma year_masks y :
  0 <= y < 128 -> Z.land y 0x07 = y mod 8 /\ Z.land y 0x78 = y / 8 * 8.
Proof.
  intros Hy. split.
  - change 0x07 with (Z.ones 3). rewrite Z.land_ones by lia. reflexivity.
  - assert (Hall : forallb (fun z => Z.land z 0x78 =? z / 8 * 8) (seqZ 0 128) = true)
      by (vm_compute; reflexivity).
    rewrite forallb_forall in Hall. apply Z.eqb_eq, Hall.
    apply list_elem_of_In, elem_of_seqZ. lia.
Qed.

Lemma time_bytes_values timeinfo :
  0 <= tm_min timeinfo < 60 -> 0 <= tm_hour timeinfo < 24 ->
  1 <= tm_mday timeinfo <= 31 -> 0 <= tm_mon timeinfo <= 11 ->
  100 <= tm_year timeinfo <= 227 ->
  exists b0 b1 b2 b3,
    time_bytes timeinfo = [b0; b1; b2; b3] /\
    u8 b0 = tm_min timeinfo /\ u8 b1 = tm_hour timeinfo /\
    u8 b2 = (tm_year timeinfo - 100) mod 8 * 32 + tm_mday timeinfo /\
    u8 b3 = (tm_year timeinfo - 100) / 8 * 16 + (tm_mon timeinfo + 1).
Proof.
  intros Hmin Hhour Hday Hmon Hyear. unfold time_bytes.
  replace (tm_year timeinfo + 1900 - 2000) with (tm_year timeinfo - 100) by lia.
  set (y := tm_year timeinfo - 100). assert (Hy : 0 <= y < 128) by (unfold y; lia).
  destruct (year_masks y Hy) as [-> ->].
  do 4 eexists. split; [reflexivity|].
  rewrite !u8_to_u8, !Z.shiftl_mul_pow2 by lia.
  change (2 ^ 5) with 32. change (2 ^ 1) with 2.
  rewrite (lor_add (y mod 8 * 32) _ (y mod 8) 5)
    by (change (2 ^ 5) with 32; lia).
  rewrite (lor_add (y / 8 * 8 * 2) _ (y / 8) 4)
    by (change (2 ^ 4) with 16; lia).
  repeat split; Z.div_mod_to_equations; lia.
Qed.

(** X18. The time that [em_set_time] sends and the record decoder of
    [em_read_info].  The four bytes laid out for a local time between the
    years 2000 and 2127, taken as the data of a date and time record
    (DIF 04, VIF 6D), give the date and time conversion of the decoder
    that year, month, day, hour and minute.  The decoder does not show
    them: the line of the record overruns the line buffer, and the body of
    the loop has no defined result. *)
Theorem time_bytes_decoded (timeinfo : tm) (i : Z) :
  0 <= tm_min timeinfo < 60 -> 0 <= tm_hour timeinfo < 24 ->
  1 <= tm_mday timeinfo <= 31 -> 0 <= tm_mon timeinfo <= 11 ->
  100 <= tm_year timeinfo <= 227 ->
  datetime_value ([x04; x6d] ++ time_bytes timeinfo) 2
  = Done (ValDateTime (tm_year timeinfo + 1900) (tm_mon timeinfo + 1)
                      (tm_mday timeinfo) (tm_hour timeinfo) (tm_min timeinfo)) /\
  record_step ([x04; x6d] ++ time_bytes timeinfo) 0 i = Undefined.
Proof.
  intros Hmin Hhour Hday Hmon Hyear.
  destruct (time_bytes_values timeinfo Hmin Hhour Hday Hmon Hyear)
    as (b0 & b1 & b2 & b3 & -> & E0 & E1 & E2 & E3).
  cbn [app]. split.
  - rewrite datetime_value_bytes.
    rewrite year_lor, low_nibble, day_field, E0, E1, E2, E3.
    f_equal. f_equal; Z.div_mod_to_equations; lia.
  - apply (record_step_datetime_overrun _ 0 i x04 x6d); reflexivity.
Qed.

Lemma time_bytes_decoded_witness :
  let timeinfo := {| tm_min := 30; tm_hour := 12; tm_mday := 30; tm_mon := 9;
                     tm_year := 126; tm_isdst := 0 |} in
  datetime_value ([x04; x6d] ++ time_bytes timeinfo) 2
  = Done (ValDateTime 2026 10 30 12 30) /\
  record_step ([x04; x6d] ++ time_bytes timeinfo) 0 0 = Undefined.
Proof.
  intros timeinfo.
  apply (time_bytes_decoded timeinfo 0); cbn; lia.
Defined.

(** * Operations that read a reply *)

Lemma mbus_io_reply t out outlen in_ inlen r sent :
  mbus_io_prepare out outlen = Done (true, sent) ->
  mbus_io t out outlen in_ inlen = Done r ->
  io_out r = sent /\
  written (io_port r) = written t ++ [take (Z.to_nat outlen) sent] /\
  let got := take (Z.to_nat inlen) (hd [] (incoming t)) in
  (got = [] /\ io_ret r = - EIO /\ io_in r = in_) \/
  (got <> [] /\ io_ret r = Z.of_nat (length got) /\
   (length got <= length in_)%nat /\
   io_in r = got ++ drop (length got) in_).
Proof.
  intros Hp H. apply mbus_io_inv in H.
  destruct H as (ok & out' & Hp' & Hout & H).
  rewrite Hp in Hp'. injection Hp' as <- <-.
  destruct H as (t1 & Hw & Hr).
  assert (Ht1 : written t1 = written t ++ [take (Z.to_nat outlen) sent]
                /\ incoming t1 = incoming t).
  { unfold serial_write in Hw. destruct (_ && _); [|discriminate].
    injection Hw as <-. split; reflexivity. }
  destruct Ht1 as [Hw1 Hi1].
  apply serial_read_inv in Hr. destruct Hr as [Hwr Hr].
  rewrite Hi1 in Hr. rewrite Hwr, Hw1.
  split; [exact Hout|]. split; [reflexivity|]. exact Hr.
Qed.

Lemma highres_frame_prepared :
  mbus_io_prepare highres_frame (Z.of_nat (length highres_frame))
  = Done (true, highres_frame).
Proof. vm_compute. reflexivity. Qed.

Lemma get_params_frame_prepared :
  mbus_io_prepare get_params_frame (Z.of_nat (length get_params_frame))
  = Done (true, get_params_frame).
Proof. vm_compute. reflexivity. Qed.

Lemma rd_reply reply rest k b :
  0 <= k < Z.of_nat (length reply) ->
  rd (reply ++ rest) k = Done b -> reply !! Z.to_nat k = Some b.
Proof.
  intros Hk H. rewrite rd_app_l in H by exact Hk.
  apply rd_Done in H. tauto.
Qed.

Lemma int32_wrap v :
  0 <= v < 2 ^ 32 -> int32 v = if v <? 2 ^ 31 then v else v - 2 ^ 32.
Proof.
  intros Hv. unfold int32.
  change (2 ^ 32) with 4294967296 in *. change (2 ^ 31) with 2147483648.
  destruct (Z.ltb_spec v 2147483648); Z.div_mod_to_equations; lia.
Qed.

Lemma le32_range (b3 b2 b1 b0 : byte) :
  0 <= u8 b0 + 256 * u8 b1 + 65536 * u8 b2 + 16777216 * u8 b3 < 2 ^ 32.
Proof.
  pose proof (u8_range b0). pose proof (u8_range b1).
  pose proof (u8_range b2). pose proof (u8_range b3).
  change (2 ^ 32) with 4294967296. lia.
Qed.

Lemma ld_of_int_int32 v : 0 <= v < 2 ^ 32 -> ld_of_int (int32 v) = v.
Proof.
  intros Hv. unfold ld_of_int, int32.
  change (2 ^ 32) with 4294967296 in *. change (2 ^ 31) with 2147483648.
  Z.div_mod_to_equations. lia.
Qed.

(** X19. The outcomes of [em_read_highres].  On every run that returns,
    the request has been written once, with the checksum 0x12 that the
    source puts in its initialiser left as it is.  The result is [EIO]
    when no byte came and [EPROTO] when the reply was not accepted by
    [mbus_checklong] with a length of at least 25.  Otherwise it is 0 and
    the reading logged is the number that the bytes 19 to 22 of the
    received reply write with the low byte first, as an unsigned 32-bit
    number: the [int] that holds it is shown by ["%ld"], and is never
    shown as negative. *)
Theorem em_read_highres_outcome (t : port) (frame_in0 : list byte) (ret : Z)
    (reading : option Z) (t' : port) :
  em_read_highres t frame_in0 = Done (ret, reading, t') ->
  let reply := take 64 (hd [] (incoming t)) in
  written t' = written t ++ [highres_frame] /\
  ((ret = EIO /\ reading = None /\ reply = []) \/
   (ret = EPROTO /\ reading = None /\ reply <> []) \/
   (ret = 0 /\
    exists ll h b0 b1 b2 b3,
      mbus_checklong (reply ++ drop (length reply) frame_in0)
        (Z.of_nat (length reply)) = Done (LongAccepted ll h) /\
      25 <= ll <= Z.of_nat (length reply) /\
      take 4 (drop 19 reply) = [b0; b1; b2; b3] /\
      reading = Some (u8 b0 + 256 * u8 b1 + 65536 * u8 b2 + 16777216 * u8 b3))).
Proof.
  intros H reply. unfold em_read_highres in H.
  apply bind_Done in H. destruct H as [r [Hio H]].
  destruct (mbus_io_reply _ _ _ _ _ _ _ highres_frame_prepared Hio)
    as (_ & Hw & Hr).
  change (take (Z.to_nat (Z.of_nat (length highres_frame))) highres_frame)
    with highres_frame in Hw.
  change (Z.to_nat 64) with 64%nat in Hr. cbv zeta in Hr. fold reply in Hr.
  destruct (Z.ltb_spec (io_ret r) 0) as [Hneg|Hpos].
  { injection H as <- <- <-. split; [exact Hw|]. left.
    destruct Hr as [(Hg & Hn & _)|(Hg & Hn & _)]; [|lia].
    rewrite Hn. auto. }
  destruct Hr as [(Hg & Hn & _)|(Hg & Hn & Hfit & Hin)];
    [rewrite Hn in Hpos; unfold EIO in Hpos; lia|].
  apply bind_Done in H. destruct H as [v [Hv H]].
  destruct (Z.ltb_spec (long_ret v) 25) as [Hlt|Hge].
  { injection H as <- <- <-. split; [exact Hw|]. right. left. auto. }
  destruct v as [e|ll h]; [simpl in Hge; lia|]. cbn [long_ret] in Hge.
  rewrite Hn, Hin in Hv.
  pose proof (mbus_checklong_accepted _ _ _ _ Hv) as Hacc.
  destruct Hacc as (L & cs & _ & _ & _ & _ & _ & _ & Hll & _).
  rewrite Hin in H.
  unfold MBUS_FRAME_LONG_HDR_LEN, MBUS_RSPUD12_HDR_LEN in H.
  apply bind_Done in H. destruct H as [b3 [H3 H]].
  apply bind_Done in H. destruct H as [b2 [H2 H]].
  apply bind_Done in H. destruct H as [b1 [H1 H]].
  apply bind_Done in H. destruct H as [b0 [H0 H]].
  injection H as <- <- <-. split; [exact Hw|]. right. right.
  split; [reflexivity|].
  exists ll, h, b0, b1, b2, b3. split; [exact Hv|]. split; [lia|].
  apply rd_reply in H0, H1, H2, H3; try lia.
  split.
  - apply list_eq. intros k.
    destruct k as [|[|[|[|k]]]];
      rewrite ?lookup_take_lt, ?lookup_drop by lia; cbn [lookup list_lookup];
      try assumption.
    rewrite lookup_take_ge by lia. reflexivity.
  - rewrite le32, ld_of_int_int32 by apply le32_range. reflexivity.
Qed.

Lemma em_read_highres_outcome_witness :
  let t := {| written := []; incoming := [highres_reply] |} in
  let t' := {| written := [highres_frame]; incoming := [] |} in
  let reading := Some 2150913656 in
  let reply := take 64 (hd [] (incoming t)) in
  written t' = written t ++ [highres_frame] /\
  ((0 = EIO /\ reading = None /\ reply = []) \/
   (0 = EPROTO /\ reading = None /\ reply <> []) \/
   (0 = 0 /\
    exists ll h b0 b1 b2 b3,
      mbus_checklong (reply ++ drop (length reply) (repeat x00 64))
        (Z.of_nat (length reply)) = Done (LongAccepted ll h) /\
      25 <= ll <= Z.of_nat (length reply) /\
      take 4 (drop 19 reply) = [b0; b1; b2; b3] /\
      reading = Some (u8 b0 + 256 * u8 b1 + 65536 * u8 b2 + 16777216 * u8 b3))).
Proof.
  intros t t' reading.
  apply (em_read_highres_outcome t (repeat x00 64) 0 reading t').
  vm_compute. reflexivity.
Defined.

Lemma mbus_io_runs t out outlen in_ inlen sent :
  mbus_io_prepare out outlen = Done (true, sent) ->
  0 <= outlen <= Z.of_nat (length out) ->
  0 <= inlen <= Z.of_nat (length in_) ->
  exists r, mbus_io t out outlen in_ inlen = Done r.
Proof.
  intros Hp Hout Hin. unfold mbus_io.
  rewrite (bind_Done_l _ _ _ Hp).
  rewrite (bind_Done_l _ _ _ (serial_write_Done t sent outlen
             ltac:(rewrite (mbus_io_prepare_length _ _ _ _ Hp); exact Hout))).
  destruct (serial_read_Done
              {| written := written t ++ [take (Z.to_nat outlen) sent];
                 incoming := incoming t |} in_ inlen Hin)
    as (n & in' & t2 & Hr & _).
  rewrite (bind_Done_l _ _ _ Hr). eexists. reflexivity.
Qed.

Lemma block_of_reply (reply rest : list byte) :
  (39 <= length reply)%nat ->
  take 20 (drop 19 (reply ++ rest)) = take 20 (drop 19 reply).
Proof.
  intros H. rewrite drop_app_le by lia. apply take_app_le.
  rewrite length_drop. lia.
Qed.

(** X20. The outcomes of [em_get_params].  On every run that returns,
    the request has been written once, with the checksum 0x15 of the
    source's initialiser left as it is.  The result is [EIO] when no byte
    came and [EPROTO] when the reply was not accepted by [mbus_checklong]
    with a length of at least 45; nothing is logged then.  Otherwise it is
    0 and the settings logged are those of the bytes 19 to 38 of the
    received reply. *)
Theorem em_get_params_outcome (t : port) (frame_in0 buf0 : list byte) (ret : Z)
    (log : option settings_log) (t' : port) :
  (32 <= length buf0)%nat ->
  em_get_params t frame_in0 buf0 = Done (ret, log, t') ->
  let reply := take 64 (hd [] (incoming t)) in
  written t' = written t ++ [get_params_frame] /\
  ((ret = EIO /\ log = None /\ reply = []) \/
   (ret = EPROTO /\ log = None /\ reply <> []) \/
   (ret = 0 /\
    exists ll h,
      mbus_checklong (reply ++ drop (length reply) frame_in0)
        (Z.of_nat (length reply)) = Done (LongAccepted ll h) /\
      45 <= ll <= Z.of_nat (length reply) /\
      log = Some (settings_of (take 20 (drop 19 reply))))).
Proof.
  intros Hbuf H reply. unfold em_get_params in H.
  apply bind_Done in H. destruct H as [r [Hio H]].
  destruct (mbus_io_reply _ _ _ _ _ _ _ get_params_frame_prepared Hio)
    as (_ & Hw & Hr).
  change (take (Z.to_nat (Z.of_nat (length get_params_frame))) get_params_frame)
    with get_params_frame in Hw.
  change (Z.to_nat 64) with 64%nat in Hr. cbv zeta in Hr. fold reply in Hr.
  destruct (Z.ltb_spec (io_ret r) 0) as [Hneg|Hpos].
  { injection H as <- <- <-. split; [exact Hw|]. left.
    destruct Hr as [(Hg & Hn & _)|(Hg & Hn & _)]; [|lia].
    rewrite Hn. auto. }
  destruct Hr as [(Hg & Hn & _)|(Hg & Hn & Hfit & Hin)];
    [rewrite Hn in Hpos; unfold EIO in Hpos; lia|].
  apply bind_Done in H. destruct H as [v [Hv H]].
  destruct (Z.ltb_spec (long_ret v) 45) as [Hlt|Hge].
  { injection H as <- <- <-. split; [exact Hw|]. right. left. auto. }
  destruct v as [e|ll h]; [simpl in Hge; lia|]. cbn [long_ret] in Hge.
  rewrite Hn, Hin in Hv.
  pose proof (mbus_checklong_accepted _ _ _ _ Hv) as Hacc.
  destruct Hacc as (L & cs & _ & _ & _ & _ & _ & _ & Hll & _).
  rewrite Hin in H.
  rewrite em_dump_settings_block in H;
    [| unfold MBUS_FRAME_LONG_HDR_LEN, MBUS_RSPUD12_HDR_LEN; lia
     | unfold MBUS_FRAME_LONG_HDR_LEN, MBUS_RSPUD12_HDR_LEN;
       rewrite length_app; lia
     | exact Hbuf].
  cbn [mbind run_bind] in H. injection H as <- <- <-.
  split; [exact Hw|]. right. right. split; [reflexivity|].
  exists ll, h. split; [exact Hv|]. split; [lia|].
  f_equal. f_equal.
  change (Z.to_nat (MBUS_FRAME_LONG_HDR_LEN + MBUS_RSPUD12_HDR_LEN)) with 19%nat.
  apply block_of_reply. lia.
Qed.

Lemma em_get_params_outcome_witness :
  let t := {| written := []; incoming := [params_reply] |} in
  let t' := {| written := [get_params_frame]; incoming := [] |} in
  let log := Some (settings_of (take 20 (drop 16 (params_frame source_config)))) in
  let reply := take 64 (hd [] (incoming t)) in
  written t' = written t ++ [get_params_frame] /\
  ((0 = EIO /\ log = None /\ reply = []) \/
   (0 = EPROTO /\ log = None /\ reply <> []) \/
   (0 = 0 /\
    exists ll h,
      mbus_checklong (reply ++ drop (length reply) (repeat x00 64))
        (Z.of_nat (length reply)) = Done (LongAccepted ll h) /\
      45 <= ll <= Z.of_nat (length reply) /\
      log = Some (settings_of (take 20 (drop 19 reply))))).
Proof.
  intros t t' log.
  apply (em_get_params_outcome t (repeat x00 64) (repeat x00 33) 0 log t').
  - cbn. lia.
  - unfold em_get_params.
    assert (Hio : mbus_io t get_params_frame (Z.of_nat (length get_params_frame))
                    (repeat x00 64) 64
                  = Done {| io_ret := 45; io_out := get_params_frame;
                            io_in := params_reply ++ repeat x00 19;
                            io_port := t' |})
      by (vm_compute; reflexivity).
    rewrite (bind_Done_l _ _ _ Hio). cbn [io_ret io_in io_port].
    change (45 <? 0) with false. cbv iota.
    assert (Hv : exists h, mbus_checklong (params_reply ++ repeat x00 19) 45
                           = Done (LongAccepted 45 h))
      by (eexists; vm_compute; reflexivity).
    destruct Hv as [h Hv]. rewrite (bind_Done_l _ _ _ Hv). cbn [long_ret].
    change (45 <? 45) with false. cbv iota.
    rewrite em_dump_settings_block.
    + reflexivity.
    + vm_compute. discriminate.
    + vm_compute. discriminate.
    + vm_compute. lia.
Defined.

(** X21. Reading the parameters back.  When the device answers the
    parameter request with a frame that [mbus_checklong] accepts with a
    length of at least 45 and that carries, after its 19 bytes of header,
    the block that [em_set_params] sends for a configuration, then
    [em_get_params] returns 0 and logs the very settings that
    [em_set_params] logs for this configuration. *)
Theorem em_get_params_reads_back (cfg : em_config) (t : port)
    (frame_in0 buf0 : list byte) (reply : list byte) (later : list (list byte))
    (ll : Z) (h : long_header) :
  incoming t = reply :: later ->
  (length reply <= 64)%nat -> length frame_in0 = 64%nat ->
  (32 <= length buf0)%nat ->
  mbus_checklong (reply ++ drop (length reply) frame_in0) (Z.of_nat (length reply))
  = Done (LongAccepted ll h) ->
  45 <= ll ->
  take 20 (drop 19 reply) = take 20 (drop 16 (params_frame cfg)) ->
  exists (log : settings_log) (t' : port),
    em_get_params t frame_in0 buf0 = Done (0, Some log, t') /\
    em_dump_settings (params_frame cfg) (MBUS_FRAME_LONG_HDR_LEN + 9) buf0
    = Done log.
Proof.
  intros Hinc Hreply Hframe Hbuf Hv Hll Hblock.
  pose proof (mbus_checklong_accepted _ _ _ _ Hv) as Hacc.
  destruct Hacc as (L & cs & _ & _ & _ & _ & _ & _ & Hle & _).
  destruct (mbus_io_runs t get_params_frame (Z.of_nat (length get_params_frame))
              frame_in0 64 _ get_params_frame_prepared)
    as [r Hio]; [lia | lia |].
  destruct (mbus_io_reply _ _ _ _ _ _ _ get_params_frame_prepared Hio)
    as (_ & _ & Hr).
  rewrite Hinc in Hr. cbn [hd] in Hr. change (Z.to_nat 64) with 64%nat in Hr.
  rewrite take_ge in Hr by lia. cbv zeta in Hr.
  destruct Hr as [(Hg & _)|(_ & Hn & _ & Hin)];
    [rewrite Hg in Hle; cbn in Hle; lia|].
  exists (settings_of (take 20 (drop 16 (params_frame cfg)))), (io_port r).
  split; [|apply params_frame_logged; exact Hbuf].
  unfold em_get_params. rewrite (bind_Done_l _ _ _ Hio).
  destruct (Z.ltb_spec (io_ret r) 0); [lia|].
  rewrite Hn, Hin, (bind_Done_l _ _ _ Hv). cbn [long_ret].
  destruct (Z.ltb_spec ll 45); [lia|].
  rewrite em_dump_settings_block;
    [| unfold MBUS_FRAME_LONG_HDR_LEN, MBUS_RSPUD12_HDR_LEN; lia
     | unfold MBUS_FRAME_LONG_HDR_LEN, MBUS_RSPUD12_HDR_LEN;
       rewrite length_app; lia
     | exact Hbuf].
  change (Z.to_nat (MBUS_FRAME_LONG_HDR_LEN + MBUS_RSPUD12_HDR_LEN)) with 19%nat.
  rewrite block_of_reply by lia. rewrite Hblock. reflexivity.
Qed.

Lemma em_get_params_reads_back_witness :
  exists (log : settings_log) (t' : port),
    em_get_params {| written := []; incoming := [params_reply] |}
      (repeat x00 64) (repeat x00 33) = Done (0, Some log, t') /\
    em_dump_settings (params_frame source_config) (MBUS_FRAME_LONG_HDR_LEN + 9)
      (repeat x00 33) = Done log.
Proof.
  assert (Hv : exists h, mbus_checklong
                           (params_reply ++ drop (length params_reply) (repeat x00 64))
                           (Z.of_nat (length params_reply))
                         = Done (LongAccepted 45 h))
    by (eexists; vm_compute; reflexivity).
  destruct Hv as [h Hv].
  apply (em_get_params_reads_back source_config
           {| written := []; incoming := [params_reply] |}
           (repeat x00 64) (repeat x00 33) params_reply [] 45 h);
    [reflexivity | cbn; lia | reflexivity | cbn; lia | exact Hv | lia
    | vm_compute; reflexivity].
Defined.

(** * Monthly totals *)

Lemma chunk_cases (chunk : list byte) :
  length chunk = 6%nat ->
  exists b0 b1 b2 b3 b4 b5, chunk = [b0; b1; b2; b3; b4; b5].
Proof.
  intros H.
  do 6 (destruct chunk as [|? chunk]; [discriminate H|]).
  destruct chunk; [|discriminate H].
  repeat eexists.
Qed.

(** X22. A monthly record in numbers.  Record [i] of a reply is read
    from the six bytes at offset [19 + 6 * i]: the first two hold the date,
    day in the low 5 bits, month in the next 4 and year after 2000 in the
    high 7; the last four hold the reading with the low byte first, as a
    signed 32-bit number, so a reading from [2 ^ 31] on is shown as a
    negative one. *)
Theorem month_record_value (frame_in : list byte) (i : Z) :
  0 <= i -> 19 + 6 * i + 6 <= Z.of_nat (length frame_in) ->
  exists b0 b1 b2 b3 b4 b5,
    month_chunk frame_in i = [b0; b1; b2; b3; b4; b5] /\
    month_record frame_in i
    = Done {| m_year := 2000 + u8 b1 / 2;
              m_month := (u8 b0 + 256 * u8 b1) / 32 mod 16;
              m_day := u8 b0 mod 32;
              m_reading :=
                let v := u8 b2 + 256 * u8 b3 + 65536 * u8 b4 + 16777216 * u8 b5 in
                if v <? 2 ^ 31 then v else v - 2 ^ 32 |}.
Proof.
  intros Hi Hlen.
  destruct (chunk_cases (month_chunk frame_in i))
    as (b0 & b1 & b2 & b3 & b4 & b5 & Hc).
  { unfold month_chunk. rewrite length_take, length_drop. lia. }
  exists b0, b1, b2, b3, b4, b5. split; [exact Hc|].
  rewrite month_record_chunk by assumption. rewrite Hc.
  unfold month_of_chunk. cbn [nth].
  pose proof (u8_range b1).
  rewrite year_field, month_field, day_field, le16, le32.
  rewrite int32_wrap by apply le32_range.
  rewrite (Z.mod_small (u8 b1 / 2)) by (Z.div_mod_to_equations; lia).
  reflexivity.
Qed.

Lemma month_record_value_witness :
  exists b0 b1 b2 b3 b4 b5,
    month_chunk (repeat x00 19 ++ [x21; x30; x00; x00; x00; x80]) 0
    = [b0; b1; b2; b3; b4; b5] /\
    month_record (repeat x00 19 ++ [x21; x30; x00; x00; x00; x80]) 0
    = Done {| m_year := 2000 + u8 b1 / 2;
              m_month := (u8 b0 + 256 * u8 b1) / 32 mod 16;
              m_day := u8 b0 mod 32;
              m_reading :=
                let v := u8 b2 + 256 * u8 b3 + 65536 * u8 b4 + 16777216 * u8 b5 in
                if v <? 2 ^ 31 then v else v - 2 ^ 32 |}.
Proof.
  apply (month_record_value (repeat x00 19 ++ [x21; x30; x00; x00; x00; x80]) 0);
    [lia | cbn; lia].
Defined.

Lemma month_records_length n : forall frame_in i lines,
  month_records n frame_in i = Done lines -> length lines = n.
Proof.
  induction n as [|n IH]; intros frame_in i lines H; cbn [month_records] in H.
  - injection H as <-. reflexivity.
  - apply bind_Done in H. destruct H as [line [_ H]].
    apply bind_Done in H. destruct H as [rest [Hrest H]].
    injection H as <-. cbn [length]. f_equal. exact (IH _ _ _ Hrest).
Qed.

Lemma months_pass n i t frame_out frame_in acc frame_out1 sent res :
  (if i =? 1 then wr frame_out (MBUS_FRAME_LONG_HDR_LEN + 1) x03
   else Done frame_out) = Done frame_out1 ->
  mbus_io_prepare frame_out1 (Z.of_nat (length months_frame)) = Done (true, sent) ->
  length sent = 14%nat ->
  read_months_loop (S n) i t frame_out frame_in acc = Done res ->
  exists t1,
    written t1 = written t ++ [sent] /\
    ((res = (EIO, acc, t1) \/ res = (EPROTO, acc, t1)) \/
     exists lines frame_in1,
       length lines = 15%nat /\
       read_months_loop n (i + 1) t1 sent frame_in1 (acc ++ [lines]) = Done res).
Proof.
  intros Hout Hp Hlen H. cbn [read_months_loop] in H.
  rewrite (bind_Done_l _ _ _ Hout) in H.
  apply bind_Done in H. destruct H as [r [Hio H]].
  destruct (mbus_io_reply _ _ _ _ _ _ _ Hp Hio) as (Hsent & Hw & Hr).
  rewrite take_ge in Hw by (rewrite Hlen; cbn; lia).
  exists (io_port r). split; [exact Hw|].
  destruct (Z.ltb_spec (io_ret r) 0) as [Hneg|Hpos].
  { left. left. injection H as <-.
    destruct Hr as [(_ & Hn & _)|(_ & Hn & _)]; [|lia].
    rewrite Hn. reflexivity. }
  apply bind_Done in H. destruct H as [v [Hv H]].
  destruct (Z.ltb_spec (long_ret v) 111) as [Hlt|Hge].
  { left. right. injection H as <-. reflexivity. }
  right. apply bind_Done in H. destruct H as [lines [Hlines H]].
  exists lines, (io_in r). split; [exact (month_records_length _ _ _ _ Hlines)|].
  rewrite <- Hsent. exact H.
Qed.

Lemma months_end_prepared :
  mbus_io_prepare months_frame (Z.of_nat (length months_frame))
  = Done (true, months_sent_end).
Proof. vm_compute. reflexivity. Qed.

Lemma months_mid_prepared :
  mbus_io_prepare (<[8%nat := x03]> months_sent_end) (Z.of_nat (length months_frame))
  = Done (true, months_sent_mid).
Proof. vm_compute. reflexivity. Qed.

(** X23. The requests of [em_read_months].  The first request, for the
    ends of the months, is always written; the second, for the middles, is
    written only when the first reply was accepted, and it goes out with
    its VIF changed to 3 and its checksum computed anew, 0x14 where the
    first had 0x13.  The result is 0 only after two accepted replies, and
    every reply that was accepted has had its 15 records logged. *)
Theorem em_read_months_requests (t : port) (frame_in0 : list byte) (ret : Z)
    (logs : list (list month_line)) (t' : port) :
  em_read_months t frame_in0 = Done (ret, logs, t') ->
  Forall (fun lines => length lines = 15%nat) logs /\
  ((written t' = written t ++ [months_sent_end] /\ logs = [] /\
    (ret = EIO \/ ret = EPROTO)) \/
   (written t' = written t ++ [months_sent_end; months_sent_mid] /\
    ((length logs = 1%nat /\ (ret = EIO \/ ret = EPROTO)) \/
     (length logs = 2%nat /\ ret = 0)))).
Proof.
  unfold em_read_months. intros H.
  destruct (months_pass 1 0 t months_frame frame_in0 [] months_frame
              months_sent_end (ret, logs, t') eq_refl months_end_prepared
              eq_refl H)
    as (t1 & Hw1 & [Hfail | (lines1 & frame_in1 & Hl1 & H1)]).
  { assert (Hres : logs = [] /\ t' = t1 /\ (ret = EIO \/ ret = EPROTO)).
    { destruct Hfail as [Hf|Hf]; injection Hf as -> -> ->; auto. }
    destruct Hres as (-> & -> & Hret).
    split; [constructor|]. left. auto. }
  cbn [app] in H1. change (0 + 1) with 1 in H1.
  destruct (months_pass 0 1 t1 months_sent_end frame_in1 [lines1]
              (<[8%nat := x03]> months_sent_end)
              months_sent_mid (ret, logs, t') eq_refl months_mid_prepared
              eq_refl H1)
    as (t2 & Hw2 & [Hfail | (lines2 & frame_in2 & Hl2 & H2)]).
  { assert (Hres : logs = [lines1] /\ t' = t2 /\ (ret = EIO \/ ret = EPROTO)).
    { destruct Hfail as [Hf|Hf]; injection Hf as -> -> ->; auto. }
    destruct Hres as (-> & -> & Hret).
    split; [repeat constructor; exact Hl1|]. right.
    rewrite Hw2, Hw1, <- app_assoc. split; [reflexivity|]. left. auto. }
  cbn [read_months_loop app] in H2. injection H2 as <- <- <-.
  split; [repeat constructor; assumption|]. right.
  rewrite Hw2, Hw1, <- app_assoc. split; [reflexivity|]. right. auto.
Qed.

Lemma em_read_months_requests_witness :
  let t := {| written := []; incoming := [zero_months_reply] |} in
  let logs := [repeat {| m_year := 2000; m_month := 0; m_day := 0; m_reading := 0 |} 15] in
  let t' := {| written := [months_sent_end; months_sent_mid]; incoming := [] |} in
  Forall (fun lines => length lines = 15%nat) logs /\
  ((written t' = written t ++ [months_sent_end] /\ logs = [] /\
    (EIO = EIO \/ EIO = EPROTO)) \/
   (written t' = written t ++ [months_sent_end; months_sent_mid] /\
    ((length logs = 1%nat /\ (EIO = EIO \/ EIO = EPROTO)) \/
     (length logs = 2%nat /\ EIO = 0)))).
Proof.
  intros t logs t'.
  apply (em_read_months_requests t (repeat x00 256) EIO logs t').
  vm_compute. reflexivity.
Defined.

(** * The program *)

Lemma wakeup_loop_Done n : forall t frame_out,
  wakeup_loop n t frame_out
  = Done {| written := written t ++ repeat frame_out n; incoming := incoming t |}.
Proof.
  induction n as [|n IH]; intros t frame_out; cbn [wakeup_loop repeat].
  - rewrite app_nil_r. destruct t. reflexivity.
  - rewrite (bind_Done_l _ _ _ (serial_write_Done t frame_out (Z.of_nat (length frame_out)) ltac:(lia))).
    rewrite IH. cbn [written incoming].
    rewrite Nat2Z.id, firstn_all, <- app_assoc. reflexivity.
Qed.

Lemma mbus_wakeup_Done t :
  mbus_wakeup t
  = Done {| written := written t ++ repeat (repeat x55 25) 20;
            incoming := incoming t |}.
Proof. unfold mbus_wakeup. apply wakeup_loop_Done. Qed.

Lemma mbus_io_written t out outlen in_ inlen r :
  mbus_io t out outlen in_ inlen = Done r ->
  exists ws, written (io_port r) = written t ++ ws /\ (length ws <= 1)%nat.
Proof.
  intros H. apply mbus_io_sends_checked in H.
  destruct H as [(out' & _ & ->)|(out' & _ & Hw)].
  - exists []. cbn [io_port]. rewrite app_nil_r. split; [reflexivity | cbn; lia].
  - eexists. split; [exact Hw | cbn; lia].
Qed.

Lemma mbus_io_acked_written t out outlen in0 ret t' :
  mbus_io_acked t out outlen in0 = Done (ret, t') ->
  exists ws, written t' = written t ++ ws /\ (length ws <= 1)%nat.
Proof.
  unfold mbus_io_acked. intros H.
  apply bind_Done in H. destruct H as [r [Hio H]].
  apply mbus_io_written in Hio.
  destruct (io_ret r <? 0); [injection H as _ <-; exact Hio|].
  apply bind_Done in H. destruct H as [bad [_ H]].
  destruct bad; injection H as _ <-; exact Hio.
Qed.

Lemma read_months_loop_written n : forall i t frame_out frame_in acc ret logs t',
  read_months_loop n i t frame_out frame_in acc = Done (ret, logs, t') ->
  exists ws, written t' = written t ++ ws /\ (length ws <= n)%nat.
Proof.
  induction n as [|n IH]; intros i t frame_out frame_in acc ret logs t' H;
    cbn [read_months_loop] in H.
  - injection H as _ _ <-. exists []. rewrite app_nil_r. split; [reflexivity | cbn; lia].
  - apply bind_Done in H. destruct H as [frame_out1 [_ H]].
    apply bind_Done in H. destruct H as [r [Hio H]].
    apply mbus_io_written in Hio. destruct Hio as (ws & Hw & Hl).
    destruct (io_ret r <? 0).
    { injection H as _ _ <-. exists ws. split; [exact Hw | lia]. }
    apply bind_Done in H. destruct H as [v [_ H]].
    destruct (long_ret v <? 111).
    { injection H as _ _ <-. exists ws. split; [exact Hw | lia]. }
    apply bind_Done in H. destruct H as [lines [_ H]].
    apply IH in H. destruct H as (ws' & Hw' & Hl').
    exists (ws ++ ws'). rewrite Hw', Hw, app_assoc. split; [reflexivity|].
    rewrite length_app. lia.
Qed.

Lemma operation_written (cfg : em_config) (sys : system) (argv : list string)
    (t1 : port) (ret : Z) (t' : port) :
  (if command argv "set_time" then
     em_set_time (sys_localtime sys) (sys_time sys) t1 (sys_in sys)
   else if command argv "set_aes" then
     em_set_aes t1
   else if command argv "set_keyday" then
     em_set_keyday t1 (sys_in sys)
   else if command argv "set_params" then
     '(ret, _, t2) ← em_set_params cfg t1 (sys_buf sys) (sys_in sys);
     Done (ret, t2)
   else if command argv "read_months" then
     '(ret, _, t2) ← em_read_months t1 (sys_frame_in256 sys);
     Done (ret, t2)
   else if command argv "read_info" then
     '(ret, _, t2) ← em_read_info t1 (sys_frame_in256 sys);
     Done (ret, t2)
   else if command argv "read_highres" then
     '(ret, _, t2) ← em_read_highres t1 (sys_frame_in64 sys);
     Done (ret, t2)
   else
     '(ret, _, t2) ← em_get_params t1 (sys_frame_in64 sys) (sys_buf sys);
     Done (ret, t2)) = Done (ret, t') ->
  exists ws, written t' = written t1 ++ ws /\ (length ws <= 2)%nat.
Proof.
  intros H.
  assert (Hone : forall ws : list (list byte),
             (exists ws, written t' = written t1 ++ ws /\ (length ws <= 1)%nat) ->
             exists ws, written t' = written t1 ++ ws /\ (length ws <= 2)%nat).
  { intros _ (ws & Hw & Hl). exists ws. split; [exact Hw | lia]. }
  destruct (command argv "set_time").
  { apply (Hone []). exact (mbus_io_acked_written _ _ _ _ _ _ H). }
  destruct (command argv "set_aes").
  { injection H as _ <-. exists []. rewrite app_nil_r. split; [reflexivity | cbn; lia]. }
  destruct (command argv "set_keyday").
  { apply (Hone []). exact (mbus_io_acked_written _ _ _ _ _ _ H). }
  destruct (command argv "set_params").
  { apply bind_Done in H. destruct H as [[[ret0 log] t2] [H0 H]].
    injection H as _ <-. unfold em_set_params in H0.
    apply bind_Done in H0. destruct H0 as [dump [_ H0]].
    apply bind_Done in H0. destruct H0 as [[ret1 t3] [H1 H0]].
    injection H0 as _ _ <-.
    apply (Hone []). exact (mbus_io_acked_written _ _ _ _ _ _ H1). }
  destruct (command argv "read_months").
  { apply bind_Done in H. destruct H as [[[ret0 log] t2] [H0 H]].
    injection H as _ <-.
    exact (read_months_loop_written _ _ _ _ _ _ _ _ _ H0). }
  destruct (command argv "read_info").
  { apply bind_Done in H. destruct H as [[[ret0 log] t2] [H0 H]].
    injection H as _ <-. unfold em_read_info in H0.
    apply bind_Done in H0. destruct H0 as [r [Hio H0]].
    apply (Hone []). apply mbus_io_written in Hio.
    destruct (io_ret r <? 0); [injection H0 as _ _ <-; exact Hio|].
    apply bind_Done in H0. destruct H0 as [v [_ H0]].
    destruct (long_ret v <? 71); [injection H0 as _ _ <-; exact Hio|].
    apply bind_Done in H0. destruct H0 as [ls [_ H0]].
    injection H0 as _ _ <-. exact Hio. }
  destruct (command argv "read_highres").
  { apply bind_Done in H. destruct H as [[[ret0 log] t2] [H0 H]].
    injection H as _ <-. unfold em_read_highres in H0.
    apply bind_Done in H0. destruct H0 as [r [Hio H0]].
    apply (Hone []). apply mbus_io_written in Hio.
    destruct (io_ret r <? 0); [injection H0 as _ _ <-; exact Hio|].
    apply bind_Done in H0. destruct H0 as [v [_ H0]].
    destruct (long_ret v <? 25); [injection H0 as _ _ <-; exact Hio|].
    apply bind_Done in H0. destruct H0 as [b3 [_ H0]].
    apply bind_Done in H0. destruct H0 as [b2 [_ H0]].
    apply bind_Done in H0. destruct H0 as [b1 [_ H0]].
    apply bind_Done in H0. destruct H0 as [b0 [_ H0]].
    injection H0 as _ _ <-. exact Hio. }
  apply bind_Done in H. destruct H as [[[ret0 log] t2] [H0 H]].
  injection H as _ <-. unfold em_get_params in H0.
  apply bind_Done in H0. destruct H0 as [r [Hio H0]].
  apply (Hone []). apply mbus_io_written in Hio.
  destruct (io_ret r <? 0); [injection H0 as _ _ <-; exact Hio|].
  apply bind_Done in H0. destruct H0 as [v [_ H0]].
  destruct (long_ret v <? 45); [injection H0 as _ _ <-; exact Hio|].
  apply bind_Done in H0. destruct H0 as [dump [_ H0]].
  injection H0 as _ _ <-. exact Hio.
Qed.

(** X24. What [main] writes.  A run that fails before the wakeup (a
    wrong number of arguments, a port that does not open, attributes that
    cannot be set) exits with 1 and writes nothing.  Every other run first
    writes the wakeup, 20 buffers of 25 bytes 0x55, and after it at most
    two frames, whatever the command; if the port cannot be set to even
    parity after the wakeup, nothing follows it and the exit status is
    1. *)
Theorem main_wakeup_first (cfg : em_config) (sys : system) (argv : list string)
    (t : port) (ret : Z) (t' : port) :
  main cfg sys argv t = Done (ret, t') ->
  let setup_failed :=
    (length argv <> 2%nat /\ length argv <> 3%nat)
    \/ sys_open sys < 0 \/ sys_attribs_8N1 sys < 0 in
  (setup_failed -> ret = 1 /\ t' = t) /\
  (~ setup_failed ->
   exists ws,
     written t' = written t ++ repeat (repeat x55 25) 20 ++ ws /\
     (length ws <= 2)%nat /\
     (sys_attribs_8E1 sys < 0 -> ws = [] /\ ret = 1)).
Proof.
  intros H setup_failed. subst setup_failed. unfold main in H.
  destruct (Z.eqb_spec (Z.of_nat (length argv)) 2) as [E2|N2];
    destruct (Z.eqb_spec (Z.of_nat (length argv)) 3) as [E3|N3];
    cbn [negb andb] in H; try lia.
  3: { injection H as <- <-. split; [auto|]. intros Hn. exfalso. apply Hn. left. lia. }
  all: destruct (Z.ltb_spec (sys_open sys) 0) as [Ho|Ho];
    [injection H as <- <-; split; [auto | intros Hn; exfalso; apply Hn; auto]|];
    destruct (Z.ltb_spec (sys_attribs_8N1 sys) 0) as [Ha|Ha];
    [injection H as <- <-; split; [auto | intros Hn; exfalso; apply Hn; auto]|];
    (split; [intros [Hf|[Hf|Hf]]; lia|]); intros _;
    rewrite (bind_Done_l _ _ _ (mbus_wakeup_Done t)) in H;
    destruct (Z.ltb_spec (sys_attribs_8E1 sys) 0) as [Hp|Hp];
    [injection H as <- <-; exists []; cbn [written]; rewrite app_nil_r;
     split; [reflexivity | split; [cbn; lia | auto]]|];
    apply operation_written in H; destruct H as (ws & Hw & Hl);
    exists ws; cbn [written] in Hw; rewrite Hw, <- app_assoc;
    split; [reflexivity | split; [exact Hl | lia]].
Qed.

Lemma main_wakeup_first_witness :
  let sys := {| sys_open := 3; sys_attribs_8N1 := 0; sys_attribs_8E1 := 0;
                sys_time := 0;
                sys_localtime := fun _ =>
                  {| tm_min := 0; tm_hour := 0; tm_mday := 1; tm_mon := 0;
                     tm_year := 126; tm_isdst := 0 |};
                sys_in := repeat x00 8; sys_frame_in64 := repeat x00 64;
                sys_frame_in256 := repeat x00 256; sys_buf := repeat x00 33 |} in
  let argv := ["em-admin"; "/dev/ttyUSB0"; "set_keyday"] in
  let t := {| written := []; incoming := [[xe5]] |} in
  let t' := {| written := repeat (repeat x55 25) 20 ++ [keyday_sent];
               incoming := [] |} in
  let setup_failed :=
    (length argv <> 2%nat /\ length argv <> 3%nat)
    \/ sys_open sys < 0 \/ sys_attribs_8N1 sys < 0 in
  (setup_failed -> 0 = 1 /\ t' = t) /\
  (~ setup_failed ->
   exists ws,
     written t' = written t ++ repeat (repeat x55 25) 20 ++ ws /\
     (length ws <= 2)%nat /\
     (sys_attribs_8E1 sys < 0 -> ws = [] /\ 0 = 1)).
Proof.
  intros sys argv t t'.
  apply (main_wakeup_first source_config sys argv t 0 t').
  vm_compute. reflexivity.
Defined.

(** X25. [main] with the command [set_aes], on a port that opens and
    takes its attributes: the exit status is 7 and the wakeup is all that
    has been written. *)
Theorem main_set_aes (cfg : em_config) (sys : system) (argv : list string)
    (t : port) :
  length argv = 3%nat -> argv !! 2%nat = Some "set_aes" ->
  0 <= sys_open sys -> 0 <= sys_attribs_8N1 sys -> 0 <= sys_attribs_8E1 sys ->
  main cfg sys argv t
  = Done (7, {| written := written t ++ repeat (repeat x55 25) 20;
                incoming := incoming t |}).
Proof.
  intros Hlen Hcmd Ho Ha Hp. unfold main.
  rewrite Hlen. change (Z.of_nat 3 =? 2) with false. change (Z.of_nat 3 =? 3) with true.
  cbn [negb andb].
  destruct (Z.ltb_spec (sys_open sys) 0); [lia|].
  destruct (Z.ltb_spec (sys_attribs_8N1 sys) 0); [lia|].
  rewrite (bind_Done_l _ _ _ (mbus_wakeup_Done t)).
  destruct (Z.ltb_spec (sys_attribs_8E1 sys) 0); [lia|].
  unfold command. rewrite Hcmd. reflexivity.
Qed.

Lemma main_set_aes_witness :
  let sys := {| sys_open := 3; sys_attribs_8N1 := 0; sys_attribs_8E1 := 0;
                sys_time := 0;
                sys_localtime := fun _ =>
                  {| tm_min := 0; tm_hour := 0; tm_mday := 1; tm_mon := 0;
                     tm_year := 126; tm_isdst := 0 |};
                sys_in := repeat x00 8; sys_frame_in64 := repeat x00 64;
                sys_frame_in256 := repeat x00 256; sys_buf := repeat x00 33 |} in
  main source_config sys ["em-admin"; "/dev/ttyUSB0"; "set_aes"]
    {| written := []; incoming := [] |}
  = Done (7, {| written := [] ++ repeat (repeat x55 25) 20; incoming := [] |}).
Proof.
  intros sys.
  apply (main_set_aes source_config sys ["em-admin"; "/dev/ttyUSB0"; "set_aes"]
           {| written := []; incoming := [] |});
    [reflexivity | reflexivity | cbn; lia | cbn; lia | cbn; lia].
Defined.

(** X26. A command word that [main] does not know is not refused: the
    run is the one without a command word, which reads the parameters. *)
Theorem main_unknown_command (cfg : em_config) (sys : system) (argv : list string)
    (word : string) (t : port) :
  length argv = 3%nat -> argv !! 2%nat = Some word ->
  word ∉ ["set_time"; "set_aes"; "set_keyday"; "set_params"; "read_months";
          "read_info"; "read_highres"] ->
  main cfg sys argv t = main cfg sys (take 2 argv) t /\
  (0 <= sys_open sys -> 0 <= sys_attribs_8N1 sys -> 0 <= sys_attribs_8E1 sys ->
   exists t1,
     mbus_wakeup t = Done t1 /\
     main cfg sys argv t
     = ('(ret, _, t2) ← em_get_params t1 (sys_frame_in64 sys) (sys_buf sys);
        Done (ret, t2))).
Proof.
  intros Hlen Hcmd Hword.
  assert (Hno : forall name,
             name ∈ ["set_time"; "set_aes"; "set_keyday"; "set_params";
                     "read_months"; "read_info"; "read_highres"] ->
             command argv name = false /\ command (take 2 argv) name = false).
  { intros name Hname. unfold command.
    rewrite Hcmd, lookup_take_ge by lia. split; [|reflexivity].
    apply String.eqb_neq. intros ->. contradiction. }
  assert (Hlen2 : length (take 2 argv) = 2%nat) by (rewrite length_take; lia).
  unfold main. rewrite Hlen, Hlen2.
  change (Z.of_nat 3 =? 2) with false. change (Z.of_nat 3 =? 3) with true.
  change (Z.of_nat 2 =? 2) with true. cbn [negb andb].
  destruct (Hno "set_time" ltac:(apply list_elem_of_In; cbn [In]; tauto)) as [-> ->].
  destruct (Hno "set_aes" ltac:(apply list_elem_of_In; cbn [In]; tauto)) as [-> ->].
  destruct (Hno "set_keyday" ltac:(apply list_elem_of_In; cbn [In]; tauto)) as [-> ->].
  destruct (Hno "set_params" ltac:(apply list_elem_of_In; cbn [In]; tauto)) as [-> ->].
  destruct (Hno "read_months" ltac:(apply list_elem_of_In; cbn [In]; tauto)) as [-> ->].
  destruct (Hno "read_info" ltac:(apply list_elem_of_In; cbn [In]; tauto)) as [-> ->].
  destruct (Hno "read_highres" ltac:(apply list_elem_of_In; cbn [In]; tauto)) as [-> ->].
  split; [reflexivity|]. intros Ho Ha Hp.
  destruct (Z.ltb_spec (sys_open sys) 0); [lia|].
  destruct (Z.ltb_spec (sys_attribs_8N1 sys) 0); [lia|].
  eexists. split; [apply mbus_wakeup_Done|].
  rewrite (bind_Done_l _ _ _ (mbus_wakeup_Done t)).
  destruct (Z.ltb_spec (sys_attribs_8E1 sys) 0); [lia|]. reflexivity.
Qed.

Lemma main_unknown_command_witness :
  let sys := {| sys_open := 3; sys_attribs_8N1 := 0; sys_attribs_8E1 := 0;
                sys_time := 0;
                sys_localtime := fun _ =>
                  {| tm_min := 0; tm_hour := 0; tm_mday := 1; tm_mon := 0;
                     tm_year := 126; tm_isdst := 0 |};
                sys_in := repeat x00 8; sys_frame_in64 := repeat x00 64;
                sys_frame_in256 := repeat x00 256; sys_buf := repeat x00 33 |} in
  let argv := ["em-admin"; "/dev/ttyUSB0"; "get_param"] in
  let t := {| written := []; incoming := [] |} in
  main source_config sys argv t = main source_config sys (take 2 argv) t /\
  (0 <= sys_open sys -> 0 <= sys_attribs_8N1 sys -> 0 <= sys_attribs_8E1 sys ->
   exists t1,
     mbus_wakeup t = Done t1 /\
     main source_config sys argv t
     = ('(ret, _, t2) ← em_get_params t1 (sys_frame_in64 sys) (sys_buf sys);
        Done (ret, t2))).
Proof.
  intros sys argv t.
  apply (main_unknown_command source_config sys argv "get_param" t);
    [reflexivity | reflexivity |].
  intros H. repeat (apply elem_of_cons in H; destruct H as [H|H]; [discriminate H|]).
  apply elem_of_nil in H. exact H.
Defined.
